(** * Stock screening detectors: a shallow embedding and its properties

    The development follows the three Python programs of the repository:

    - [StockTrend.py]        the reversal screen (conditions B, C, D, E) and
                             the repair of glued price fields;
    - [StockTrend2.py]       the weighted signal classifier
                             ([analyze_volume_price_pattern]);
    - [StockTrend_Gemini.py] the threshold screen ([screen_stocks]).

    Numbers.  A pandas cell of dtype float64 is modelled by [Float.float]:
    NaN, the two infinities, or a finite value given by the rational it
    denotes.  Comparisons follow IEEE 754 (every comparison with NaN is
    false).  Arithmetic on finite values is exact rational arithmetic, so
    the rounding of a float64 operation and the sign of zero are not
    represented; the decimal constants of the source (0.98, 0.3, 0.5, 0.01,
    1.1, ...) stand for the decimal they are written as. *)

From Stdlib Require Import String Ascii ZArith QArith Qabs Bool Lia Lqa List.
From Stdlib Require Import Permutation Sorted.
Import ListNotations.

Set Implicit Arguments.

(* ====================================================================== *)
(** ** Floating point cells                                                *)
(* ====================================================================== *)

Module Float.

Inductive float : Type :=
| NaN
| PInf
| NInf
| Fin (q : Q).

Definition Qltb (a b : Q) : bool := negb (Qle_bool b a).

(** [a < b] *)
Definition ltb (a b : float) : bool :=
  match a, b with
  | Fin p, Fin q => Qltb p q
  | NInf, Fin _ | NInf, PInf | Fin _, PInf => true
  | _, _ => false
  end.

(** [a <= b] *)
Definition leb (a b : float) : bool :=
  match a, b with
  | Fin p, Fin q => Qle_bool p q
  | NInf, Fin _ | NInf, PInf | Fin _, PInf => true
  | NInf, NInf | PInf, PInf => true
  | _, _ => false
  end.

(** [a > b] and [a >= b] *)
Definition gtb (a b : float) : bool := ltb b a.
Definition geb (a b : float) : bool := leb b a.

(** [a == b] and [a != b] *)
Definition eqb (a b : float) : bool :=
  match a, b with
  | Fin p, Fin q => Qeq_bool p q
  | PInf, PInf | NInf, NInf => true
  | _, _ => false
  end.
Definition neb (a b : float) : bool := negb (eqb a b).

(** [pd.isna(a)] *)
Definition isna (a : float) : bool :=
  match a with NaN => true | _ => false end.

(** Truth value of a numpy float in a condition: non-zero, NaN included. *)
Definition truthy (a : float) : bool :=
  match a with Fin q => negb (Qeq_bool q 0) | _ => true end.

Definition neg (a : float) : float :=
  match a with
  | NaN => NaN | PInf => NInf | NInf => PInf | Fin q => Fin (- q)
  end.

Definition add (a b : float) : float :=
  match a, b with
  | NaN, _ | _, NaN => NaN
  | PInf, NInf | NInf, PInf => NaN
  | PInf, _ | _, PInf => PInf
  | NInf, _ | _, NInf => NInf
  | Fin p, Fin q => Fin (p + q)
  end.

Definition sub (a b : float) : float := add a (neg b).

(** Sign of a finite value: [Gt], [Eq] or [Lt] as it compares with 0. *)
Definition sgn (q : Q) : comparison := (q ?= 0)%Q.

Definition inf_of (s : comparison) : float :=
  match s with Gt => PInf | Lt => NInf | Eq => NaN end.

Definition mul (a b : float) : float :=
  match a, b with
  | NaN, _ | _, NaN => NaN
  | Fin p, Fin q => Fin (p * q)
  | PInf, PInf | NInf, NInf => PInf
  | PInf, NInf | NInf, PInf => NInf
  | PInf, Fin q | Fin q, PInf => inf_of (sgn q)
  | NInf, Fin q | Fin q, NInf => inf_of (sgn (- q))
  end.

(** numpy division: a zero divisor gives an infinity of the dividend's
    sign (0/0 is NaN) and no exception.  The only zero divisor built by the
    programs is a sum with a positive constant, hence a positive zero. *)
Definition div (a b : float) : float :=
  match a, b with
  | NaN, _ | _, NaN => NaN
  | Fin p, Fin q =>
      if Qeq_bool q 0 then inf_of (sgn p) else Fin (p / q)
  | Fin _, PInf | Fin _, NInf => Fin 0
  | PInf, Fin q => if Qltb q 0 then NInf else PInf
  | NInf, Fin q => if Qltb q 0 then PInf else NInf
  | _, _ => NaN
  end.

Definition abs (a : float) : float :=
  match a with
  | NaN => NaN | PInf | NInf => PInf | Fin q => Fin (Qabs q)
  end.

Definition of_Z (z : Z) : float := Fin (inject_Z z).

(** Python's built-in [min(a, b)] and [max(a, b)]: the first argument is
    kept unless the second compares strictly below (above) it. *)
Definition py_min (a b : float) : float := if ltb b a then b else a.
Definition py_max (a b : float) : float := if gtb b a then b else a.

(** Python's built-in [max] over a non-empty sequence; the callers test
    [len(...) > 0] first, the value on the empty list is never used. *)
Definition py_max_list (l : list float) : float :=
  match l with
  | [] => NaN
  | x :: r => fold_left py_max r x
  end.

(** [Series.max()] of pandas: NaN cells are skipped; NaN when none is left. *)
Definition series_max (l : list float) : float :=
  py_max_list (filter (fun x => negb (isna x)) l).

(** [sum(series_of_bool)]: the number of true cells. *)
Definition count_true (l : list bool) : nat :=
  length (filter (fun b => b) l).

End Float.

(* ====================================================================== *)
(** ** Positional access of pandas and Python                              *)
(* ====================================================================== *)

Module Frame.

Section Rows.
Variable A : Type.

(** [df.tail(n)] *)
Definition tail (n : nat) (l : list A) : list A :=
  skipn (length l - n) l.

(** [l[-a:-b]] for [a >= b >= 1]; a start before the first row is
    clamped to it, as Python slices do. *)
Definition slice_neg (a b : nat) (l : list A) : list A :=
  skipn (length l - a) (firstn (length l - b) l).

(** [l.iloc[-k]] for [1 <= k <= len(l)]; the source guards every use by
    a length test, [d] is returned where Python would raise. *)
Definition iloc_neg (k : nat) (l : list A) (d : A) : A :=
  nth (length l - k) l d.

(** [all(v[i] < v[i+1] for i in range(len(v)-1))] for a comparison [lt]. *)
Fixpoint all_adjacent (lt : A -> A -> bool) (l : list A) : bool :=
  match l with
  | x :: ((y :: _) as r) => lt x y && all_adjacent lt r
  | _ => true
  end.

(** The list with the row at position [i] replaced by [x]. *)
Definition replace_at (i : nat) (x : A) (l : list A) : list A :=
  firstn i l ++ x :: skipn (S i) l.

(** [df.sort_values(col)] for a column of timestamps, [key] giving a
    row's position on the time line: insertion into a list sorted by
    key, a row going behind the rows of the same key.  pandas does not
    fix the order among rows of equal keys; the properties proved on
    sorted frames hold for whichever order is taken. *)
Variable key : A -> Z.

Fixpoint insert_by (b : A) (l : list A) : list A :=
  match l with
  | [] => [b]
  | x :: r => if (key b <? key x)%Z then b :: l else x :: insert_by b r
  end.

Definition sort_by (l : list A) : list A :=
  fold_left (fun acc b => insert_by b acc) l [].

(** The order of a sorted frame: ascending, equal keys allowed. *)
Definition by_key (a b : A) : Prop := (key a <= key b)%Z.
End Rows.

End Frame.

(* ====================================================================== *)
(** ** StockTrend2.py: the signal scoring classifier                       *)
(* ====================================================================== *)

Module StockTrend2.
Import Float Frame.

(** The columns read by [analyze_volume_price_pattern], after the numeric
    coercion of its first lines: 開盤價, 最高價, 最低價, 收盤價, 成交張數.
    The frame comes from [SELECT *] on the price table, so every column
    test of the source ([col in df.columns]) succeeds. *)
Record bar : Type := {
  open_price : float;
  high_price : float;
  low_price : float;
  close_price : float;
  volume : float
}.

Definition nan_bar : bar :=
  {| open_price := NaN; high_price := NaN; low_price := NaN;
     close_price := NaN; volume := NaN |}.

(** 上車, 重倉, 減倉, 清倉, 觀望 *)
Inductive action : Type := Enter | HeavyLoad | Reduce | Exit | Hold.

(** 低, 中, 高 *)
Inductive risk_level : Type := Low | Medium | High.

(** Entries of [risk_factors]: 破支撐, 綠三兵, 頂分型, 劇烈波動,
    非高量下影線, 遇阻回落, 下跌趨勢, 上漲梯量, 量大實體小, 連紅後放量收綠. *)
Inductive risk_factor : Type :=
| BrokeSupport
| GreenThree
| TopFractal
| ViolentSwing
| LowVolumeLowerShadow
| RejectedAtResistance
| DownTrend
| RisingVolumeLadder
| BigVolumeSmallBody
| GreenAfterReds.

Definition risk_factor_eqb (a b : risk_factor) : bool :=
  match a, b with
  | BrokeSupport, BrokeSupport | GreenThree, GreenThree
  | TopFractal, TopFractal | ViolentSwing, ViolentSwing
  | LowVolumeLowerShadow, LowVolumeLowerShadow
  | RejectedAtResistance, RejectedAtResistance
  | DownTrend, DownTrend | RisingVolumeLadder, RisingVolumeLadder
  | BigVolumeSmallBody, BigVolumeSmallBody
  | GreenAfterReds, GreenAfterReds => true
  | _, _ => false
  end.

(** Entries of [signals], in the order of their [signals.append] in the
    source; the two support signals carry the price they print. *)
Inductive signal : Type :=
| SigHighVolumeDay1            (* 🔥 高量第1天（觀察） *)
| SigAboveSupport (s : float)  (* ✓ 在支撐線上方 *)
| SigBrokeSupport (s : float)  (* ✗ 跌破支撐線 *)
| SigRedThreeOnSupport         (* 🚀 支撐線上方紅三兵（上車） *)
| SigRedThree                  (* 📈 紅三兵 *)
| SigGreenThreeUnderResistance (* 📉 壓力線下方綠三兵（減倉） *)
| SigGreenThree                (* 📉 綠三兵 *)
| SigBottomFractal             (* 🎯 支撐線上方底分型（上車） *)
| SigTopFractal                (* ⚠️ 壓力線下方頂分型（減倉） *)
| SigViolentSwing              (* ⚡ 上天入地（觀望） *)
| SigLowerShadowHighVolume     (* 💡 高量下影線（機會） *)
| SigLowerShadowLowVolume      (* ⚠️ 非高量下影線（風險） *)
| SigUpperShadowAtResistance   (* ⚠️ 上影線碰壓力過不去（減倉） *)
| SigDownTrend                 (* 📉 下跌趨勢確立 *)
| SigRisingVolumeLadder        (* ⚠️ 上漲梯量（風險） *)
| SigFallingVolumeLadder       (* 💡 下跌梯量（機會） *)
| SigBigVolumeSmallBody        (* ⚠️ 量大實體小（有人跑） *)
| SigGreenAfterReds            (* 🚨 連紅≥4天見綠放量（減倉） *)
| SigHighVolumeObserve         (* 📋 高量第1天：觀察為主 *)
| SigHighVolumeDay23.          (* ✨ 高量第2-3天支撐線上方（陽上陰觀） *)

(** What a block of the source does to [action_score]: [action_score += w]
    or [action_score = 0]. *)
Inductive score_update : Type :=
| Add (w : Z)
| SetZero.

(** The effect of one block when its tests succeed: the signal appended,
    the update of the score, the risk factor appended (if any). *)
Record outcome : Type := {
  o_signal : signal;
  o_score : score_update;
  o_risk : option risk_factor
}.

(** The three accumulators of the function. *)
Record state : Type := {
  signals : list signal;
  action_score : Z;
  risk_factors : list risk_factor
}.

Definition initial : state :=
  {| signals := []; action_score := 0; risk_factors := [] |}.

Definition update_score (u : score_update) (score : Z) : Z :=
  match u with
  | Add w => score + w
  | SetZero => 0
  end%Z.

Definition apply_outcome (st : state) (o : option outcome) : state :=
  match o with
  | None => st
  | Some o =>
      {| signals := signals st ++ [o_signal o];
         action_score := update_score (o_score o) (action_score st);
         risk_factors :=
           match o_risk o with
           | Some r => risk_factors st ++ [r]
           | None => risk_factors st
           end |}
  end.

Section Blocks.
(** [recent = df.tail(10)] *)
Variable recent : list bar.

Definition latest : bar := iloc_neg 1 recent nan_bar.
Definition prev_3 : bar :=
  if (4 <=? length recent)%nat then iloc_neg 4 recent nan_bar else latest.

(** *** 1. 高量判斷 *)
Definition prev_3_vols : list float :=
  if (4 <=? length recent)%nat then map volume (slice_neg 4 1 recent)
  else [].

Definition is_high_volume : bool :=
  (0 <? length prev_3_vols)%nat
  && gtb (volume latest) (py_max_list prev_3_vols).

(** The test of the loop body for [i]: the day [i] bars back exceeds the
    three days before it. *)
Definition spike_before (i : nat) : bool :=
  let day_vol := volume (iloc_neg (i + 1) recent nan_bar) in
  let before_vols := map volume (slice_neg (i + 4) (i + 1) recent) in
  (0 <? length before_vols)%nat && gtb day_vol (py_max_list before_vols).

Definition high_volume_day : nat :=
  let d := if is_high_volume then 1%nat else 0%nat in
  if (5 <=? length recent)%nat then
    if spike_before 1 then 2%nat
    else if spike_before 2 then 3%nat
    else d
  else d.

Definition d_high_volume : option outcome :=
  if is_high_volume
  then Some {| o_signal := SigHighVolumeDay1; o_score := Add 0;
               o_risk := None |}
  else None.

(** *** 2. 支撐壓力判斷 *)
Definition support_price : option float :=
  if is_high_volume
  then Some (py_min (open_price latest) (close_price latest))
  else None.

Definition resistance_price : float :=
  series_max (map high_price recent).

Definition d_support : option outcome :=
  let current_price := close_price latest in
  match support_price with
  | Some s =>
      if negb (isna s) && negb (isna current_price) then
        if gtb current_price s then
          Some {| o_signal := SigAboveSupport s; o_score := Add 2;
                  o_risk := None |}
        else if ltb current_price s then
          Some {| o_signal := SigBrokeSupport s; o_score := Add (-5);
                  o_risk := Some BrokeSupport |}
        else None
      else None
  | None => None
  end.

(** [support_price is not None and not pd.isna(support_price) and not
    pd.isna(latest['收盤價']) and latest['收盤價'] > support_price] *)
Definition above_support : bool :=
  match support_price with
  | Some s =>
      negb (isna s) && negb (isna (close_price latest))
      && gtb (close_price latest) s
  | None => false
  end.

(** *** 3. K線型態判斷 *)
Definition d_three_soldiers : option outcome :=
  if (3 <=? length recent)%nat then
    let last_3_closes := map close_price (tail 3 recent) in
    if all_adjacent ltb last_3_closes then
      if above_support then
        Some {| o_signal := SigRedThreeOnSupport; o_score := Add 5;
                o_risk := None |}
      else
        Some {| o_signal := SigRedThree; o_score := Add 2;
                o_risk := None |}
    else if all_adjacent gtb last_3_closes then
      if truthy resistance_price
         && ltb (close_price latest) resistance_price then
        Some {| o_signal := SigGreenThreeUnderResistance;
                o_score := Add (-4); o_risk := Some GreenThree |}
      else
        Some {| o_signal := SigGreenThree; o_score := Add (-2);
                o_risk := None |}
    else None
  else None.

Definition d_bottom_fractal : option outcome :=
  if (3 <=? length recent)%nat then
    let lows := map low_price (tail 3 recent) in
    if ltb (nth 1 lows NaN) (nth 0 lows NaN)
       && ltb (nth 1 lows NaN) (nth 2 lows NaN) then
      if above_support then
        Some {| o_signal := SigBottomFractal; o_score := Add 4;
                o_risk := None |}
      else None
    else None
  else None.

Definition d_top_fractal : option outcome :=
  if (3 <=? length recent)%nat then
    let highs := map high_price (tail 3 recent) in
    if gtb (nth 1 highs NaN) (nth 0 highs NaN)
       && gtb (nth 1 highs NaN) (nth 2 highs NaN) then
      if negb (isna resistance_price)
         && negb (isna (close_price latest))
         && ltb (close_price latest) resistance_price then
        Some {| o_signal := SigTopFractal; o_score := Add (-4);
                o_risk := Some TopFractal |}
      else None
    else None
  else None.

(** *** 4. 影線判斷 *)
(** The products by 2, 0.5, 0.98 and 0.3 of the tests below are computed
    without rounding; on a frame where a test falls within a rounding of
    its bound, binary64 may take the other side. *)
Definition body_high : float :=
  py_max (open_price latest) (close_price latest).
Definition body_low : float :=
  py_min (open_price latest) (close_price latest).
Definition body_size : float :=
  abs (sub (close_price latest) (open_price latest)).
Definition upper_shadow : float := sub (high_price latest) body_high.
Definition lower_shadow : float := sub body_low (low_price latest).

Definition d_violent_swing : option outcome :=
  if gtb upper_shadow (mul body_size (Fin 2))
     || gtb lower_shadow (mul body_size (Fin 2)) then
    Some {| o_signal := SigViolentSwing; o_score := SetZero;
            o_risk := Some ViolentSwing |}
  else None.

Definition d_lower_shadow : option outcome :=
  if gtb lower_shadow (mul body_size (Fin (1 # 2))) then
    if is_high_volume then
      Some {| o_signal := SigLowerShadowHighVolume; o_score := Add 3;
              o_risk := None |}
    else
      Some {| o_signal := SigLowerShadowLowVolume; o_score := Add (-2);
              o_risk := Some LowVolumeLowerShadow |}
  else None.

Definition d_upper_shadow : option outcome :=
  if truthy resistance_price
     && geb (high_price latest) (mul resistance_price (Fin (98 # 100)))
  then
    if ltb (close_price latest) body_high then
      Some {| o_signal := SigUpperShadowAtResistance;
              o_score := Add (-3); o_risk := Some RejectedAtResistance |}
    else None
  else None.

(** *** 5. 趨勢判斷 *)
Definition d_downtrend : option outcome :=
  if (3 <=? length recent)%nat then
    let highs := map high_price (tail 3 recent) in
    let lows := map low_price (tail 3 recent) in
    if all_adjacent gtb highs && all_adjacent gtb lows then
      Some {| o_signal := SigDownTrend; o_score := Add (-3);
              o_risk := Some DownTrend |}
    else None
  else None.

(** *** 6. 量能型態 *)
Definition d_volume_ladder : option outcome :=
  if (4 <=? length recent)%nat then
    let vols := map volume (tail 4 recent) in
    if all_adjacent ltb vols then
      if gtb (close_price latest) (close_price prev_3) then
        Some {| o_signal := SigRisingVolumeLadder; o_score := Add (-3);
                o_risk := Some RisingVolumeLadder |}
      else None
    else if all_adjacent gtb vols then
      if ltb (close_price latest) (close_price prev_3) then
        Some {| o_signal := SigFallingVolumeLadder; o_score := Add 2;
                o_risk := None |}
      else None
    else None
  else None.

Definition d_small_body : option outcome :=
  if (4 <=? length recent)%nat && is_high_volume then
    let price_range := sub (high_price latest) (low_price latest) in
    if ltb body_size (mul price_range (Fin (3 # 10))) then
      Some {| o_signal := SigBigVolumeSmallBody; o_score := Add (-2);
              o_risk := Some BigVolumeSmallBody |}
    else None
  else None.

(** *** 7. 連紅/連綠判斷 *)
Definition red_count : nat :=
  count_true
    (map (fun b => gtb (close_price b) (open_price b)) (tail 4 recent)).

Definition d_consecutive_red : option outcome :=
  if (4 <=? length recent)%nat then
    if (4 <=? red_count)%nat then
      if (5 <=? length recent)%nat then
        if ltb (close_price latest) (open_price latest) && is_high_volume
        then
          Some {| o_signal := SigGreenAfterReds; o_score := Add (-4);
                  o_risk := Some GreenAfterReds |}
        else None
      else None
    else None
  else None.

(** *** 8. 高量特殊規則 *)
Definition d_high_volume_rule : option outcome :=
  if is_high_volume then
    if (high_volume_day =? 1)%nat then
      Some {| o_signal := SigHighVolumeObserve; o_score := SetZero;
              o_risk := None |}
    else if (high_volume_day =? 2)%nat || (high_volume_day =? 3)%nat then
      match support_price with
      | Some s =>
          if negb (isna s) && negb (isna (close_price latest))
             && negb (isna (open_price latest))
             && gtb (close_price latest) s then
            if gtb (close_price latest) (open_price latest) then
              Some {| o_signal := SigHighVolumeDay23; o_score := Add 3;
                      o_risk := None |}
            else None
          else None
      | None => None
      end
    else None
  else None.

(** The blocks in the order the source runs them. *)
Definition outcomes : list (option outcome) :=
  [ d_high_volume; d_support; d_three_soldiers; d_bottom_fractal;
    d_top_fractal; d_violent_swing; d_lower_shadow; d_upper_shadow;
    d_downtrend; d_volume_ladder; d_small_body; d_consecutive_red;
    d_high_volume_rule ].
End Blocks.

(** Running blocks one after another from the empty accumulators. *)
Definition run (os : list (option outcome)) : state :=
  fold_left apply_outcome os initial.

Definition accumulate (recent : list bar) : state := run (outcomes recent).

(** *** 綜合判斷 *)
Definition verdict (action_score : Z) : action * risk_level :=
  if (action_score >=? 5)%Z then (Enter, Low)
  else if (action_score >=? 8)%Z then (HeavyLoad, Low)
  else if (action_score <=? -5)%Z then (Reduce, High)
  else if (action_score <=? -8)%Z then (Exit, High)
  else (Hold, Medium).

(** 強制規則覆蓋 *)
Definition override (risk_factors : list risk_factor)
    (v : action * risk_level) : action * risk_level :=
  if existsb (risk_factor_eqb BrokeSupport) risk_factors
  then (Exit, High)
  else v.

(** The parts joined by [" | "] into [summary]. *)
Inductive summary_part : Type :=
| InsufficientData                     (* 資料不足 *)
| Found (n : nat)                      (* 發現 n 個信號 *)
| Risks (l : list risk_factor)         (* 風險因子: ... *)
| Advice (a : action).                 (* 建議: ... *)

(** The returned dictionary; the early return has no ['score'] key. *)
Record result : Type := {
  r_signals : list signal;
  r_action : action;
  r_risk_level : risk_level;
  r_summary : list summary_part;
  r_score : option Z
}.

Definition conclude (st : state) : result :=
  let '(a, r) := override (risk_factors st) (verdict (action_score st)) in
  {| r_signals := signals st;
     r_action := a;
     r_risk_level := r;
     r_summary :=
       (match signals st with [] => [] | _ => [Found (length (signals st))]
        end)
       ++ (match risk_factors st with [] => []
           | _ => [Risks (risk_factors st)] end)
       ++ [Advice a];
     r_score := Some (action_score st) |}.

Definition analyze_volume_price_pattern (df : list bar) : result :=
  if (length df <? 10)%nat then
    {| r_signals := []; r_action := Hold; r_risk_level := Medium;
       r_summary := [InsufficientData]; r_score := None |}
  else conclude (accumulate (tail 10 df)).

(** *** Quantities in which the properties are stated *)

(** A run of blocks from given accumulators. *)
Definition run_from (st : state) (os : list (option outcome)) : state :=
  fold_left apply_outcome os st.

(** The weight a block adds to the score, 0 for a block that is silent or
    resets the score. *)
Definition weight_of (o : option outcome) : Z :=
  match o with
  | Some {| o_score := Add w |} => w
  | _ => 0%Z
  end.

Definition weight_sum (os : list (option outcome)) : Z :=
  fold_right (fun o acc => (weight_of o + acc)%Z) 0%Z os.

(** Does the block put the score back to 0? *)
Definition resets (o : option outcome) : bool :=
  match o with
  | Some {| o_score := SetZero |} => true
  | _ => false
  end.

(** The final mapping in the words of the specification: heavy-load from
    8, enter from 5, exit down from -8, reduce down from -5, else hold. *)
Definition verdict_spec (score : Z) : action * risk_level :=
  if (8 <=? score)%Z then (HeavyLoad, Low)
  else if (5 <=? score)%Z then (Enter, Low)
  else if (score <=? -8)%Z then (Exit, High)
  else if (score <=? -5)%Z then (Reduce, High)
  else (Hold, Medium).

End StockTrend2.

(* ====================================================================== *)
(** ** Text cells: [str.strip], [re.findall], [str.match]                  *)
(* ====================================================================== *)

(** A cell read with [dtype=str] is modelled by a [string] of ASCII
    characters, as the exchange files hold them; [\d] is then one of
    [0]..[9].  (On other text Python's [\d] also accepts the decimal digits
    of other scripts; such cells are outside the model.) *)
Module Text.

Definition is_digit (c : ascii) : bool :=
  let n := nat_of_ascii c in ((48 <=? n) && (n <=? 57))%nat.

(** The ASCII characters removed by [str.strip()]. *)
Definition is_space (c : ascii) : bool :=
  let n := nat_of_ascii c in
  (((9 <=? n) && (n <=? 13)) || ((28 <=? n) && (n <=? 32)))%nat.

Definition dot : ascii := "."%char.
Definition dash : ascii := "-"%char.
Definition newline : ascii := ascii_of_nat 10.

Definition is_dot (c : ascii) : bool := Ascii.eqb c dot.

Fixpoint lstrip (s : list ascii) : list ascii :=
  match s with
  | c :: r => if is_space c then lstrip r else s
  | [] => []
  end.

Definition strip (s : list ascii) : list ascii :=
  rev (lstrip (rev (lstrip s))).

(** The longest prefix of at most [n] characters satisfying [p], and what
    follows it. *)
Fixpoint span_upto (n : nat) (p : ascii -> bool) (s : list ascii)
  : list ascii * list ascii :=
  match n, s with
  | S n', c :: r =>
      if p c then let '(a, b) := span_upto n' p r in (c :: a, b)
      else ([], s)
  | _, _ => ([], s)
  end.

(** The longest prefix satisfying [p], and what follows it. *)
Definition span (p : ascii -> bool) (s : list ascii)
  : list ascii * list ascii :=
  span_upto (length s) p s.

(** A match of [\d+\.\d{1,3}] starting at the head of [s].  Both
    repetitions are greedy; giving digits back never helps, because the
    character after a shorter run of digits is a digit and not the dot. *)
Definition match_price (s : list ascii) : option (list ascii) :=
  let '(ds, r) := span is_digit s in
  match ds, r with
  | _ :: _, c :: r' =>
      if is_dot c then
        match span_upto 3 is_digit r' with
        | ([], _) => None
        | (fs, _) => Some (ds ++ dot :: fs)
        end
      else None
  | _, _ => None
  end.

(** [re.findall(r'\d+\.\d{1,3}', s)]: the scan tries each position from
    the left; after a match of [n] characters it resumes [n] characters
    further ([skip] counts the characters of the last match still to be
    passed). *)
Fixpoint findall_from (skip : nat) (s : list ascii) : list (list ascii) :=
  match s with
  | [] => []
  | _ :: r =>
      match skip with
      | S k => findall_from k r
      | O =>
          match match_price s with
          | Some tok => tok :: findall_from (length tok - 1) r
          | None => findall_from 0 r
          end
      end
  end.

Definition findall_prices (s : string) : list string :=
  map string_of_list_ascii (findall_from 0 (list_ascii_of_string s)).

(** [re.match(r'^\d{4}-\d{2}-\d{2}$', s)]; [$] also matches before one
    final newline. *)
Definition date_shape (s : list ascii) : bool :=
  match s with
  | y1 :: y2 :: y3 :: y4 :: c1 :: m1 :: m2 :: c2 :: d1 :: d2 :: r =>
      forallb is_digit [y1; y2; y3; y4; m1; m2; d1; d2]
      && Ascii.eqb c1 dash && Ascii.eqb c2 dash
      && match r with
         | [] => true
         | [c] => Ascii.eqb c newline
         | _ => false
         end
  | _ => false
  end.

Definition match_date (s : string) : bool :=
  date_shape (list_ascii_of_string s).

(** A price printed with three decimals: digits, the dot, three digits. *)
Definition price3 (p : list ascii) : Prop :=
  exists ds f1 f2 f3,
    p = ds ++ dot :: [f1; f2; f3]
    /\ ds <> []
    /\ forallb is_digit (ds ++ [f1; f2; f3]) = true.

End Text.

(* ====================================================================== *)
(** ** StockTrend.py: row repair, normalisation and the reversal screen    *)
(* ====================================================================== *)

Module StockTrend.
Import Frame.

(** 策略參數 *)
Definition MIN_DATA_DAYS : nat := 60.
Definition RECENT_BOTTOM_WINDOW : nat := 10.
Definition MIN_REBOUND_AMOUNT : Q := 500.
Definition RISING_CHECK_DAYS : nat := 5.
Definition PRICE_RECENT_LOW_WINDOW : nat := 10.
Definition PRICE_RISING_DAYS : nat := 2.
Definition RECENT_OSCILLATION_DAYS : nat := 15.
Definition OSCILLATION_MIN_RANGE : Q := 500.

(** *** Rows as read *)

(** A cell of the frame read with [dtype=str]: a text, or [None] for the
    NaN that [read_csv] puts in an empty field. *)
Definition cell : Type := option string.

(** The columns the program uses ([trades], [amount] and [pe] are read and
    never looked at again by the screen). *)
Record raw_row : Type := {
  raw_date : cell;
  raw_code : cell;
  raw_name : cell;
  raw_volume : cell;
  raw_open : cell;
  raw_high : cell;
  raw_low : cell;
  raw_close : cell;
  raw_foreign_net : cell;
  raw_fund_net : cell;
  raw_dealer_net : cell
}.

Definition py_strip (s : string) : string :=
  string_of_list_ascii (Text.strip (list_ascii_of_string s)).

Definition contains_dot (s : string) : bool :=
  existsb Text.is_dot (list_ascii_of_string s).

(** 修復因缺少逗號而黏在一起的價格欄位 *)
Definition fix_price_columns (row : raw_row) : raw_row :=
  match raw_open row with
  | None => row
  | Some o =>
      let open_val := py_strip o in
      if (12 <? String.length open_val)%nat && contains_dot open_val then
        match Text.findall_prices open_val with
        | p0 :: p1 :: p2 :: p3 :: _ =>
            {| raw_date := raw_date row; raw_code := raw_code row;
               raw_name := raw_name row; raw_volume := raw_volume row;
               raw_open := Some p0; raw_high := Some p1;
               raw_low := Some p2; raw_close := Some p3;
               raw_foreign_net := raw_foreign_net row;
               raw_fund_net := raw_fund_net row;
               raw_dealer_net := raw_dealer_net row |}
        | _ =>
            {| raw_date := raw_date row; raw_code := raw_code row;
               raw_name := raw_name row; raw_volume := raw_volume row;
               raw_open := None; raw_high := raw_high row;
               raw_low := raw_low row; raw_close := raw_close row;
               raw_foreign_net := raw_foreign_net row;
               raw_fund_net := raw_fund_net row;
               raw_dealer_net := raw_dealer_net row |}
        end
      else row
  end.

(** *** Rows of the analysis *)

(** A row that survived [dropna] and the date filter.  Its numeric cells
    are finite: [None] of the coercion below stands for NaN, and the files
    hold no infinity literal. *)
Record bar : Type := {
  date : Z;
  code : cell;
  name : cell;
  volume : Q;
  open : Q;
  high : Q;
  low : Q;
  close : Q;
  foreign_net : Q;
  fund_net : Q;
  dealer_net : Q
}.

Definition Qltb : Q -> Q -> bool := Float.Qltb.

(** [np.min] of a non-empty array (the window always holds
    [MIN_DATA_DAYS] rows; 0 stands for the error on an empty one) and
    [np.max]. *)
Definition Qmin2 (a b : Q) : Q := if Qltb b a then b else a.
Definition Qmax2 (a b : Q) : Q := if Qltb a b then b else a.
Definition np_min (l : list Q) : Q :=
  match l with [] => 0 | x :: r => fold_left Qmin2 r x end.
Definition np_max (l : list Q) : Q :=
  match l with [] => 0 | x :: r => fold_left Qmax2 r x end.

(** [np.argmin]: the first position holding the minimum.  [best] is the
    least value seen so far, [best_i] its position, [i] the position of the
    head of [l]. *)
Fixpoint argmin_from (best : Q) (best_i i : nat) (l : list Q) : nat :=
  match l with
  | [] => best_i
  | x :: r =>
      if Qltb x best then argmin_from x i (S i) r
      else argmin_from best best_i (S i) r
  end.
Definition np_argmin (l : list Q) : nat :=
  match l with [] => 0%nat | x :: r => argmin_from x 0 1 r end.

(** [m] is the first position of [l] holding its least value. *)
Definition first_argmin (l : list Q) (m : nat) : Prop :=
  (m < length l)%nat
  /\ (forall j, (j < length l)%nat -> nth m l 0 <= nth j l 0)
  /\ (forall j, (j < m)%nat -> nth m l 0 < nth j l 0).

(** [Series.cumsum()]; [acc] is the sum of the rows already passed. *)
Fixpoint cumsum_from (acc : Q) (l : list Q) : list Q :=
  match l with
  | [] => []
  | x :: r => (acc + x) :: cumsum_from (acc + x) r
  end.
Definition cumsum (l : list Q) : list Q := cumsum_from 0 l.

Definition total_net (b : bar) : Q :=
  foreign_net b + fund_net b + dealer_net b.

Section Screen.
(** [recent_data = df.tail(MIN_DATA_DAYS)] *)
Variable recent_data : list bar.

Definition closes : list Q := map close recent_data.
Definition totals : list Q := map total_net recent_data.
Definition cum_vals : list Q := cumsum totals.
Definition last_cum : Q := last cum_vals 0.

(** 條件 B: 最近 3 天三大法人皆買超 *)
Definition cond_B : bool :=
  forallb (fun t => Qltb 0 t) (tail 3 totals).

(** 條件 C: 近期創新低 + 反彈足夠 + 最近累積淨額連續上升 *)
Definition global_min : Q := np_min cum_vals.
Definition min_idx : nat := np_argmin cum_vals.
Definition days_from_min_to_today : nat :=
  (length cum_vals - 1 - min_idx)%nat.
Definition recent_bottom : bool :=
  (days_from_min_to_today <=? RECENT_BOTTOM_WINDOW)%nat.
Definition enough_rebound : bool :=
  Qltb MIN_REBOUND_AMOUNT (last_cum - global_min).
Definition last_m_rising : bool :=
  if (RISING_CHECK_DAYS <=? length cum_vals)%nat
  then all_adjacent Qle_bool (tail RISING_CHECK_DAYS cum_vals)
  else true.
Definition cond_C : bool :=
  recent_bottom && enough_rebound && last_m_rising.

(** 條件 D: 股價近期創新低 + 最近幾天股價上漲 *)
Definition low_60 : Q := np_min closes.
Definition recent_low_occur : bool :=
  existsb (Qeq_bool low_60) (tail PRICE_RECENT_LOW_WINDOW closes).
Definition last_p_prices : list Q := tail PRICE_RISING_DAYS closes.
Definition price_rising : bool :=
  (2 <=? length last_p_prices)%nat && all_adjacent Qltb last_p_prices.
Definition cond_D : bool := recent_low_occur && price_rising.

(** 條件 E: 近期有震盪 + 最近3天買超 + 累積仍為負 *)
Definition osci_vals : list Q := tail RECENT_OSCILLATION_DAYS totals.
Definition has_oscillation : bool :=
  existsb (fun v => Qltb 0 v) osci_vals
  && existsb (fun v => Qltb v 0) osci_vals
  && Qltb OSCILLATION_MIN_RANGE (np_max osci_vals - np_min osci_vals).
Definition cumulative_still_negative : bool := Qltb last_cum 0.
Definition cond_E : bool :=
  has_oscillation && cond_B && cumulative_still_negative.

Definition all_pass : bool := cond_B && cond_C && cond_D && cond_E.
End Screen.

(** *** 量價形態分析函式 (the two-bar pattern of this file) *)
Inductive trend : Type := Rising | Falling | Level.

Definition classify (latest prev up down : Q) : trend :=
  if Qltb (prev * up) latest then Rising
  else if Qltb latest (prev * down) then Falling
  else Level.

(** The volume trend (增/縮/平 at ±10%) and the price trend (漲/跌/平 at
    ±1%); [None] stands for the answer 資料不足. *)
Definition analyze_volume_price_pattern (df : list bar)
  : option (trend * trend) :=
  match rev df with
  | latest :: prev :: _ =>
      Some (classify (volume latest) (volume prev) (11 # 10) (9 # 10),
            classify (close latest) (close prev) (101 # 100) (99 # 100))
  | _ => None
  end.

(** *** Normalisation *)

Section Normalise.
(** The two pandas conversions the program relies on.
    [to_numeric s] is the value of [pd.to_numeric(s, errors='coerce')],
    [None] for NaN; [to_datetime s] is [pd.to_datetime(s)], [None] when
    it raises.  A timestamp is its position on the time line. *)
Variable to_numeric : string -> option Q.
Variable to_datetime : string -> option Z.

Definition coerce (c : cell) : option Q :=
  match c with
  | Some s => to_numeric s
  | None => None
  end.

(** The date filter [df['date'].str.match(..., na=False)]. *)
Definition date_ok (r : raw_row) : bool :=
  match raw_date r with
  | Some s => Text.match_date s
  | None => false
  end.

(** Coercion of one row and [dropna] on the eight required columns:
    [None] when the row is dropped. *)
Definition numeric_row (r : raw_row) : option (raw_row * (Z -> bar)) :=
  match coerce (raw_open r), coerce (raw_high r), coerce (raw_low r),
        coerce (raw_close r), coerce (raw_foreign_net r),
        coerce (raw_fund_net r), coerce (raw_dealer_net r),
        coerce (raw_volume r) with
  | Some o, Some h, Some l, Some c, Some f, Some t, Some d, Some v =>
      Some (r, fun when =>
        {| date := when; code := raw_code r; name := raw_name r;
           volume := v; open := o; high := h; low := l; close := c;
           foreign_net := f; fund_net := t; dealer_net := d |})
  | _, _, _, _, _, _, _, _ => None
  end.

(** The rows kept by [dropna] and by the date filter, in file order,
    before their dates are converted. *)
Fixpoint kept_rows (rows : list raw_row) : list (raw_row * (Z -> bar)) :=
  match rows with
  | [] => []
  | r :: rest =>
      match numeric_row (fix_price_columns r) with
      | Some k => if date_ok r then k :: kept_rows rest
                  else kept_rows rest
      | None => kept_rows rest
      end
  end.

(** [df['date'] = pd.to_datetime(df['date'])]: one date that cannot be
    converted raises, and the function answers [None]. *)
Fixpoint convert_dates (l : list (raw_row * (Z -> bar)))
  : option (list bar) :=
  match l with
  | [] => Some []
  | (r, mk) :: rest =>
      match raw_date r with
      | Some s =>
          match to_datetime s, convert_dates rest with
          | Some t, Some bs => Some (mk t :: bs)
          | _, _ => None
          end
      | None => None
      end
  end.

(** [df.sort_values('date', inplace=True)] *)
Definition sort_values (l : list bar) : list bar := sort_by date l.

(** The frame after [reset_index]: the position in the list is the new
    index. *)
Definition normalise (rows : list raw_row) : option (list bar) :=
  match convert_dates (kept_rows rows) with
  | Some bs => Some (sort_values bs)
  | None => None
  end.

Record stock_info : Type := {
  info_code : cell;
  info_name : cell;
  info_cond_B : bool;
  info_cond_C : bool;
  info_cond_D : bool;
  info_cond_E : bool;
  info_all_pass : bool;
  info_latest_close : Q;
  info_latest_date : Z;
  info_volume_price_pattern : option (option (trend * trend))
}.

Definition analyze_stock_file (rows : list raw_row) : option stock_info :=
  match rows with
  | [] => None
  | _ =>
      match normalise rows with
      | None => None
      | Some df =>
          if (length df <? MIN_DATA_DAYS)%nat then None
          else
            let recent_data := tail MIN_DATA_DAYS df in
            match df, rev df with
            | first :: _, latest :: _ =>
                Some
                  {| info_code := code first;
                     info_name := name first;
                     info_cond_B := cond_B recent_data;
                     info_cond_C := cond_C recent_data;
                     info_cond_D := cond_D recent_data;
                     info_cond_E := cond_E recent_data;
                     info_all_pass := all_pass recent_data;
                     info_latest_close := close latest;
                     info_latest_date := date latest;
                     info_volume_price_pattern :=
                       if all_pass recent_data
                       then Some (analyze_volume_price_pattern df)
                       else None |}
            | _, _ => None
            end
      end
  end.
End Normalise.

End StockTrend.

(* ====================================================================== *)
(** ** StockTrend_Gemini.py: the threshold screen                          *)
(* ====================================================================== *)

Module StockTrendGemini.
Import Float Frame.

(** A row of the price table after the conversions at the head of
    [screen_stocks]: 日期 as a timestamp (the dates of the table convert),
    股票代碼, 股票名稱, and the eight numeric columns. *)
Record bar : Type := {
  date : Z;
  code : string;
  name : string;
  close_price : float;
  open_price : float;
  high_price : float;
  low_price : float;
  volume : float;
  foreign_net : float;
  trust_net : float;
  dealer_net : float
}.

(** The keyword arguments of [screen_stocks].  A window is a natural
    number: pandas refuses a negative one. *)
Record config : Type := {
  use_price : bool;
  use_ma : bool;
  use_vol : bool;
  use_min_vol : bool;
  use_inst : bool;
  use_shape : bool;
  max_price : float;
  vol_ratio_limit : float;
  min_volume : float;
  shadow_limit : float;
  ma_short : nat;
  ma_long : nat
}.

Definition default_config : config :=
  {| use_price := true; use_ma := true; use_vol := true;
     use_min_vol := true; use_inst := true; use_shape := true;
     max_price := Fin 100; vol_ratio_limit := Fin (12 # 10);
     min_volume := Fin 5000; shadow_limit := Fin (2 # 10);
     ma_short := 5; ma_long := 20 |}.

(** The last cell of [col.rolling(window=w).mean()]: NaN unless the last
    [w] cells exist and none is NaN ([min_periods] is the window), else
    their mean.  (A window of 0 has no observation and gives NaN.) *)
Definition rolling_mean_last (w : nat) (col : list float) : float :=
  if (w =? 0)%nat || (length col <? w)%nat then NaN
  else
    let cells := tail w col in
    if existsb isna cells then NaN
    else div (fold_left add cells (Fin 0)) (of_Z (Z.of_nat w)).

(** The dictionary returned on a pass; the percentages are kept as
    numbers (the source rounds and prints them). *)
Record pass_record : Type := {
  p_code : string;
  p_name : string;
  p_close : float;
  p_change : float;
  p_vol_ratio : float;
  p_inst_total : float;
  p_shadow_ratio : float;
  p_latest_date : Z
}.

Section Conditions.
Variable cfg : config.
(** The frame after [sort_values('日期').reset_index(drop=True)]. *)
Variable df : list bar.
Variable latest : bar.

Definition MA_S : float :=
  rolling_mean_last (ma_short cfg) (map close_price df).
Definition MA_L : float :=
  rolling_mean_last (ma_long cfg) (map close_price df).
Definition VolMA : float :=
  rolling_mean_last (ma_short cfg) (map volume df).

(** 價格條件 *)
Definition c_price : bool :=
  if use_price cfg then leb (close_price latest) (max_price cfg)
  else true.

(** 均線趨勢 (收盤 > 短均 > 長均) *)
Definition c_ma : bool :=
  if use_ma cfg then gtb (close_price latest) MA_S && gtb MA_S MA_L
  else true.

(** 量能爆發.  The mean and the quotient are computed here without
    rounding; binary64 rounds each of them once, which moves the quotient
    by a few units in its last place. *)
Definition actual_vol_ratio : float :=
  if neb VolMA (Fin 0) then div (volume latest) VolMA else Fin 0.
Definition c_vol : bool :=
  if use_vol cfg then geb actual_vol_ratio (vol_ratio_limit cfg)
  else true.

(** 最低成交量 *)
Definition c_min_vol : bool :=
  if use_min_vol cfg then geb (volume latest) (min_volume cfg) else true.

(** 法人籌碼 *)
Definition inst_total : float :=
  add (add (foreign_net latest) (trust_net latest)) (dealer_net latest).
Definition c_inst : bool :=
  if use_inst cfg then gtb inst_total (Fin 0) else true.

(** K線型態.  The sum with 0.01 and the quotient are computed here without
    rounding; in binary64 the 0.01 is lost on a range of 2^48 or more. *)
Definition candle_range : float :=
  sub (high_price latest) (low_price latest).
Definition upper_shadow : float :=
  sub (high_price latest)
      (py_max (open_price latest) (close_price latest)).
Definition actual_shadow_ratio : float :=
  div upper_shadow (add candle_range (Fin (1 # 100))).
Definition c_shape : bool :=
  if use_shape cfg then leb actual_shadow_ratio (shadow_limit cfg)
  else true.

(** [all([c_price, c_ma, c_vol, c_min_vol, c_inst, c_shape])] *)
Definition all_conditions : bool :=
  forallb (fun c => c) [c_price; c_ma; c_vol; c_min_vol; c_inst; c_shape].
End Conditions.

(** [screen_stocks]: [None] when the frame is shorter than [ma_long], when
    the conditions fail, and when an exception is caught, which here is
    [df.iloc[-1]] or [df.iloc[-2]] on a frame of fewer than two rows. *)
Definition screen_stocks (cfg : config) (rows : list bar)
  : option pass_record :=
  let df := sort_by date rows in
  if (length df <? ma_long cfg)%nat then None
  else
    match rev df with
    | latest :: prev :: _ =>
        if all_conditions cfg df latest then
          Some
            {| p_code := code latest;
               p_name := name latest;
               p_close := close_price latest;
               p_change :=
                 mul (div (sub (close_price latest) (close_price prev))
                          (close_price prev))
                     (Fin 100);
               p_vol_ratio := actual_vol_ratio cfg df latest;
               p_inst_total := inst_total latest;
               p_shadow_ratio := actual_shadow_ratio latest;
               p_latest_date := date latest |}
        else None
    | _ => None
    end.

End StockTrendGemini.

(* ====================================================================== *)
(** ** Concrete conversions and series used in the examples                *)
(* ====================================================================== *)

Module Samples.

(** *** The pandas conversions on plain numerals and ISO dates *)

Definition digit_value (c : ascii) : Z := Z.of_nat (nat_of_ascii c) - 48.

(** The number written by a run of digits, [acc] being the value of the
    digits already read. *)
Fixpoint digits_value (acc : Z) (s : list ascii) : Z :=
  match s with
  | [] => acc
  | c :: r => digits_value (10 * acc + digit_value c) r
  end.

Definition all_digits (s : list ascii) : bool :=
  negb (Nat.eqb (length s) 0) && forallb Text.is_digit s.

(** [digits] or [digits.digits], without sign. *)
Definition unsigned_decimal (s : list ascii) : option Q :=
  let '(ip, r) := Text.span Text.is_digit s in
  match r with
  | [] => if all_digits ip then Some (inject_Z (digits_value 0 ip)) else None
  | c :: fp =>
      if Text.is_dot c && all_digits ip && all_digits fp
      then Some (Qred (Qmake (digits_value 0 (ip ++ fp))
                        (Pos.pow 10 (Pos.of_nat (length fp)))))
      else None
  end.

(** [pd.to_numeric(s, errors='coerce')] on a plain decimal numeral with an
    optional minus sign; any other text is answered NaN here. *)
Definition to_numeric (s : string) : option Q :=
  match list_ascii_of_string s with
  | c :: r =>
      if Ascii.eqb c Text.dash
      then option_map Qopp (unsigned_decimal r)
      else unsigned_decimal (c :: r)
  | [] => None
  end.

Definition leap_year (y : Z) : bool :=
  ((y mod 4 =? 0) && negb (y mod 100 =? 0) || (y mod 400 =? 0))%Z.

Definition days_in_month (y m : Z) : Z :=
  if (m =? 2)%Z then (if leap_year y then 29 else 28)
  else if ((m =? 4) || (m =? 6) || (m =? 9) || (m =? 11))%Z then 30
  else 31.

(** [pd.to_datetime(s)] on a text of the shape YYYY-MM-DD: the day is
    numbered year * 10000 + month * 100 + day, which orders calendar days
    as time does; a month or day out of range raises. *)
Definition to_datetime (s : string) : option Z :=
  match list_ascii_of_string s with
  | [y1; y2; y3; y4; _; m1; m2; _; d1; d2] =>
      if Text.match_date s then
        let y := digits_value 0 [y1; y2; y3; y4] in
        let m := digits_value 0 [m1; m2] in
        let d := digits_value 0 [d1; d2] in
        if ((1 <=? m) && (m <=? 12) && (1 <=? d)
            && (d <=? days_in_month y m))%Z
        then Some (y * 10000 + m * 100 + d)%Z
        else None
      else None
  | _ => None
  end.

(** *** Rows and windows for the reversal screen of StockTrend.py *)

Definition text_row (d o h l c f t dl v : string) : StockTrend.raw_row :=
  {| StockTrend.raw_date := Some d;
     StockTrend.raw_code := Some "2330"%string;
     StockTrend.raw_name := Some "TSMC"%string;
     StockTrend.raw_volume := Some v;
     StockTrend.raw_open := Some o;
     StockTrend.raw_high := Some h;
     StockTrend.raw_low := Some l;
     StockTrend.raw_close := Some c;
     StockTrend.raw_foreign_net := Some f;
     StockTrend.raw_fund_net := Some t;
     StockTrend.raw_dealer_net := Some dl |}.

(** Three rows, two of them of 2024-01-02. *)
Definition twice_a_day : list StockTrend.raw_row :=
  [ text_row "2024-01-03" "12.5" "12.6" "12.4" "12.5" "10" "5" "3" "900";
    text_row "2024-01-02" "11.5" "11.6" "11.4" "11.5" "8" "2" "1" "800";
    text_row "2024-01-02" "10.5" "10.6" "10.4" "10.5" "-4" "0" "1" "700" ].

(** A row whose four prices lost their separators. *)
Definition glued_row : StockTrend.raw_row :=
  {| StockTrend.raw_date := Some "2024-01-02"%string;
     StockTrend.raw_code := Some "2330"%string;
     StockTrend.raw_name := Some "TSMC"%string;
     StockTrend.raw_volume := Some "700"%string;
     StockTrend.raw_open := Some "12.50012.60012.40012.550"%string;
     StockTrend.raw_high := None;
     StockTrend.raw_low := None;
     StockTrend.raw_close := None;
     StockTrend.raw_foreign_net := Some "1"%string;
     StockTrend.raw_fund_net := Some "2"%string;
     StockTrend.raw_dealer_net := Some "3"%string |}.

Definition day (when close foreign fund dealer : Z) : StockTrend.bar :=
  {| StockTrend.date := when;
     StockTrend.code := Some "2330"%string;
     StockTrend.name := Some "TSMC"%string;
     StockTrend.volume := 1000;
     StockTrend.open := inject_Z close;
     StockTrend.high := inject_Z close;
     StockTrend.low := inject_Z close;
     StockTrend.close := inject_Z close;
     StockTrend.foreign_net := inject_Z foreign;
     StockTrend.fund_net := inject_Z fund;
     StockTrend.dealer_net := inject_Z dealer |}.

(** Selling down to a bottom four days back, then buying: the cumulated
    net runs -900, -2000, -1800, -1600, -900, -100 and the closes 50, 45,
    45, 46, 47, 48. *)
Definition rebound : list StockTrend.bar :=
  [ day 1 50 (-600) (-200) (-100); day 2 45 (-700) (-300) (-100);
    day 3 45 100 50 50; day 4 46 100 50 50;
    day 5 47 400 200 100; day 6 48 500 200 100 ].

(** *** Series for the classifier of StockTrend2.py *)

Definition candle (o h l c v : Z) : StockTrend2.bar :=
  {| StockTrend2.open_price := Float.of_Z o;
     StockTrend2.high_price := Float.of_Z h;
     StockTrend2.low_price := Float.of_Z l;
     StockTrend2.close_price := Float.of_Z c;
     StockTrend2.volume := Float.of_Z v |}.

Definition quiet : StockTrend2.bar := candle 9 9 9 9 100.

(** Two volume spikes in a row on three rising closes: the score is 10. *)
Definition rising_spike : list StockTrend2.bar :=
  [ quiet; quiet; quiet; quiet; quiet; quiet; quiet;
    candle 9 9 9 9 90; candle 9 10 9 10 200; candle 10 11 10 11 300 ].

(** Three falling closes under a top fractal: the score is -8. *)
Definition falling_top : list StockTrend2.bar :=
  [ quiet; quiet; quiet; quiet; quiet; quiet; quiet;
    candle 12 12 12 12 100; candle 11 20 11 11 100;
    candle 11 11 10 10 100 ].

(** Three rising closes, the last bar with an upper shadow of three times
    its body. *)
Definition long_wick : list StockTrend2.bar :=
  [ quiet; quiet; quiet; quiet; quiet; quiet; quiet;
    candle 9 9 9 9 100; candle 9 10 9 10 100; candle 10 14 10 11 100 ].

(** Four red bars, then a green bar on the highest volume (the bar before
    it is a spike too, so the day-1 rule does not reset the score). *)
Definition reds_then_green : list StockTrend2.bar :=
  [ quiet; quiet; quiet; quiet; quiet;
    candle 9 10 9 10 100; candle 10 11 10 11 100; candle 11 12 11 12 100;
    candle 12 13 12 13 200; candle 13 13 12 12 300 ].

(** *** Frames and settings for the threshold screen *)

Definition quote (when : Z) (close : Q) : StockTrendGemini.bar :=
  {| StockTrendGemini.date := when;
     StockTrendGemini.code := "2330"%string;
     StockTrendGemini.name := "TSMC"%string;
     StockTrendGemini.close_price := Float.Fin close;
     StockTrendGemini.open_price := Float.Fin close;
     StockTrendGemini.high_price := Float.Fin close;
     StockTrendGemini.low_price := Float.Fin close;
     StockTrendGemini.volume := Float.Fin 6000;
     StockTrendGemini.foreign_net := Float.Fin 10;
     StockTrendGemini.trust_net := Float.Fin 5;
     StockTrendGemini.dealer_net := Float.Fin 3 |}.

(** Every condition switched off, the long window being [ma_long]. *)
Definition flags_off (ma_long : nat) : StockTrendGemini.config :=
  {| StockTrendGemini.use_price := false;
     StockTrendGemini.use_ma := false;
     StockTrendGemini.use_vol := false;
     StockTrendGemini.use_min_vol := false;
     StockTrendGemini.use_inst := false;
     StockTrendGemini.use_shape := false;
     StockTrendGemini.max_price := Float.Fin 100;
     StockTrendGemini.vol_ratio_limit := Float.Fin (12 # 10);
     StockTrendGemini.min_volume := Float.Fin 5000;
     StockTrendGemini.shadow_limit := Float.Fin (2 # 10);
     StockTrendGemini.ma_short := 5;
     StockTrendGemini.ma_long := ma_long |}.

(** Only the price ceiling, at 100, with the default windows. *)
Definition price_only : StockTrendGemini.config :=
  {| StockTrendGemini.use_price := true;
     StockTrendGemini.use_ma := false;
     StockTrendGemini.use_vol := false;
     StockTrendGemini.use_min_vol := false;
     StockTrendGemini.use_inst := false;
     StockTrendGemini.use_shape := false;
     StockTrendGemini.max_price := Float.Fin 100;
     StockTrendGemini.vol_ratio_limit := Float.Fin (12 # 10);
     StockTrendGemini.min_volume := Float.Fin 5000;
     StockTrendGemini.shadow_limit := Float.Fin (2 # 10);
     StockTrendGemini.ma_short := 5;
     StockTrendGemini.ma_long := 20 |}.

(** Twenty days closing at 99, the last one at [close]. *)
Definition twenty_days (close : Q) : list StockTrendGemini.bar :=
  map (fun i => quote (Z.of_nat i) 99) (seq 1 19) ++ [quote 20 close].

End Samples.
(* ====================================================================== *)
(** ** StockTrend2.py: the first screen and the stages of [main]           *)
(* ====================================================================== *)

Module StockScreen.
Import Float Frame.

(** 紅三兵參數 *)
Definition PRICE_LOOKBACK : nat := 3.

(** A row of the price table as [analyze_stock] holds it after its
    conversions: 日期 through [pd.to_datetime(..., errors='coerce')]
    ([None] is NaT), the candle columns, and the three institutional
    nets. *)
Record row : Type := {
  date : option Z;
  candle : StockTrend2.bar;
  foreign_net : float;
  trust_net : float;
  dealer_net : float
}.

Definition close_price (r : row) : float := StockTrend2.close_price (candle r).
Definition volume (r : row) : float := StockTrend2.volume (candle r).

(** The module flags and the three arguments of [analyze_stock] (the
    defaults are 4, 1.2 and 5000).  A look-back is a natural number. *)
Record settings : Type := {
  FLAG_VOLUME_SPIKE : bool;
  FLAG_RED_THREE : bool;
  FLAG_NET_BUY : bool;
  lookback : nat;
  multiple : float;
  min_threshold : float
}.

Definition default_settings : settings :=
  {| FLAG_VOLUME_SPIKE := true; FLAG_RED_THREE := true;
     FLAG_NET_BUY := true; lookback := 4; multiple := Fin (12 # 10);
     min_threshold := Fin 5000 |}.

(** [df.dropna(subset=['日期', '成交張數', '收盤價'])] *)
Definition complete (r : row) : bool :=
  match date r with
  | Some _ => negb (isna (volume r)) && negb (isna (close_price r))
  | None => false
  end.

Definition date_key (r : row) : Z :=
  match date r with Some t => t | None => 0%Z end.

(** The frame after [dropna], [sort_values('日期')] and [reset_index]. *)
Definition prepare (rows : list row) : list row :=
  sort_by date_key (filter complete rows).

(** [int(x)]: truncation toward 0; NaN and the infinities raise. *)
Definition py_int (x : float) : option Z :=
  match x with
  | Fin q => Some (Z.quot (Qnum q) (Zpos (Qden q)))
  | _ => None
  end.

(** What the volume test leaves behind: [meets_volume], and the values
    of [last_vol_val], [max_prev_vol] and [vol_multiple_result] where they
    were assigned.  The outer [None] is an exception ([vols[-1]] on an
    empty window, [max] of an empty sequence). *)
Record volume_test : Type := {
  meets_volume : bool;
  last_vol_val : float;
  max_prev_vol : option float;
  vol_multiple_result : option float
}.

(** [vols[:-1]] *)
Definition all_but_last (A : Type) (l : list A) : list A := removelast l.

(** 條件 1：爆量, with the flag on. *)
Definition volume_spike (st : settings) (df : list row)
  : option volume_test :=
  let vols := map volume (tail (lookback st) df) in
  match rev vols with
  | [] => None
  | last :: _ =>
      let prev_vols := all_but_last vols in
      if negb (gtb last (Fin 0)
               && forallb (fun v => gtb v (Fin 0)) prev_vols) then
        Some {| meets_volume := false; last_vol_val := last;
                max_prev_vol := None; vol_multiple_result := None |}
      else if negb (forallb (fun v => gtb last v) prev_vols) then
        Some {| meets_volume := false; last_vol_val := last;
                max_prev_vol := None; vol_multiple_result := None |}
      else
        match prev_vols with
        | [] => None
        | _ =>
            let m := py_max_list prev_vols in
            if leb m (Fin 0) || ltb last (mul m (multiple st)) then
              Some {| meets_volume := false; last_vol_val := last;
                      max_prev_vol := Some m;
                      vol_multiple_result := None |}
            else
              Some {| meets_volume := true; last_vol_val := last;
                      max_prev_vol := Some m;
                      vol_multiple_result := Some (div last m) |}
        end
  end.

(** The volume condition with its threshold: the spike test when the flag
    is on, then [last_vol_val < min_threshold]. *)
Definition volume_condition (st : settings) (df : list row)
  : option volume_test :=
  let tested :=
    if FLAG_VOLUME_SPIKE st then volume_spike st df
    else
      match rev df with
      | [] => None
      | latest :: _ =>
          Some {| meets_volume := true; last_vol_val := volume latest;
                  max_prev_vol := None; vol_multiple_result := None |}
      end in
  match tested with
  | Some t =>
      if ltb (last_vol_val t) (min_threshold st) then
        Some {| meets_volume := false; last_vol_val := last_vol_val t;
                max_prev_vol := max_prev_vol t;
                vol_multiple_result := vol_multiple_result t |}
      else Some t
  | None => None
  end.

(** [total = f + t + d] and the count of the days with [total > 0]. *)
Definition day_total (r : row) : float :=
  add (add (foreign_net r) (trust_net r)) (dealer_net r).

Definition positive_days (recent_df : list row) : nat :=
  count_true (map (fun r => gtb (day_total r) (Fin 0)) recent_df).

(** 條件 2：紅三兵, [c1 < c2 < c3] on the three closes. *)
Definition red_three (recent_df : list row) : bool :=
  match map close_price recent_df with
  | [c1; c2; c3] => ltb c1 c2 && ltb c2 c3
  | _ => false
  end.

(** The dictionary returned on a pass; the closes and the multiple are
    kept as numbers (the source rounds them to two decimals). *)
Record screen_result : Type := {
  latest_date : Z;
  latest_close : float;
  volume_info : option (Z * Z * float);
  closes : option (list float);
  net_summary : option (list (float * float * float * float) * nat)
}.

(** [analyze_stock] on the rows read for one stock; [None] where the
    source returns [None], be it by a test or by a caught exception. *)
Definition analyze_stock (st : settings) (rows : list row)
  : option screen_result :=
  match rows with
  | [] => None
  | _ =>
      let df := prepare rows in
      if (length df <? Nat.max (lookback st) PRICE_LOOKBACK)%nat then None
      else
        match rev df with
        | [] => None
        | latest :: _ =>
            match volume_condition st df with
            | None => None
            | Some vt =>
                let recent_df := tail PRICE_LOOKBACK df in
                let sized :=
                  (length recent_df =? PRICE_LOOKBACK)%nat in
                let tested := FLAG_RED_THREE st || FLAG_NET_BUY st in
                let meets_red_three :=
                  if tested then
                    sized
                    && (if FLAG_RED_THREE st then red_three recent_df
                        else true)
                  else true in
                let meets_net_buy :=
                  if tested then
                    sized
                    && (if FLAG_NET_BUY st
                        then (2 <=? positive_days recent_df)%nat
                        else true)
                  else true in
                if meets_volume vt && meets_red_three && meets_net_buy
                then
                  let info :=
                    if FLAG_VOLUME_SPIKE st then
                      match py_int (last_vol_val vt),
                            max_prev_vol vt with
                      | Some lv, Some m =>
                          match py_int m, vol_multiple_result vt with
                          | Some mv, Some x => Some (Some (lv, mv, x))
                          | _, _ => None
                          end
                      | _, _ => None
                      end
                    else Some None in
                  match info with
                  | None => None
                  | Some volume_info =>
                      Some
                        {| latest_date := date_key latest;
                           latest_close := close_price latest;
                           volume_info := volume_info;
                           closes :=
                             if FLAG_RED_THREE st
                             then Some (map close_price recent_df)
                             else None;
                           net_summary :=
                             if FLAG_NET_BUY st
                             then Some
                                    (map (fun r =>
                                            (foreign_net r, trust_net r,
                                             dealer_net r, day_total r))
                                         recent_df,
                                     positive_days recent_df)
                             else None |}
                  end
                else None
            end
        end
  end.

(** *** The stages of [main] *)


(** [if action in ['上車', '重倉', '觀望']]: the chart is drawn. *)
Definition chart_wanted (a : StockTrend2.action) : bool :=
  match a with
  | StockTrend2.Enter | StockTrend2.HeavyLoad | StockTrend2.Hold => true
  | StockTrend2.Reduce | StockTrend2.Exit => false
  end.

(** 第一階段, one candidate: the classifier runs on a frame of ten rows or
    more, and the chart is drawn on the three listed answers. *)
Definition stage1_chart (stock_df : list StockTrend2.bar) : bool :=
  (10 <=? length stock_df)%nat
  && chart_wanted
       (StockTrend2.r_action
          (StockTrend2.analyze_volume_price_pattern stock_df)).

End StockScreen.

(** *** Series at the ends of the score range *)

Module ClassifierSamples.

(** A spike two days after a spike, on three rising closes, at the low
    point of three lows, with a lower shadow as long as the body: every
    block that adds to the score fires, and the score is 17. *)
Definition best_case : list StockTrend2.bar :=
  [ Samples.candle 10 10 10 10 100; Samples.candle 10 10 10 10 100;
    Samples.candle 10 10 10 10 100; Samples.candle 10 10 10 10 100;
    Samples.candle 10 10 10 10 100; Samples.candle 10 10 10 10 100;
    Samples.candle 10 10 10 10 100; Samples.candle 10 11 10 11 300;
    Samples.candle 11 12 9 12 200; Samples.candle 12 14 10 14 400 ].

(** Three falling closes under a top, on rising volumes, the latest bar
    with a small body under a long upper shadow: the score is -16. *)
Definition worst_case : list StockTrend2.bar :=
  [ Samples.candle 150 150 150 150 50; Samples.candle 150 150 150 150 50;
    Samples.candle 150 150 150 150 50; Samples.candle 150 150 150 150 50;
    Samples.candle 150 150 150 150 50; Samples.candle 150 150 150 150 50;
    Samples.candle 150 150 150 150 100; Samples.candle 210 220 205 210 200;
    Samples.candle 205 250 195 200 300;
    Samples.candle 206 246 176 186 400 ].

(** A high-volume day whose body runs from 10 to 12, then a bar on a
    lower volume that closes at 8, below that body. *)
Definition support_break : list StockTrend2.bar :=
  [ Samples.quiet; Samples.quiet; Samples.quiet; Samples.quiet;
    Samples.quiet; Samples.quiet; Samples.quiet;
    Samples.candle 9 9 9 9 100; Samples.candle 10 12 10 12 300;
    Samples.candle 11 11 8 8 100 ].

End ClassifierSamples.

(** *** Glued prices of fewer than three decimals *)

Module TextSamples.

(** A row whose open cell holds [o], the three other prices being lost
    with the separators. *)
Definition glued (o : string) : StockTrend.raw_row :=
  {| StockTrend.raw_date := Some "2024-01-02"%string;
     StockTrend.raw_code := Some "2330"%string;
     StockTrend.raw_name := Some "TSMC"%string;
     StockTrend.raw_volume := Some "700"%string;
     StockTrend.raw_open := Some o;
     StockTrend.raw_high := None;
     StockTrend.raw_low := None;
     StockTrend.raw_close := None;
     StockTrend.raw_foreign_net := Some "1"%string;
     StockTrend.raw_fund_net := Some "2"%string;
     StockTrend.raw_dealer_net := Some "3"%string |}.

(** 12.50, 12.60, 12.40 and 12.55 without their separators. *)
Definition glued_two_decimals : StockTrend.raw_row :=
  glued "12.5012.6012.4012.55".

(** 10.5, 20.5, 30.5 and 40.5 without their separators. *)
Definition glued_one_decimal : StockTrend.raw_row :=
  glued "10.520.530.540.5".

End TextSamples.

(** *** Frames for the first screen *)

Module ScreenSamples.

(** A row of the table: its date, candle, and the net of the foreign
    investors (the two other nets at 0). *)
Definition trade (when o h l c v net : Z) : StockScreen.row :=
  {| StockScreen.date := Some when;
     StockScreen.candle := Samples.candle o h l c v;
     StockScreen.foreign_net := Float.of_Z net;
     StockScreen.trust_net := Float.Fin 0;
     StockScreen.dealer_net := Float.Fin 0 |}.

(** Seven flat days, then three rising closes, the last on a volume of
    one and a half times the largest before it. *)
Definition busy_week : list StockScreen.row :=
  [ trade 1 9 9 9 9 6000 0; trade 2 9 9 9 9 6000 0;
    trade 3 9 9 9 9 6000 0; trade 4 9 9 9 9 6000 0;
    trade 5 9 9 9 9 6000 0; trade 6 9 9 9 9 6000 0;
    trade 7 9 9 9 9 6000 0; trade 8 9 9 9 9 6000 (-5);
    trade 9 9 10 9 10 6000 20; trade 10 10 11 10 11 9000 30 ].

(** The same rows, the newest first. *)
Definition busy_week_newest_first : list StockScreen.row :=
  rev busy_week.

End ScreenSamples.

(** *** Settings for the threshold screen *)

Module ThresholdSamples.

(** Only the volume condition, the latest volume being asked to reach the
    mean of the last five. *)
Definition volume_only : StockTrendGemini.config :=
  {| StockTrendGemini.use_price := false;
     StockTrendGemini.use_ma := false;
     StockTrendGemini.use_vol := true;
     StockTrendGemini.use_min_vol := false;
     StockTrendGemini.use_inst := false;
     StockTrendGemini.use_shape := false;
     StockTrendGemini.max_price := Float.Fin 100;
     StockTrendGemini.vol_ratio_limit := Float.Fin 1;
     StockTrendGemini.min_volume := Float.Fin 5000;
     StockTrendGemini.shadow_limit := Float.Fin (2 # 10);
     StockTrendGemini.ma_short := 5;
     StockTrendGemini.ma_long := 20 |}.

(** The moving-average condition alone, both windows of 20 days. *)
Definition equal_windows : StockTrendGemini.config :=
  {| StockTrendGemini.use_price := false;
     StockTrendGemini.use_ma := true;
     StockTrendGemini.use_vol := false;
     StockTrendGemini.use_min_vol := false;
     StockTrendGemini.use_inst := false;
     StockTrendGemini.use_shape := false;
     StockTrendGemini.max_price := Float.Fin 100;
     StockTrendGemini.vol_ratio_limit := Float.Fin (12 # 10);
     StockTrendGemini.min_volume := Float.Fin 5000;
     StockTrendGemini.shadow_limit := Float.Fin (2 # 10);
     StockTrendGemini.ma_short := 20;
     StockTrendGemini.ma_long := 20 |}.

End ThresholdSamples.

(** *** A file for the reversal screen *)

Module ReversalSamples.

(** A row of the file as read: its date, one price for the four price
    columns, the net of the foreign investors (the two other nets at 0)
    and a volume of 1000. *)
Definition flat_day (d c net : string) : StockTrend.raw_row :=
  Samples.text_row d c c c c net "0" "0" "1000".

(** Sixty days: fifty flat ones, five of selling down to a close of 45,
    and five of buying back, the last on a higher close. *)
Definition sixty_days : list StockTrend.raw_row :=
  [
    flat_day "2024-01-01" "50" "0";
    flat_day "2024-01-02" "50" "0";
    flat_day "2024-01-03" "50" "0";
    flat_day "2024-01-04" "50" "0";
    flat_day "2024-01-05" "50" "0";
    flat_day "2024-01-06" "50" "0";
    flat_day "2024-01-07" "50" "0";
    flat_day "2024-01-08" "50" "0";
    flat_day "2024-01-09" "50" "0";
    flat_day "2024-01-10" "50" "0";
    flat_day "2024-01-11" "50" "0";
    flat_day "2024-01-12" "50" "0";
    flat_day "2024-01-13" "50" "0";
    flat_day "2024-01-14" "50" "0";
    flat_day "2024-01-15" "50" "0";
    flat_day "2024-01-16" "50" "0";
    flat_day "2024-01-17" "50" "0";
    flat_day "2024-01-18" "50" "0";
    flat_day "2024-01-19" "50" "0";
    flat_day "2024-01-20" "50" "0";
    flat_day "2024-01-21" "50" "0";
    flat_day "2024-01-22" "50" "0";
    flat_day "2024-01-23" "50" "0";
    flat_day "2024-01-24" "50" "0";
    flat_day "2024-01-25" "50" "0";
    flat_day "2024-01-26" "50" "0";
    flat_day "2024-01-27" "50" "0";
    flat_day "2024-01-28" "50" "0";
    flat_day "2024-01-29" "50" "0";
    flat_day "2024-01-30" "50" "0";
    flat_day "2024-01-31" "50" "0";
    flat_day "2024-02-01" "50" "0";
    flat_day "2024-02-02" "50" "0";
    flat_day "2024-02-03" "50" "0";
    flat_day "2024-02-04" "50" "0";
    flat_day "2024-02-05" "50" "0";
    flat_day "2024-02-06" "50" "0";
    flat_day "2024-02-07" "50" "0";
    flat_day "2024-02-08" "50" "0";
    flat_day "2024-02-09" "50" "0";
    flat_day "2024-02-10" "50" "0";
    flat_day "2024-02-11" "50" "0";
    flat_day "2024-02-12" "50" "0";
    flat_day "2024-02-13" "50" "0";
    flat_day "2024-02-14" "50" "0";
    flat_day "2024-02-15" "50" "0";
    flat_day "2024-02-16" "50" "0";
    flat_day "2024-02-17" "50" "0";
    flat_day "2024-02-18" "50" "0";
    flat_day "2024-02-19" "50" "0";
    flat_day "2024-02-20" "49" "-1000";
    flat_day "2024-02-21" "48" "-1000";
    flat_day "2024-02-22" "47" "-1000";
    flat_day "2024-02-23" "46" "-1000";
    flat_day "2024-02-24" "45" "-500";
    flat_day "2024-02-25" "46" "300";
    flat_day "2024-02-26" "46" "300";
    flat_day "2024-02-27" "46" "300";
    flat_day "2024-02-28" "46" "300";
    flat_day "2024-02-29" "47" "300" ]%string.

(** The file with its first row put behind the others. *)
Definition sixty_days_rotated : list StockTrend.raw_row :=
  tl sixty_days ++ firstn 1 sixty_days.

End ReversalSamples.

(* ====================================================================== *)
(** ** Quantities for the further properties                               *)
(* ====================================================================== *)

Module Measures.
Import StockTrend2.

(** What a block can add at most: its weight when positive. *)
Definition gain_of (o : option outcome) : Z := Z.max 0 (weight_of o).

Definition gain_sum (os : list (option outcome)) : Z :=
  fold_right (fun o acc => (gain_of o + acc)%Z) 0%Z os.

(** What a block can take away at most. *)
Definition loss_of (o : option outcome) : Z := Z.min 0 (weight_of o).

Definition loss_sum (os : list (option outcome)) : Z :=
  fold_right (fun o acc => (loss_of o + acc)%Z) 0%Z os.

(** A count of lots as the tables hold it: a finite number, not
    negative. *)
Definition is_count (x : Float.float) : bool :=
  Float.leb (Float.Fin 0) x && Float.ltb x Float.PInf.

(** A count of lots as the exchange gives it: a whole number from 0 to
    a thousand million.  The sums of such counts over a window are whole
    numbers below 2^53, which binary64 holds without rounding. *)
Definition lot_count (x : Float.float) : Prop :=
  exists z : Z,
    x = Float.Fin (inject_Z z) /\ (0 <= z <= 1000000000)%Z.

(** The four prices of a candle are finite, the high and the low
    enclosing the open and the close, and they lie between 0 and a
    million: on such prices the 0.01 added to a range is not lost when
    the sum is rounded to binary64. *)
Definition candle_ok (o h l c : Float.float) : Prop :=
  exists qo qh ql qc,
    o = Float.Fin qo /\ h = Float.Fin qh /\ l = Float.Fin ql
    /\ c = Float.Fin qc
    /\ ql <= qo /\ qo <= qh /\ ql <= qc /\ qc <= qh
    /\ 0 <= ql /\ qh <= 1000000.

End Measures.


(* ====================================================================== *)
(** * Properties                                                           *)
(* ====================================================================== *)

(** ** Comparisons of cells *)

Module FloatFacts.
Import Float.

Lemma Qltb_lt (a b : Q) : Qltb a b = true <-> (a < b)%Q.
Proof.
  unfold Qltb. rewrite negb_true_iff, <- not_true_iff_false, Qle_bool_iff.
  split; [apply Qnot_le_lt | apply Qlt_not_le].
Qed.

Lemma Qltb_ge (a b : Q) : Qltb a b = false <-> (b <= a)%Q.
Proof.
  unfold Qltb. rewrite negb_false_iff. apply Qle_bool_iff.
Qed.

Lemma Qltb_irrefl (a : Q) : Qltb a a = false.
Proof. apply Qltb_ge, Qle_refl. Qed.

Lemma Qltb_asym (a b : Q) : Qltb a b = true -> Qltb b a = false.
Proof. rewrite Qltb_lt, Qltb_ge. apply Qlt_le_weak. Qed.

Lemma ltb_irrefl (a : float) : ltb a a = false.
Proof. destruct a; simpl; auto using Qltb_irrefl. Qed.

Lemma ltb_asym (a b : float) : ltb a b = true -> ltb b a = false.
Proof. destruct a, b; simpl; auto using Qltb_asym; discriminate. Qed.

(** No cell lies strictly below the [min] of itself and another cell. *)
Lemma not_below_py_min (o c : float) : ltb c (py_min o c) = false.
Proof.
  unfold py_min. destruct (ltb c o) eqn:E; [apply ltb_irrefl | exact E].
Qed.

End FloatFacts.

(** ** Positional access *)

Module FrameFacts.
Import Frame.

Section Rows.
Variable A : Type.

Lemma length_tail (n : nat) (l : list A) :
  length (tail n l) = Nat.min n (length l).
Proof. unfold tail. rewrite length_skipn. lia. Qed.

(** The last row is a row of every non-empty tail. *)
Lemma latest_in_tail (n : nat) (l : list A) (d : A) :
  (1 <= n)%nat -> (1 <= length l)%nat ->
  In (iloc_neg 1 l d) (tail n l).
Proof.
  intros Hn Hl. unfold iloc_neg, tail.
  replace (length l - 1)%nat
    with ((length l - n) + (Nat.min n (length l) - 1))%nat by lia.
  rewrite <- nth_skipn. apply nth_In. rewrite length_skipn. lia.
Qed.

Lemma nth_tail (n i : nat) (l : list A) (d : A) :
  nth i (tail n l) d = nth (length l - n + i) l d.
Proof. unfold tail. apply nth_skipn. Qed.
End Rows.

Lemma count_true_le (l : list bool) : (Float.count_true l <= length l)%nat.
Proof. unfold Float.count_true. apply filter_length_le. Qed.

(** A count that reaches the length leaves no false cell. *)
Lemma count_true_full (l : list bool) :
  (length l <= Float.count_true l)%nat -> forall b, In b l -> b = true.
Proof.
  unfold Float.count_true. induction l as [|x l IH]; simpl; [tauto|].
  destruct x; simpl; intros H b [<-|Hb]; auto.
  - apply IH; [lia | exact Hb].
  - pose proof (filter_length_le (fun b => b) l). lia.
  - pose proof (filter_length_le (fun b => b) l). lia.
Qed.

End FrameFacts.

(** ** The classifier of StockTrend2.py *)

Module ClassifierFacts.
Import Float Frame StockTrend2.

(** *** The accumulators along a run *)

Lemma score_without_reset (os : list (option outcome)) :
  forall st, existsb resets os = false ->
    action_score (run_from st os) = (action_score st + weight_sum os)%Z.
Proof.
  induction os as [|o os IH]; intros st H; simpl in *.
  - lia.
  - apply orb_false_iff in H as [Ho Hos].
    unfold run_from in *. rewrite (IH _ Hos).
    destruct o as [[sg [w|] rk]|]; simpl in *; try discriminate; lia.
Qed.

(** After a block that resets, what came before is forgotten. *)
Lemma score_after_reset (before after : list (option outcome))
    (o : option outcome) :
  resets o = true -> existsb resets after = false ->
  action_score (run (before ++ o :: after)) = weight_sum after.
Proof.
  intros Ho Ha. unfold run. rewrite fold_left_app. simpl.
  fold (run_from (apply_outcome (fold_left apply_outcome before initial) o)
                 after).
  rewrite (score_without_reset _ _ Ha).
  destruct o as [[sg [w|] rk]|]; simpl in *; try discriminate; lia.
Qed.

Lemma weight_sum_perm (os os' : list (option outcome)) :
  Permutation os os' -> weight_sum os = weight_sum os'.
Proof.
  induction 1; simpl; lia.
Qed.

Lemma resets_perm (os os' : list (option outcome)) :
  Permutation os os' -> existsb resets os = existsb resets os'.
Proof.
  induction 1; simpl; try congruence.
  - destruct (resets x), (resets y); reflexivity.
Qed.

(** The risk factors of a run are those of its blocks. *)
Lemma risk_of_run (r : risk_factor) (os : list (option outcome)) :
  forall st, In r (risk_factors (run_from st os)) ->
    In r (risk_factors st)
    \/ exists o, In (Some o) os /\ o_risk o = Some r.
Proof.
  induction os as [|o os IH]; intros st H; simpl in *; [now left|].
  apply IH in H as [H | [o' [Hin Hr]]].
  - destruct o as [o|]; simpl in H; [|now left].
    destruct (o_risk o) as [r'|] eqn:E; [|now left].
    apply in_app_or in H as [H | [<- | []]]; [now left|].
    right. exists o. auto.
  - right. exists o'. auto.
Qed.

Lemma signal_of_run (s : signal) (os : list (option outcome)) :
  forall st, In s (signals (run_from st os)) ->
    In s (signals st) \/ exists o, In (Some o) os /\ o_signal o = s.
Proof.
  induction os as [|o os IH]; intros st H; simpl in *; [now left|].
  apply IH in H as [H | [o' [Hin Hr]]].
  - destruct o as [o|]; simpl in H; [|now left].
    apply in_app_or in H as [H | [<- | []]]; [now left|].
    right. exists o. auto.
  - right. exists o'. auto.
Qed.

(** The signals of a run are those of its blocks, in the order of the
    run. *)
Lemma signals_of_run (os : list (option outcome)) :
  forall st,
    signals (run_from st os)
    = signals st
      ++ flat_map (fun o => match o with
                            | Some o => [o_signal o]
                            | None => []
                            end) os.
Proof.
  unfold run_from.
  induction os as [|o os IH]; intros st; simpl.
  - now rewrite app_nil_r.
  - rewrite IH. destruct o as [o|]; simpl; [|reflexivity].
    now rewrite <- app_assoc.
Qed.

(** *** The blocks, one by one *)

Ltac split_tests :=
  repeat match goal with
         | |- context [if ?c then _ else _] => destruct c eqn:?
         | |- context [match ?c with Some _ => _ | None => _ end] =>
             destruct c eqn:?
         end.

(** The support test of block 2 never takes its second branch: the
    support is the lower end of the latest body, and the close is one of
    the two ends. *)
Lemma d_support_above_only (recent : list bar) (o : outcome) :
  d_support recent = Some o -> o_risk o = None.
Proof.
  unfold d_support, support_price.
  destruct (is_high_volume recent); [|discriminate].
  rewrite FloatFacts.not_below_py_min.
  split_tests; intros [= <-] || discriminate; reflexivity.
Qed.

(** Block 7 never fires: its four bars end with the latest bar, which
    would have to close above and below its open. *)
Lemma d_consecutive_red_silent (recent : list bar) :
  d_consecutive_red recent = None.
Proof.
  unfold d_consecutive_red.
  destruct (4 <=? length recent)%nat eqn:L4; [|reflexivity].
  destruct (4 <=? red_count recent)%nat eqn:R4; [|reflexivity].
  apply Nat.leb_le in L4, R4.
  assert (Hred : gtb (close_price (latest recent))
                     (open_price (latest recent)) = true).
  { apply (FrameFacts.count_true_full
             (map (fun b => gtb (close_price b) (open_price b))
                  (tail 4 recent))).
    - rewrite length_map, FrameFacts.length_tail.
      unfold red_count in R4. lia.
    - apply (in_map (fun b => gtb (close_price b) (open_price b))).
      apply FrameFacts.latest_in_tail; lia. }
  unfold gtb in Hred. apply FloatFacts.ltb_asym in Hred.
  rewrite Hred. destruct (5 <=? length recent)%nat; reflexivity.
Qed.

Lemma broke_support_by_block :
  forall (recent : list bar) (o : outcome),
    In (Some o) (outcomes recent) -> o_risk o <> Some BrokeSupport.
Proof.
  intros recent o H. unfold outcomes in H. simpl in H.
  repeat destruct H as [H | H]; try contradiction.
  - revert H. unfold d_high_volume. split_tests; intros [= <-] || discriminate; discriminate.
  - rewrite (d_support_above_only _ H). discriminate.
  - revert H. unfold d_three_soldiers. split_tests; intros [= <-] || discriminate; discriminate.
  - revert H. unfold d_bottom_fractal. split_tests; intros [= <-] || discriminate; discriminate.
  - revert H. unfold d_top_fractal. split_tests; intros [= <-] || discriminate; discriminate.
  - revert H. unfold d_violent_swing. split_tests; intros [= <-] || discriminate; discriminate.
  - revert H. unfold d_lower_shadow. split_tests; intros [= <-] || discriminate; discriminate.
  - revert H. unfold d_upper_shadow. split_tests; intros [= <-] || discriminate; discriminate.
  - revert H. unfold d_downtrend. split_tests; intros [= <-] || discriminate; discriminate.
  - revert H. unfold d_volume_ladder. split_tests; intros [= <-] || discriminate; discriminate.
  - revert H. unfold d_small_body. split_tests; intros [= <-] || discriminate; discriminate.
  - rewrite d_consecutive_red_silent in H. discriminate.
  - revert H. unfold d_high_volume_rule. split_tests; intros [= <-] || discriminate; discriminate.
Qed.

(** No series makes the classifier record 破支撐. *)
Lemma broke_support_never_recorded (recent : list bar) :
  ~ In BrokeSupport (risk_factors (accumulate recent)).
Proof.
  intros H. apply (risk_of_run _ (outcomes recent) initial) in H.
  destruct H as [[] | [o [Hin Hr]]].
  eapply broke_support_by_block; eassumption.
Qed.

(** *** The final mapping *)

Lemma verdict_cases (score : Z) :
  verdict score =
    if (5 <=? score)%Z then (Enter, Low)
    else if (score <=? -5)%Z then (Reduce, High)
    else (Hold, Medium).
Proof.
  unfold verdict.
  repeat match goal with
         | |- context [(?a >=? ?b)%Z] =>
             rewrite (Z.geb_leb a b)
         end.
  destruct (Z.leb_spec 5 score); [reflexivity|].
  destruct (Z.leb_spec 8 score); [lia|].
  destruct (Z.leb_spec score (-5)); [reflexivity|].
  destruct (Z.leb_spec score (-8)); [lia | reflexivity].
Qed.

(** Between -8 and 8 the source agrees with the specification. *)
Lemma verdict_agrees_inside (score : Z) :
  (-8 < score < 8)%Z -> verdict score = verdict_spec score.
Proof.
  intros H. rewrite verdict_cases. unfold verdict_spec.
  destruct (Z.leb_spec 8 score); [lia|].
  destruct (Z.leb_spec 5 score); [reflexivity|].
  destruct (Z.leb_spec score (-8)); [lia | reflexivity].
Qed.

(** The two branches behind a weaker test are never taken. *)
Lemma verdict_never_heavy_nor_exit (score : Z) :
  fst (verdict score) <> HeavyLoad /\ fst (verdict score) <> Exit.
Proof.
  rewrite verdict_cases.
  destruct (5 <=? score)%Z; [|destruct (score <=? -5)%Z];
    simpl; split; discriminate.
Qed.

End ClassifierFacts.

(** ** The claims on the classifier *)

Module ClassifierClaims.
Import Float Frame StockTrend2 ClassifierFacts.

(** The classifier never answers 重倉 (heavy-load) nor 清倉 (exit): the
    first is behind the weaker test [>= 5], the second behind [<= -5] and
    an override that no series triggers. *)
Lemma never_heavy_nor_exit (df : list bar) :
  r_action (analyze_volume_price_pattern df) <> HeavyLoad
  /\ r_action (analyze_volume_price_pattern df) <> Exit.
Proof.
  unfold analyze_volume_price_pattern.
  destruct (length df <? 10)%nat; [simpl; split; discriminate|].
  unfold conclude, override.
  pose proof (@broke_support_never_recorded (tail 10 df)) as Hno.
  destruct (existsb (risk_factor_eqb BrokeSupport)
                    (risk_factors (accumulate (tail 10 df)))) eqn:E.
  - exfalso. apply Hno. apply existsb_exists in E as [r [Hin Hr]].
    destruct r; try discriminate. exact Hin.
  - pose proof (verdict_never_heavy_nor_exit
                  (action_score (accumulate (tail 10 df)))) as [H1 H2].
    destruct (verdict (action_score (accumulate (tail 10 df)))) as [a r].
    simpl in *. split; assumption.
Qed.

(** C1 (the source departs from the claim).  The claim maps a score of 8
    or more to heavy-load/low and a score of -8 or less to exit/high.  In
    the source the test [>= 5] comes before [>= 8] and [<= -5] before
    [<= -8]: on [Samples.rising_spike] (ten bars, 破支撐 not recorded) the
    score is 10 and the answer is enter/low where the claim says
    heavy-load/low; on [Samples.falling_top] the score is -8 and the answer
    is reduce/high where the claim says exit/high.  Inside (-8, 8) the
    source and the claimed mapping agree. *)
Theorem C1_score_mapping_shadowed_branches :
  (let r := analyze_volume_price_pattern Samples.rising_spike in
   length Samples.rising_spike = 10%nat
   /\ ~ In BrokeSupport
          (risk_factors (accumulate (tail 10 Samples.rising_spike)))
   /\ r_score r = Some 10%Z
   /\ (r_action r, r_risk_level r) = (Enter, Low)
   /\ verdict_spec 10 = (HeavyLoad, Low))
  /\ (let r := analyze_volume_price_pattern Samples.falling_top in
      length Samples.falling_top = 10%nat
      /\ ~ In BrokeSupport
             (risk_factors (accumulate (tail 10 Samples.falling_top)))
      /\ r_score r = Some (-8)%Z
      /\ (r_action r, r_risk_level r) = (Reduce, High)
      /\ verdict_spec (-8) = (Exit, High))
  /\ (forall score, (-8 < score < 8)%Z ->
        verdict score = verdict_spec score).
Proof.
  split; [|split].
  - repeat split; try (vm_compute; reflexivity).
    apply broke_support_never_recorded.
  - repeat split; try (vm_compute; reflexivity).
    apply broke_support_never_recorded.
  - apply verdict_agrees_inside.
Qed.

(** The override of the final stage as it is written: once 破支撐 is
    among the risk factors the answer is 清倉 (exit) with risk 高 (high),
    whatever the score. *)
Lemma override_forces_exit (st : state) :
  In BrokeSupport (risk_factors st) ->
  r_action (conclude st) = Exit
  /\ r_risk_level (conclude st) = High
  /\ r_score (conclude st) = Some (action_score st).
Proof.
  intros H. unfold conclude, override.
  assert (E : existsb (risk_factor_eqb BrokeSupport) (risk_factors st)
              = true).
  { apply existsb_exists. exists BrokeSupport. split; [exact H|reflexivity]. }
  rewrite E. simpl. auto.
Qed.

(** C2 (the source departs from the claim).  The claim asks a series whose
    latest close is below the support price of a high-volume day to be
    answered 清倉 (exit) with risk 高 (high), whatever its score.  The
    source takes the support from the latest bar itself, and only when
    that bar is the high-volume one: the support is the lower end of the
    body of the very bar whose close it is compared with.  So 破支撐 is
    recorded on no series, the override is reached by none, and no series
    is answered 清倉.  On [ClassifierSamples.support_break] the bar before
    the latest one is a high-volume day whose body starts at 10, the
    latest bar closes at 8: neither the signal 跌破支撐線 nor the risk
    factor 破支撐 is there, the score is -4 and the answer is 觀望 (hold)
    with risk 中 (medium). *)
Theorem C2_support_break_never_forces_exit :
  (forall df : list bar,
     ~ In BrokeSupport (risk_factors (accumulate (tail 10 df)))
     /\ r_action (analyze_volume_price_pattern df) <> Exit)
  /\ (let recent := tail 10 ClassifierSamples.support_break in
      let r :=
        analyze_volume_price_pattern ClassifierSamples.support_break in
      let spike_day := iloc_neg 2 recent nan_bar in
      spike_before recent 1 = true
      /\ py_min (open_price spike_day) (close_price spike_day) = Fin 10
      /\ ltb (close_price (latest recent)) (Fin 10) = true
      /\ (forall s, ~ In (SigBrokeSupport s) (r_signals r))
      /\ ~ In BrokeSupport (risk_factors (accumulate recent))
      /\ r_action r = Hold
      /\ r_risk_level r = Medium
      /\ r_score r = Some (-4)%Z).
Proof.
  split.
  - intros df. split.
    + apply broke_support_never_recorded.
    + apply never_heavy_nor_exit.
  - repeat split; try (vm_compute; reflexivity).
    + intros s H. vm_compute in H.
      repeat destruct H as [H|H]; try discriminate H; contradiction.
    + apply broke_support_never_recorded.
Qed.

(** C3 as claimed fails: on [Samples.long_wick] the source order gives
    the score 0 (紅三兵 adds 2, then 上天入地 sets the score to 0), the
    reverse order of the same blocks gives 2. *)
Lemma C3_order_matters_counterexample :
  ~ (forall (recent : list bar) (os : list (option outcome)),
       Permutation (outcomes recent) os ->
       action_score (run os) = action_score (accumulate recent)).
Proof.
  intros H.
  specialize (H (tail 10 Samples.long_wick)
                (rev (outcomes (tail 10 Samples.long_wick)))
                (Permutation_rev _)).
  vm_compute in H. discriminate H.
Qed.

(** C3 (amended).  On a series where no block resets the score (neither
    上天入地 nor the day-1 rule of a volume spike fires), the final score is
    the sum of the weights of the blocks that trigger, and running the
    blocks in any other order gives the same score; the signals are the
    same ones, listed in the order of the run. *)
Theorem C3_score_is_sum_without_reset
    (recent : list bar) (os : list (option outcome)) :
  Permutation (outcomes recent) os ->
  existsb resets (outcomes recent) = false ->
  action_score (accumulate recent) = weight_sum (outcomes recent)
  /\ action_score (run os) = action_score (accumulate recent)
  /\ Permutation (signals (run os)) (signals (accumulate recent)).
Proof.
  intros P R. unfold accumulate, run.
  pose proof (score_without_reset (outcomes recent) initial R) as E1.
  assert (R' : existsb resets os = false)
    by (rewrite <- (resets_perm P); exact R).
  pose proof (score_without_reset os initial R') as E2.
  pose proof (signals_of_run (outcomes recent) initial) as S1.
  pose proof (signals_of_run os initial) as S2.
  unfold run_from in *. rewrite E1, E2, S1, S2, (weight_sum_perm P).
  split; [simpl; lia|]. split; [simpl; lia|].
  change (signals initial) with (@nil signal). rewrite !app_nil_l.
  apply Permutation_flat_map, Permutation_sym, P.
Qed.

Lemma C3_score_is_sum_without_reset_witness :
  existsb resets (outcomes (tail 10 Samples.rising_spike)) = false
  /\ action_score (accumulate (tail 10 Samples.rising_spike))
     = weight_sum (outcomes (tail 10 Samples.rising_spike))
  /\ action_score (run (rev (outcomes (tail 10 Samples.rising_spike))))
     = action_score (accumulate (tail 10 Samples.rising_spike))
  /\ Permutation
       (signals (run (rev (outcomes (tail 10 Samples.rising_spike)))))
       (signals (accumulate (tail 10 Samples.rising_spike))).
Proof.
  split; [reflexivity|].
  apply (@C3_score_is_sum_without_reset
           (tail 10 Samples.rising_spike)
           (rev (outcomes (tail 10 Samples.rising_spike)))).
  - apply Permutation_rev.
  - reflexivity.
Defined.

(** C5 (the source departs from the claim).  The four bars counted by the
    source end with the latest bar itself, so four red bars make the
    latest bar red and the test "latest bar green" fails: the block fires
    on no series at all.  On [Samples.reds_then_green] (four red bars, then
    a green bar on the highest volume) the signal 連紅≥4天見綠放量 is not
    emitted, no risk factor 連紅後放量收綠 is recorded and the score is -3,
    not -7. *)
Theorem C5_consecutive_red_block_is_dead :
  (forall recent : list bar, d_consecutive_red recent = None)
  /\ (let recent := tail 10 Samples.reds_then_green in
      let r := analyze_volume_price_pattern Samples.reds_then_green in
      map (fun b => gtb (close_price b) (open_price b))
          (slice_neg 5 1 recent) = [true; true; true; true]
      /\ ltb (close_price (latest recent)) (open_price (latest recent))
         = true
      /\ is_high_volume recent = true
      /\ ~ In SigGreenAfterReds (r_signals r)
      /\ ~ In GreenAfterReds (risk_factors (accumulate recent))
      /\ r_score r = Some (-3)%Z).
Proof.
  split; [exact d_consecutive_red_silent|].
  repeat split; try (vm_compute; reflexivity).
  - vm_compute. intros [H|[H|[]]]; discriminate H.
  - vm_compute. intros [H|[]]; discriminate H.
Qed.

End ClassifierClaims.

(** ** Sorting by date *)

Module SortFacts.
Import Frame.

Section Sorting.
Variable A : Type.
Variable key : A -> Z.

Lemma insert_by_perm (b : A) (l : list A) :
  Permutation (insert_by key b l) (b :: l).
Proof.
  induction l as [|x l IH]; simpl; [apply Permutation_refl|].
  destruct (key b <? key x)%Z; [apply Permutation_refl|].
  apply perm_trans with (x :: b :: l); [|apply perm_swap].
  apply perm_skip, IH.
Qed.

Lemma insert_by_sorted (b : A) (l : list A) :
  StronglySorted (by_key key) l -> StronglySorted (by_key key) (insert_by key b l).
Proof.
  induction 1 as [|x l Hs IH Hx]; simpl.
  - constructor; constructor.
  - destruct (Z.ltb_spec (key b) (key x)) as [Hlt|Hge].
    + constructor; [constructor; assumption|].
      constructor; [unfold by_key; lia|].
      eapply Forall_impl; [|exact Hx].
      unfold by_key. intros; lia.
    + constructor; [exact IH|].
      apply (Permutation_Forall
               (Permutation_sym (insert_by_perm b l))).
      constructor; [exact Hge | exact Hx].
Qed.

Lemma fold_insert_perm (l acc : list A) :
  Permutation (fold_left (fun acc b => insert_by key b acc) l acc)
              (l ++ acc).
Proof.
  revert acc. induction l as [|x l IH]; intros acc; simpl.
  - apply Permutation_refl.
  - eapply perm_trans; [apply IH|].
    apply perm_trans with (l ++ x :: acc).
    + apply Permutation_app_head, insert_by_perm.
    + apply Permutation_sym, Permutation_middle.
Qed.

Lemma fold_insert_sorted (l acc : list A) :
  StronglySorted (by_key key) acc ->
  StronglySorted (by_key key)
    (fold_left (fun acc b => insert_by key b acc) l acc).
Proof.
  revert acc. induction l as [|x l IH]; intros acc H; simpl; auto.
  apply IH, insert_by_sorted, H.
Qed.

Lemma sort_by_perm (l : list A) : Permutation (sort_by key l) l.
Proof.
  unfold sort_by. eapply perm_trans; [apply fold_insert_perm|].
  rewrite app_nil_r. apply Permutation_refl.
Qed.

Lemma sort_by_sorted (l : list A) : StronglySorted (by_key key) (sort_by key l).
Proof. apply fold_insert_sorted. constructor. Qed.

Lemma sort_by_length (l : list A) : length (sort_by key l) = length l.
Proof. apply Permutation_length, sort_by_perm. Qed.
End Sorting.

End SortFacts.

(** ** The regular expression of the repair *)

Module TextFacts.
Import Text.

Lemma span_upto_prefix (p : ascii -> bool) (a : list ascii) :
  forall n c r, (length a <= n)%nat -> forallb p a = true -> p c = false ->
    span_upto n p (a ++ c :: r) = (a, c :: r).
Proof.
  induction a as [|x a IH]; intros n c r Hn Ha Hc; simpl in *.
  - destruct n; simpl; [reflexivity | now rewrite Hc].
  - apply andb_true_iff in Ha as [Hx Ha].
    destruct n as [|n]; [lia|]. simpl. rewrite Hx.
    rewrite (IH n c r); [reflexivity | lia | exact Ha | exact Hc].
Qed.

Lemma span_digits_dot (ds r : list ascii) :
  forallb is_digit ds = true ->
  span is_digit (ds ++ dot :: r) = (ds, dot :: r).
Proof.
  intros H. unfold span. apply span_upto_prefix; auto.
  rewrite length_app. lia.
Qed.

(** A three-decimal price at the head of a text is matched whole. *)
Lemma match_price3 (p rest : list ascii) :
  price3 p -> match_price (p ++ rest) = Some p.
Proof.
  intros (ds & f1 & f2 & f3 & -> & Hne & Hd).
  rewrite forallb_app in Hd. apply andb_true_iff in Hd as [Hds Hf].
  simpl in Hf.
  apply andb_true_iff in Hf as [H1 Hf].
  apply andb_true_iff in Hf as [H2 Hf].
  apply andb_true_iff in Hf as [H3 _].
  unfold match_price. rewrite <- app_assoc. simpl.
  rewrite (span_digits_dot _ _ Hds).
  destruct ds as [|d ds]; [contradiction|].
  unfold is_dot. rewrite Ascii.eqb_refl.
  simpl. rewrite H1, H2, H3. reflexivity.
Qed.

Lemma findall_skip (a rest : list ascii) :
  findall_from (length a) (a ++ rest) = findall_from 0 rest.
Proof.
  induction a as [|x a IH]; simpl; [reflexivity | exact IH].
Qed.

Lemma findall_price3 (p rest : list ascii) :
  price3 p -> findall_from 0 (p ++ rest) = p :: findall_from 0 rest.
Proof.
  intros Hp. pose proof (match_price3 rest Hp) as Hm.
  destruct p as [|c p].
  - destruct Hp as (ds & f1 & f2 & f3 & E & _). destruct ds; discriminate.
  - change ((c :: p) ++ rest) with (c :: (p ++ rest)) in *.
    cbn [findall_from]. rewrite Hm.
    replace (length (c :: p) - 1)%nat with (length p) by (simpl; lia).
    f_equal. apply findall_skip.
Qed.

(** Four three-decimal prices glued together are found again, in order. *)
Lemma findall_four_prices (p0 p1 p2 p3 : list ascii) :
  price3 p0 -> price3 p1 -> price3 p2 -> price3 p3 ->
  findall_from 0 (p0 ++ p1 ++ p2 ++ p3) = [p0; p1; p2; p3].
Proof.
  intros H0 H1 H2 H3.
  pose proof (findall_price3 [] H3) as E3. rewrite app_nil_r in E3.
  rewrite (findall_price3 _ H0), (findall_price3 _ H1),
    (findall_price3 _ H2), E3. reflexivity.
Qed.

Lemma price3_length (p : list ascii) : price3 p -> (5 <= length p)%nat.
Proof.
  intros (ds & f1 & f2 & f3 & -> & Hne & _).
  rewrite length_app. simpl. destruct ds; [contradiction | simpl; lia].
Qed.

Lemma price3_has_dot (p : list ascii) :
  price3 p -> existsb is_dot p = true.
Proof.
  intros (ds & f1 & f2 & f3 & -> & _ & _).
  rewrite existsb_app. cbn [existsb].
  replace (is_dot dot) with true by (symmetry; apply Ascii.eqb_refl).
  apply orb_true_r.
Qed.

End TextFacts.

(** ** The normaliser of StockTrend.py *)

Module NormaliserClaims.
Import Frame Text StockTrend.

Lemma list_ascii_of_string_app (a b : string) :
  list_ascii_of_string (a ++ b)
  = (list_ascii_of_string a ++ list_ascii_of_string b)%list.
Proof.
  induction a as [|c a IH]; simpl; [reflexivity | now rewrite IH].
Qed.

Lemma string_length_list (s : string) :
  String.length s = length (list_ascii_of_string s).
Proof.
  induction s as [|c s IH]; simpl; [reflexivity | now rewrite IH].
Qed.

Lemma convert_dates_length (td : string -> option Z)
    (l : list (raw_row * (Z -> bar))) :
  forall bs, convert_dates td l = Some bs -> length bs = length l.
Proof.
  induction l as [|[r mk] l IH]; simpl; intros bs H.
  - now inversion H.
  - destruct (raw_date r); [|discriminate].
    destruct (td s); [|discriminate].
    destruct (convert_dates td l) as [bs'|]; [|discriminate].
    inversion H; subst. simpl. f_equal. now apply IH.
Qed.

(** A row whose [open] is NaN does not survive [dropna]. *)
Lemma numeric_row_needs_open (tn : string -> option Q) (r : raw_row) :
  raw_open r = None -> numeric_row tn r = None.
Proof.
  intros H. unfold numeric_row. rewrite H. reflexivity.
Qed.

(** C4 as claimed fails: on [Samples.twice_a_day] both rows of 2024-01-02
    reach the sorted series, so the series handed on has a duplicate
    date. *)
Lemma C4_duplicate_dates_survive_counterexample :
  exists out,
    normalise Samples.to_numeric Samples.to_datetime Samples.twice_a_day
    = Some out
    /\ map date out = [20240102; 20240102; 20240103]%Z
    /\ ~ NoDup (map date out).
Proof.
  eexists. split; [vm_compute; reflexivity|].
  split; [reflexivity|].
  simpl. intros H. inversion H as [|x l Hx Hl]; subst.
  apply Hx. left. reflexivity.
Qed.

(** C4 (amended).  When the normaliser answers, its series holds exactly
    the rows that passed the numeric and the date filters, every row of a
    repeated date included, sorted ascending by date (equal dates next to
    one another) and indexed by position. *)
Theorem C4_normalise_sorts_and_keeps_every_row
    (to_numeric : string -> option Q) (to_datetime : string -> option Z)
    (rows : list raw_row) (out : list bar) :
  normalise to_numeric to_datetime rows = Some out ->
  exists bs,
    convert_dates to_datetime (kept_rows to_numeric rows) = Some bs
    /\ Permutation bs out
    /\ StronglySorted (by_key date) out
    /\ length out = length (kept_rows to_numeric rows).
Proof.
  unfold normalise, sort_values.
  destruct (convert_dates to_datetime (kept_rows to_numeric rows))
    as [bs|] eqn:E; [|discriminate].
  intros [= <-]. exists bs. split; [reflexivity|].
  split; [apply Permutation_sym, SortFacts.sort_by_perm|].
  split; [apply SortFacts.sort_by_sorted|].
  rewrite SortFacts.sort_by_length. eapply convert_dates_length, E.
Qed.

Lemma C4_normalise_sorts_and_keeps_every_row_witness :
  exists out bs,
    normalise Samples.to_numeric Samples.to_datetime Samples.twice_a_day
    = Some out
    /\ convert_dates Samples.to_datetime
         (kept_rows Samples.to_numeric Samples.twice_a_day) = Some bs
    /\ Permutation bs out
    /\ StronglySorted (by_key date) out
    /\ length out = 3%nat.
Proof.
  eexists.
  destruct (@C4_normalise_sorts_and_keeps_every_row
              Samples.to_numeric Samples.to_datetime Samples.twice_a_day
              _ eq_refl) as [bs H].
  exists bs. split; [reflexivity|]. exact H.
Defined.

(** With four matches or more the first four become open, high, low and
    close. *)
Lemma fix_price_columns_first_four (row : raw_row) (o : string) :
  raw_open row = Some o ->
  (12 < String.length (py_strip o))%nat ->
  contains_dot (py_strip o) = true ->
  forall p0 p1 p2 p3 more,
    findall_prices (py_strip o) = p0 :: p1 :: p2 :: p3 :: more ->
    let row' := fix_price_columns row in
    raw_open row' = Some p0 /\ raw_high row' = Some p1
    /\ raw_low row' = Some p2 /\ raw_close row' = Some p3.
Proof.
  intros Ho Hlen Hdot p0 p1 p2 p3 more Hf. unfold fix_price_columns.
  rewrite Ho. apply Nat.ltb_lt in Hlen. rewrite Hlen, Hdot, Hf.
  simpl. auto.
Qed.

(** C10 as claimed fails: it speaks of every open text of four glued
    decimal prices.  The prices 12.50, 12.60, 12.40 and 12.55 glued
    together make a text of 19 characters from which the repair takes
    12.501, 2.601, 2.401 and 2.55, and the row is kept with these; the
    prices 10.5, 20.5, 30.5 and 40.5 glued together make a text of 16
    characters in which two matches are found, 10.520 and 530.540, so that
    the row is dropped. *)
Lemma C10_shorter_decimals_counterexample :
  (raw_open TextSamples.glued_two_decimals
   = Some ("12.50" ++ "12.60" ++ "12.40" ++ "12.55")%string
   /\ let row' := fix_price_columns TextSamples.glued_two_decimals in
      raw_open row' = Some "12.501"%string
      /\ raw_high row' = Some "2.601"%string
      /\ raw_low row' = Some "2.401"%string
      /\ raw_close row' = Some "2.55"%string)
  /\ (raw_open TextSamples.glued_one_decimal
      = Some ("10.5" ++ "20.5" ++ "30.5" ++ "40.5")%string
      /\ findall_prices "10.520.530.540.5"
         = ["10.520"; "530.540"]%string
      /\ raw_open (fix_price_columns TextSamples.glued_one_decimal) = None
      /\ forall to_numeric,
           numeric_row to_numeric
             (fix_price_columns TextSamples.glued_one_decimal) = None).
Proof.
  split; [repeat split; vm_compute; reflexivity|].
  split; [reflexivity|]. split; [vm_compute; reflexivity|].
  split; [vm_compute; reflexivity|].
  intros tn. apply numeric_row_needs_open. vm_compute. reflexivity.
Qed.

(** C10 (amended).  Four prices written with exactly three decimals and
    glued together in the open cell are split into open, high, low and
    close as they were, "12.50012.60012.40012.550" giving 12.500, 12.600,
    12.400 and 12.550; and on every open text longer than 12 characters
    that holds a dot and in which fewer than four matches of
    [\d+\.\d{1,3}] are found, [open] becomes NaN and the row is dropped
    by [dropna]. *)
Theorem C10_three_decimal_prices_are_split :
  (forall row o s0 s1 s2 s3, raw_open row = Some o ->
     py_strip o = (s0 ++ s1 ++ s2 ++ s3)%string ->
     price3 (list_ascii_of_string s0) ->
     price3 (list_ascii_of_string s1) ->
     price3 (list_ascii_of_string s2) ->
     price3 (list_ascii_of_string s3) ->
     let row' := fix_price_columns row in
     raw_open row' = Some s0 /\ raw_high row' = Some s1
     /\ raw_low row' = Some s2 /\ raw_close row' = Some s3)
  /\ (forall row o, raw_open row = Some o ->
        (12 < String.length (py_strip o))%nat ->
        contains_dot (py_strip o) = true ->
        (length (findall_prices (py_strip o)) < 4)%nat ->
        raw_open (fix_price_columns row) = None
        /\ forall to_numeric,
             numeric_row to_numeric (fix_price_columns row) = None)
  /\ findall_prices "12.50012.60012.40012.550"
     = ["12.500"; "12.600"; "12.400"; "12.550"]%string.
Proof.
  split; [|split].
  - intros row o s0 s1 s2 s3 Ho Hs H0 H1 H2 H3.
    assert (Hf : findall_prices (py_strip o) = [s0; s1; s2; s3]).
    { unfold findall_prices. rewrite Hs.
      rewrite !list_ascii_of_string_app.
      rewrite (TextFacts.findall_four_prices H0 H1 H2 H3). simpl.
      now rewrite !string_of_list_ascii_of_string. }
    apply (@fix_price_columns_first_four row o Ho) with (more := []);
      [| |exact Hf].
    + rewrite Hs, string_length_list, !list_ascii_of_string_app,
        !length_app.
      pose proof (TextFacts.price3_length H0).
      pose proof (TextFacts.price3_length H1).
      pose proof (TextFacts.price3_length H2).
      pose proof (TextFacts.price3_length H3). lia.
    + unfold contains_dot. rewrite Hs, list_ascii_of_string_app,
        existsb_app, (TextFacts.price3_has_dot H0). reflexivity.
  - intros row o Ho Hlen Hdot Hfew.
    assert (E : raw_open (fix_price_columns row) = None).
    { unfold fix_price_columns. rewrite Ho.
      apply Nat.ltb_lt in Hlen. rewrite Hlen, Hdot. simpl.
      destruct (findall_prices (py_strip o)) as [|a [|b [|c [|d l]]]];
        simpl in *; try reflexivity; lia. }
    split; [exact E|]. intros tn. now apply numeric_row_needs_open.
  - vm_compute. reflexivity.
Qed.

Lemma C10_three_decimal_prices_are_split_witness :
  let row' := fix_price_columns Samples.glued_row in
  raw_open row' = Some "12.500"%string
  /\ raw_high row' = Some "12.600"%string
  /\ raw_low row' = Some "12.400"%string
  /\ raw_close row' = Some "12.550"%string.
Proof.
  destruct C10_three_decimal_prices_are_split as [H _].
  apply (H Samples.glued_row "12.50012.60012.40012.550"%string
           "12.500"%string "12.600"%string "12.400"%string
           "12.550"%string eq_refl); [vm_compute; reflexivity| | | |].
  - exists ["1"; "2"]%char, "5"%char, "0"%char, "0"%char.
    repeat split; try reflexivity; discriminate.
  - exists ["1"; "2"]%char, "6"%char, "0"%char, "0"%char.
    repeat split; try reflexivity; discriminate.
  - exists ["1"; "2"]%char, "4"%char, "0"%char, "0"%char.
    repeat split; try reflexivity; discriminate.
  - exists ["1"; "2"]%char, "5"%char, "5"%char, "0"%char.
    repeat split; try reflexivity; discriminate.
Defined.

End NormaliserClaims.

(** ** Windows, minima and running sums *)

Module WindowFacts.
Import Frame StockTrend.

Section Rows.
Variable A : Type.

Lemma tail_map (B : Type) (f : A -> B) (n : nat) (l : list A) :
  tail n (map f l) = map f (tail n l).
Proof. unfold tail. now rewrite length_map, skipn_map. Qed.

Lemma forallb_over_map (B : Type) (f : A -> B) (p : B -> bool)
    (l : list A) :
  forallb p (map f l) = forallb (fun x => p (f x)) l.
Proof.
  induction l as [|x l IH]; simpl; [reflexivity | now rewrite IH].
Qed.

(** The rows of [tail n l] are the rows of [l] at the last [n]
    positions. *)
Lemma in_tail (n : nat) (l : list A) (d x : A) :
  In x (tail n l) <->
  exists i, (length l - n <= i < length l)%nat /\ nth i l d = x.
Proof.
  unfold tail. split.
  - intros H. apply (In_nth _ _ d) in H as [i [Hi Hx]].
    rewrite length_skipn in Hi. rewrite nth_skipn in Hx.
    exists (length l - n + i)%nat. split; [lia | exact Hx].
  - intros [i [Hi <-]].
    replace i with (length l - n + (i - (length l - n)))%nat by lia.
    rewrite <- nth_skipn. apply nth_In. rewrite length_skipn. lia.
Qed.

Lemma forallb_tail (p : A -> bool) (n : nat) (l : list A) (d : A) :
  forallb p (tail n l) = true <->
  forall k, (1 <= k <= n)%nat -> (k <= length l)%nat ->
            p (iloc_neg k l d) = true.
Proof.
  rewrite forallb_forall. unfold iloc_neg. split.
  - intros H k Hk Hl. apply H. apply (in_tail n l d).
    exists (length l - k)%nat. split; [lia | reflexivity].
  - intros H x Hx. apply (in_tail n l d) in Hx as [i [Hi <-]].
    replace i with (length l - (length l - i))%nat by lia.
    apply H; lia.
Qed.

Lemma all_adjacent_nth (lt : A -> A -> bool) (l : list A) (d : A) :
  all_adjacent lt l = true <->
  forall i, (S i < length l)%nat ->
            lt (nth i l d) (nth (S i) l d) = true.
Proof.
  induction l as [|x [|y r] IH].
  - simpl. split; [intros _ i Hi; lia | reflexivity].
  - simpl. split; [intros _ i Hi; lia | reflexivity].
  - change (all_adjacent lt (x :: y :: r))
      with (lt x y && all_adjacent lt (y :: r)).
    rewrite andb_true_iff, IH. split.
    + intros [Hxy H] [|i] Hi; [exact Hxy|].
      apply (H i). simpl in *. lia.
    + intros H. split; [apply (H 0%nat); simpl; lia|].
      intros i Hi. apply (H (S i)). simpl in *. lia.
Qed.

Lemma length_replace_at (i : nat) (x : A) (l : list A) :
  (i < length l)%nat -> length (replace_at i x l) = length l.
Proof.
  intros H. unfold replace_at.
  rewrite length_app, length_firstn. cbn [length].
  rewrite length_skipn. lia.
Qed.

Lemma nth_replace_at (i : nat) (x d : A) (l : list A) :
  (i < length l)%nat -> nth i (replace_at i x l) d = x.
Proof.
  intros H. unfold replace_at.
  rewrite app_nth2; rewrite length_firstn; [|lia].
  replace (i - Nat.min i (length l))%nat with 0%nat by lia. reflexivity.
Qed.
End Rows.

(** *** [np.min] and [np.argmin] *)

Lemma Qmin2_cases (a b : Q) :
  (Qmin2 a b = a /\ a <= b) \/ (Qmin2 a b = b /\ b < a).
Proof.
  unfold Qmin2, Qltb. destruct (Float.Qltb b a) eqn:E.
  - right. split; [reflexivity | now apply FloatFacts.Qltb_lt].
  - left. split; [reflexivity | now apply FloatFacts.Qltb_ge].
Qed.

Lemma fold_min_spec (r : list Q) :
  forall x, fold_left Qmin2 r x <= x
            /\ (forall y, In y r -> fold_left Qmin2 r x <= y)
            /\ In (fold_left Qmin2 r x) (x :: r).
Proof.
  induction r as [|z r IH]; intros x; simpl.
  - split; [apply Qle_refl|]. split; [tauto | now left].
  - destruct (IH (Qmin2 x z)) as (H1 & H2 & H3).
    destruct (Qmin2_cases x z) as [[E Hle] | [E Hlt]]; rewrite E in *.
    + split; [exact H1|]. split.
      * intros y [<-|Hy]; [eapply Qle_trans; eassumption | now apply H2].
      * destruct H3 as [H3|H3]; [now left | now right; right].
    + split; [eapply Qle_trans; [exact H1 | now apply Qlt_le_weak]|].
      split.
      * intros y [<-|Hy]; [exact H1 | now apply H2].
      * destruct H3 as [H3|H3]; [now right; left | now right; right].
Qed.

Lemma np_min_le (l : list Q) (y : Q) : In y l -> np_min l <= y.
Proof.
  destruct l as [|x r]; [intros []|]. simpl.
  destruct (fold_min_spec r x) as (H1 & H2 & _).
  intros [<-|Hy]; [exact H1 | now apply H2].
Qed.

Lemma np_min_in (l : list Q) : l <> [] -> In (np_min l) l.
Proof.
  destruct l as [|x r]; [congruence|]. intros _. simpl.
  apply (fold_min_spec r x).
Qed.

(** A cell that is below every cell of the list has the value of
    [np.min]. *)
Lemma np_min_eq (l : list Q) (i : nat) :
  (i < length l)%nat ->
  (forall j, (j < length l)%nat -> nth i l 0 <= nth j l 0) ->
  np_min l == nth i l 0.
Proof.
  intros Hi Hmin. apply Qle_antisym.
  - apply np_min_le, nth_In, Hi.
  - assert (Hne : l <> []) by (destruct l; simpl in *; [lia | congruence]).
    destruct (In_nth _ _ 0 (np_min_in Hne)) as [j [Hj <-]].
    now apply Hmin.
Qed.

Lemma argmin_from_spec (l : list Q) :
  forall best best_i i,
    let r := argmin_from best best_i i l in
    (r = best_i /\ Forall (fun x => best <= x) l)
    \/ (exists k, r = (i + k)%nat /\ (k < length l)%nat
                  /\ nth k l 0 < best
                  /\ (forall j, (j < k)%nat -> nth k l 0 < nth j l 0)
                  /\ (forall j, (j < length l)%nat ->
                                nth k l 0 <= nth j l 0)).
Proof.
  induction l as [|x l IH]; intros best best_i i; simpl.
  - left. split; [reflexivity | constructor].
  - unfold Qltb. destruct (Float.Qltb x best) eqn:E.
    + apply FloatFacts.Qltb_lt in E. right.
      destruct (IH x i (S i)) as [[Hr Hall] | (k & Hr & Hk & Hlt & Hf & Hm)].
      * exists 0%nat. rewrite Hr.
        split; [lia|]. split; [lia|]. split; [exact E|].
        split; [intros j Hj; lia|].
        intros [|j] Hj; [apply Qle_refl|].
        rewrite Forall_forall in Hall. apply Hall, nth_In. lia.
      * exists (S k). rewrite Hr.
        split; [lia|]. split; [lia|].
        split; [eapply Qlt_trans; eassumption|].
        split.
        -- intros [|j] Hj; [exact Hlt | apply Hf; lia].
        -- intros [|j] Hj; [now apply Qlt_le_weak | apply Hm; lia].
    + apply FloatFacts.Qltb_ge in E.
      destruct (IH best best_i (S i))
        as [[Hr Hall] | (k & Hr & Hk & Hlt & Hf & Hm)].
      * left. split; [exact Hr | constructor; assumption].
      * right. exists (S k). rewrite Hr.
        split; [lia|]. split; [lia|]. split; [exact Hlt|].
        split.
        -- intros [|j] Hj; [eapply Qlt_le_trans; eassumption
                           | apply Hf; lia].
        -- intros [|j] Hj;
             [apply Qlt_le_weak; eapply Qlt_le_trans; eassumption
             | apply Hm; lia].
Qed.

Lemma np_argmin_first (l : list Q) :
  l <> [] -> first_argmin l (np_argmin l).
Proof.
  destruct l as [|x r]; [congruence|]. intros _. unfold np_argmin.
  destruct (argmin_from_spec r x 0 1)
    as [[Hr Hall] | (k & Hr & Hk & Hlt & Hf & Hm)]; rewrite Hr.
  - split; [simpl; lia|]. split.
    + intros [|j] Hj; simpl in *; [apply Qle_refl|].
      rewrite Forall_forall in Hall. apply Hall, nth_In. lia.
    + intros j Hj; lia.
  - split; [simpl; lia|]. split.
    + intros [|j] Hj; simpl in *; [now apply Qlt_le_weak|].
      apply Hm. lia.
    + intros [|j] Hj; simpl; [exact Hlt | apply Hf; lia].
Qed.

Lemma first_argmin_unique (l : list Q) (m m' : nat) :
  first_argmin l m -> first_argmin l m' -> m = m'.
Proof.
  intros (Hm & Hle & Hlt) (Hm' & Hle' & Hlt').
  destruct (Nat.lt_trichotomy m m') as [H | [H | H]]; [|exact H|].
  - exfalso. apply (Qlt_not_le _ _ (Hlt' m H)). now apply Hle.
  - exfalso. apply (Qlt_not_le _ _ (Hlt m' H)). now apply Hle'.
Qed.

(** *** [cumsum] *)

Lemma length_cumsum_from (l : list Q) :
  forall acc, length (cumsum_from acc l) = length l.
Proof.
  induction l as [|x l IH]; intros acc; simpl; [reflexivity|].
  now rewrite IH.
Qed.

Lemma length_cum_vals (w : list bar) : length (cum_vals w) = length w.
Proof.
  unfold cum_vals, cumsum, totals.
  now rewrite length_cumsum_from, length_map.
Qed.

(** The sum of a list of nets. *)
Lemma cumsum_from_nth (l : list Q) :
  forall acc i, (i < length l)%nat ->
    nth i (cumsum_from acc l) 0
    == acc + fold_right Qplus 0 (firstn (S i) l).
Proof.
  induction l as [|x l IH]; intros acc i Hi; simpl in *; [lia|].
  destruct i as [|i].
  - simpl. destruct l; simpl; ring.
  - rewrite IH by lia. simpl. ring.
Qed.

(** Each cell of [cum_vals] is the sum of the total nets from the start
    of the window up to that bar. *)
Lemma cum_vals_running_sum (w : list bar) (i : nat) :
  (i < length w)%nat ->
  nth i (cum_vals w) 0
  == fold_right Qplus 0 (firstn (S i) (map total_net w)).
Proof.
  intros Hi. unfold cum_vals, cumsum, totals.
  rewrite cumsum_from_nth by (now rewrite length_map). ring.
Qed.

End WindowFacts.

(** ** The reversal screen of StockTrend.py *)

Module ReversalClaims.
Import Frame StockTrend FrameFacts WindowFacts.

Lemma cond_B_spec (w : list bar) (d : bar) :
  cond_B w = true <->
  forall k, (1 <= k <= 3)%nat -> (k <= length w)%nat ->
            0 < total_net (iloc_neg k w d).
Proof.
  unfold cond_B, totals. rewrite tail_map, forallb_over_map.
  rewrite (forallb_tail _ 3 w d).
  split; intros H k Hk Hl; specialize (H k Hk Hl);
    now apply FloatFacts.Qltb_lt.
Qed.

(** C6.  Condition B holds exactly when the total institutional net
    (foreign + fund + dealer) of each of the last three bars of the window
    is strictly positive; and when B holds, putting in place of one of
    those three bars a bar whose total is the opposite makes B fail. *)
Theorem C6_cond_B_last_three_positive (w : list bar) (d : bar) :
  (3 <= length w)%nat ->
  (cond_B w = true <->
   forall k, (1 <= k <= 3)%nat -> 0 < total_net (iloc_neg k w d))
  /\ (cond_B w = true ->
      forall k b, (1 <= k <= 3)%nat ->
        total_net b == - total_net (iloc_neg k w d) ->
        cond_B (replace_at (length w - k) b w) = false).
Proof.
  intros Hlen. split.
  - rewrite (cond_B_spec w d). split.
    + intros H k Hk. apply H; lia.
    + intros H k Hk _. now apply H.
  - intros HB k b Hk Hb.
    destruct (cond_B (replace_at (length w - k) b w)) eqn:E;
      [|reflexivity].
    exfalso.
    pose proof (proj1 (cond_B_spec w d) HB k Hk ltac:(lia)) as Hpos.
    pose proof (proj1 (cond_B_spec _ d) E) as E'. clear E HB.
    rename E' into E.
    assert (Hi : (length w - k < length w)%nat) by lia.
    specialize (E k Hk).
    rewrite length_replace_at in E by exact Hi.
    specialize (E ltac:(lia)).
    unfold iloc_neg in E. rewrite length_replace_at in E by exact Hi.
    rewrite nth_replace_at in E by exact Hi.
    rewrite Hb in E. lra.
Qed.

Lemma C6_cond_B_last_three_positive_witness :
  cond_B Samples.rebound = true
  /\ cond_B (replace_at 4 (Samples.day 5 47 (-400) (-200) (-100))
                        Samples.rebound) = false.
Proof.
  destruct (@C6_cond_B_last_three_positive Samples.rebound
              (Samples.day 0 0 0 0 0)) as [_ Hflip].
  - simpl. lia.
  - split; [reflexivity|].
    apply (Hflip eq_refl 2%nat (Samples.day 5 47 (-400) (-200) (-100))).
    + lia.
    + vm_compute. reflexivity.
Defined.

(** C7.  Condition C holds exactly when, for the running sum of the
    total nets over the window, (i) the first position [m] of its minimum
    lies at most 10 bars before the last bar, (ii) the last value exceeds
    the minimum by strictly more than 500, and (iii) over the last 5 bars
    no value is below the one before it (equal values allowed). *)
Theorem C7_cond_C_recent_bottom_rebound_rising (w : list bar) :
  (RISING_CHECK_DAYS <= length w)%nat ->
  (cond_C w = true <->
   exists m,
     first_argmin (cum_vals w) m
     /\ (length w - 1 - m <= 10)%nat
     /\ 500 < last_cum w - nth m (cum_vals w) 0
     /\ (forall i, (length w - 5 <= i)%nat -> (S i < length w)%nat ->
                   nth i (cum_vals w) 0 <= nth (S i) (cum_vals w) 0)).
Proof.
  unfold RISING_CHECK_DAYS. intros Hlen.
  pose proof (length_cum_vals w) as Lc.
  assert (Hne : cum_vals w <> []).
  { intros E. rewrite E in Lc. simpl in Lc. lia. }
  pose proof (np_argmin_first Hne) as Hfirst.
  assert (Hmin : global_min w == nth (min_idx w) (cum_vals w) 0).
  { destruct Hfirst as (Hm & Hle & _). now apply np_min_eq. }
  assert (Hrise :
    last_m_rising w = true <->
    forall i, (length w - 5 <= i)%nat -> (S i < length w)%nat ->
              nth i (cum_vals w) 0 <= nth (S i) (cum_vals w) 0).
  { unfold last_m_rising, RISING_CHECK_DAYS. rewrite Lc.
    replace (5 <=? length w)%nat with true
      by (symmetry; apply Nat.leb_le; exact Hlen).
    rewrite (all_adjacent_nth _ _ 0). split.
    - intros H i Hi Hs.
      specialize (H (i - (length w - 5))%nat).
      rewrite length_tail, !nth_tail, Lc in H.
      replace (length w - 5 + (i - (length w - 5)))%nat with i in H by lia.
      replace (length w - 5 + S (i - (length w - 5)))%nat
        with (S i) in H by lia.
      apply Qle_bool_iff, H. lia.
    - intros H i Hi. rewrite length_tail, Lc in Hi.
      rewrite !nth_tail, Lc.
      replace (length w - 5 + S i)%nat with (S (length w - 5 + i)) by lia.
      apply Qle_bool_iff, H; lia. }
  unfold cond_C. rewrite !andb_true_iff, Hrise.
  unfold recent_bottom, days_from_min_to_today, enough_rebound,
    RECENT_BOTTOM_WINDOW, MIN_REBOUND_AMOUNT.
  rewrite Nat.leb_le, Lc. unfold Qltb. rewrite FloatFacts.Qltb_lt.
  split.
  - intros [[Hb Hr] Hm]. exists (min_idx w).
    split; [exact Hfirst|]. split; [exact Hb|].
    split; [rewrite <- Hmin; exact Hr | exact Hm].
  - intros (m & Hf & Hb & Hr & Hm).
    assert (E : m = min_idx w) by (eapply first_argmin_unique; eassumption).
    subst m. split; [split|]; [exact Hb | rewrite Hmin; exact Hr | exact Hm].
Qed.

Lemma C7_cond_C_recent_bottom_rebound_rising_witness :
  cond_C Samples.rebound = true
  /\ exists m,
       first_argmin (cum_vals Samples.rebound) m
       /\ (length Samples.rebound - 1 - m <= 10)%nat
       /\ 500 < last_cum Samples.rebound
                - nth m (cum_vals Samples.rebound) 0.
Proof.
  assert (H : (RISING_CHECK_DAYS <= length Samples.rebound)%nat)
    by (vm_compute; lia).
  split; [reflexivity|].
  destruct (proj1 (@C7_cond_C_recent_bottom_rebound_rising Samples.rebound H)
              eq_refl)
    as (m & H1 & H2 & H3 & _).
  exists m. auto.
Defined.

(** C8.  Condition D holds exactly when the least close of the window is
    the value of one of the last 10 closes (wherever else it also occurs)
    and the last close is strictly above the close before it. *)
Theorem C8_cond_D_recent_low_and_rising (w : list bar) :
  (2 <= length w)%nat ->
  (cond_D w = true <->
   (exists i, (length w - 10 <= i < length w)%nat
              /\ forall j, (j < length w)%nat ->
                           nth i (closes w) 0 <= nth j (closes w) 0)
   /\ nth (length w - 2) (closes w) 0 < nth (length w - 1) (closes w) 0).
Proof.
  intros Hlen.
  assert (Lc : length (closes w) = length w)
    by (unfold closes; apply length_map).
  assert (Hne : closes w <> []).
  { intros E. rewrite E in Lc. simpl in Lc. lia. }
  unfold cond_D. rewrite andb_true_iff.
  assert (Hlow :
    recent_low_occur w = true <->
    exists i, (length w - 10 <= i < length w)%nat
              /\ forall j, (j < length w)%nat ->
                           nth i (closes w) 0 <= nth j (closes w) 0).
  { unfold recent_low_occur, PRICE_RECENT_LOW_WINDOW, low_60.
    rewrite existsb_exists. split.
    - intros (x & Hx & E). apply Qeq_bool_iff in E.
      apply (in_tail 10 (closes w) 0) in Hx as (i & Hi & <-).
      rewrite Lc in Hi. exists i. split; [exact Hi|].
      intros j Hj. rewrite <- E. apply np_min_le, nth_In. lia.
    - intros (i & Hi & Hmin). exists (nth i (closes w) 0). split.
      + apply (in_tail 10 (closes w) 0). exists i.
        rewrite Lc. split; [exact Hi | reflexivity].
      + apply Qeq_bool_iff, np_min_eq; rewrite Lc; [lia | exact Hmin]. }
  assert (Hrise :
    price_rising w = true <->
    nth (length w - 2) (closes w) 0 < nth (length w - 1) (closes w) 0).
  { unfold price_rising, last_p_prices, PRICE_RISING_DAYS.
    rewrite length_tail, Lc.
    replace (2 <=? Nat.min 2 (length w))%nat with true
      by (symmetry; apply Nat.leb_le; lia).
    rewrite andb_true_l, (all_adjacent_nth _ _ 0). split.
    - intros H. specialize (H 0%nat).
      rewrite length_tail, !nth_tail, Lc in H.
      replace (length w - 2 + 0)%nat with (length w - 2)%nat in H by lia.
      replace (length w - 2 + 1)%nat with (length w - 1)%nat in H by lia.
      apply FloatFacts.Qltb_lt, H. lia.
    - intros H i Hi. rewrite length_tail, Lc in Hi.
      assert (i = 0%nat) by lia. subst i.
      rewrite !nth_tail, Lc.
      replace (length w - 2 + 0)%nat with (length w - 2)%nat by lia.
      replace (length w - 2 + 1)%nat with (length w - 1)%nat by lia.
      now apply FloatFacts.Qltb_lt. }
  now rewrite Hlow, Hrise.
Qed.

Lemma C8_cond_D_recent_low_and_rising_witness :
  cond_D Samples.rebound = true
  /\ nth 4 (closes Samples.rebound) 0 < nth 5 (closes Samples.rebound) 0.
Proof.
  assert (H : (2 <= length Samples.rebound)%nat) by (vm_compute; lia).
  split; [reflexivity|].
  exact (proj2 (proj1 (@C8_cond_D_recent_low_and_rising Samples.rebound H)
                     eq_refl)).
Defined.

End ReversalClaims.

(** ** The threshold screen of StockTrend_Gemini.py *)

Module ThresholdClaims.
Import Float Frame StockTrendGemini.

(** A frame of two rows or more ends, once sorted, with a latest and a
    previous row. *)
Lemma sorted_frame_ends (rows : list bar) :
  (2 <= length rows)%nat ->
  exists latest prev older,
    rev (sort_by date rows) = latest :: prev :: older.
Proof.
  intros H.
  pose proof (SortFacts.sort_by_length date rows) as L.
  rewrite <- length_rev in L.
  destruct (rev (sort_by date rows)) as [|a [|b l]]; simpl in L;
    try lia.
  now exists a, b, l.
Qed.

Lemma flag_test (flag test : bool) :
  (if flag then test else true) = true <-> (flag = true -> test = true).
Proof. destruct flag, test; simpl; intuition congruence. Qed.

(** [all_conditions] says that each enabled condition holds. *)
Lemma all_conditions_spec (cfg : config) (df : list bar) (latest : bar) :
  all_conditions cfg df latest = true <->
  (use_price cfg = true ->
     leb (close_price latest) (max_price cfg) = true)
  /\ (use_ma cfg = true ->
        gtb (close_price latest) (MA_S cfg df) = true
        /\ gtb (MA_S cfg df) (MA_L cfg df) = true)
  /\ (use_vol cfg = true ->
        geb (actual_vol_ratio cfg df latest) (vol_ratio_limit cfg) = true)
  /\ (use_min_vol cfg = true ->
        geb (volume latest) (min_volume cfg) = true)
  /\ (use_inst cfg = true -> gtb (inst_total latest) (Fin 0) = true)
  /\ (use_shape cfg = true ->
        leb (actual_shadow_ratio latest) (shadow_limit cfg) = true).
Proof.
  unfold all_conditions, c_price, c_ma, c_vol, c_min_vol, c_inst, c_shape.
  cbn [forallb]. rewrite andb_true_r, !andb_true_iff, !flag_test.
  rewrite andb_true_iff. tauto.
Qed.

(** C9 as claimed fails: with every condition switched off and a long
    window of one day, a frame of one bar is long enough and is still
    answered [None], the row before the latest one being read before the
    conditions are looked at. *)
Lemma C9_single_bar_counterexample :
  (StockTrendGemini.ma_long (Samples.flags_off 1)
     <= length [Samples.quote 1 50])%nat
  /\ all_conditions (Samples.flags_off 1)
       (sort_by date [Samples.quote 1 50]) (Samples.quote 1 50) = true
  /\ screen_stocks (Samples.flags_off 1) [Samples.quote 1 50] = None.
Proof.
  split; [simpl; lia|]. split; reflexivity.
Qed.

(** C9 (amended).  For a frame of at least [ma_long] bars and at least
    two bars, [screen_stocks] answers a pass record exactly when every
    enabled condition holds on the latest bar, and [None] otherwise; a
    disabled condition asks nothing, so with all six switched off the
    frame passes.  With the price ceiling enabled at 100, a latest close
    of 100 satisfies the price condition (and passes when the other
    conditions are off), a latest close of 100.01 is answered [None]. *)
Theorem C9_screen_stocks_passes_iff_enabled_hold
    (cfg : config) (rows : list bar) :
  (ma_long cfg <= length rows)%nat ->
  (2 <= length rows)%nat ->
  exists latest prev older,
    rev (sort_by date rows) = latest :: prev :: older
    /\ (screen_stocks cfg rows <> None <->
        all_conditions cfg (sort_by date rows) latest = true)
    /\ (forall r, screen_stocks cfg rows = Some r ->
                  p_close r = close_price latest
                  /\ p_latest_date r = date latest)
    /\ (use_price cfg = false -> use_ma cfg = false ->
        use_vol cfg = false -> use_min_vol cfg = false ->
        use_inst cfg = false -> use_shape cfg = false ->
        screen_stocks cfg rows <> None)
    /\ (forall q, use_price cfg = true -> max_price cfg = Fin 100 ->
          close_price latest = Fin q ->
          (q == 100 ->
             c_price cfg latest = true
             /\ (use_ma cfg = false -> use_vol cfg = false ->
                 use_min_vol cfg = false -> use_inst cfg = false ->
                 use_shape cfg = false ->
                 screen_stocks cfg rows <> None))
          /\ (q == 10001 # 100 -> screen_stocks cfg rows = None)).
Proof.
  intros Hlong Htwo.
  destruct (sorted_frame_ends rows Htwo) as (latest & prev & older & E).
  exists latest, prev, older. split; [exact E|].
  assert (Hlen : (length (sort_by date rows) <? ma_long cfg)%nat = false).
  { apply Nat.ltb_ge. rewrite SortFacts.sort_by_length. exact Hlong. }
  assert (Hiff : screen_stocks cfg rows <> None <->
                 all_conditions cfg (sort_by date rows) latest = true).
  { unfold screen_stocks. rewrite Hlen, E.
    destruct (all_conditions cfg (sort_by date rows) latest);
      split; congruence. }
  assert (Hoff : use_ma cfg = false -> use_vol cfg = false ->
                 use_min_vol cfg = false -> use_inst cfg = false ->
                 use_shape cfg = false ->
                 c_price cfg latest = true ->
                 screen_stocks cfg rows <> None).
  { intros H2 H3 H4 H5 H6 H1. apply Hiff.
    unfold all_conditions, c_ma, c_vol, c_min_vol, c_inst, c_shape.
    rewrite H1, H2, H3, H4, H5, H6. reflexivity. }
  split; [exact Hiff|]. split; [|split].
  - unfold screen_stocks. rewrite Hlen, E.
    destruct (all_conditions cfg (sort_by date rows) latest);
      [|discriminate].
    intros r [= <-]. split; reflexivity.
  - intros H1 H2 H3 H4 H5 H6. apply Hoff; auto.
    unfold c_price. now rewrite H1.
  - intros q Hp Hmax Hq. split.
    + intros E100.
      assert (Hc : c_price cfg latest = true).
      { unfold c_price. rewrite Hp, Hq, Hmax. simpl.
        apply Qle_bool_iff. rewrite E100. apply Qle_refl. }
      split; [exact Hc|]. intros; now apply Hoff.
    + intros Eover.
      assert (Hnot : all_conditions cfg (sort_by date rows) latest
                     <> true).
      { intros Ha. apply all_conditions_spec in Ha. destruct Ha as [Hn _].
        specialize (Hn Hp). rewrite Hq, Hmax in Hn. simpl in Hn.
        apply Qle_bool_iff in Hn. rewrite Eover in Hn.
        revert Hn. apply Qlt_not_le. reflexivity. }
      destruct (screen_stocks cfg rows) eqn:Es; [|reflexivity].
      exfalso. apply Hnot, Hiff. discriminate.
Qed.

Lemma C9_screen_stocks_passes_iff_enabled_hold_witness :
  screen_stocks Samples.price_only (Samples.twenty_days 100) <> None
  /\ screen_stocks Samples.price_only (Samples.twenty_days (10001 # 100))
     = None.
Proof.
  split.
  - destruct (@C9_screen_stocks_passes_iff_enabled_hold
                Samples.price_only (Samples.twenty_days 100))
      as (latest & prev & older & E & _ & _ & _ & H).
    + vm_compute. lia.
    + vm_compute. lia.
    + vm_compute in E. injection E as <- _ _.
      destruct (H 100 eq_refl eq_refl eq_refl) as [Hpass _].
      now apply Hpass.
  - destruct (@C9_screen_stocks_passes_iff_enabled_hold
                Samples.price_only
                (Samples.twenty_days (10001 # 100)))
      as (latest & prev & older & E & _ & _ & _ & H).
    + vm_compute. lia.
    + vm_compute. lia.
    + vm_compute in E. injection E as <- _ _.
      destruct (H (10001 # 100) eq_refl eq_refl eq_refl) as [_ Hfail].
      now apply Hfail.
Defined.

End ThresholdClaims.

(* ====================================================================== *)
(** * Further properties                                                   *)
(* ====================================================================== *)

(** ** Sorted frames *)

Module SortExtras.
Import Frame SortFacts.

Section Unique.
Variable A : Type.
Variable key : A -> Z.

Lemma key_injective_on (l : list A) (x y : A) :
  NoDup (map key l) -> In x l -> In y l -> key x = key y -> x = y.
Proof.
  induction l as [|a l IH]; simpl; intros N Hx Hy E; [contradiction|].
  inversion N as [|? ? Hn N']; subst.
  destruct Hx as [->|Hx], Hy as [->|Hy]; auto.
  - exfalso. apply Hn. rewrite E. now apply in_map.
  - exfalso. apply Hn. rewrite <- E. now apply in_map.
Qed.

(** A frame has one ascending arrangement when its keys are distinct. *)
Lemma sorted_perm_unique (l1 : list A) :
  forall l2,
    StronglySorted (by_key key) l1 -> StronglySorted (by_key key) l2 ->
    Permutation l1 l2 -> NoDup (map key l1) -> l1 = l2.
Proof.
  induction l1 as [|a l1 IH]; intros l2 S1 S2 P N.
  - now apply Permutation_nil in P.
  - destruct l2 as [|b l2];
      [apply Permutation_sym, Permutation_nil in P; discriminate|].
    assert (Hab : a = b).
    { apply (@key_injective_on (a :: l1)); auto.
      - now left.
      - apply (Permutation_in _ (Permutation_sym P)). now left.
      - inversion S1 as [|? ? _ F1]; inversion S2 as [|? ? _ F2]; subst.
        rewrite Forall_forall in F1, F2.
        assert (Ia : In a (b :: l2))
          by (apply (Permutation_in _ P); now left).
        assert (Ib : In b (a :: l1))
          by (apply (Permutation_in _ (Permutation_sym P)); now left).
        unfold by_key in *.
        destruct Ia as [->|Ia]; [reflexivity|].
        destruct Ib as [->|Ib]; [reflexivity|].
        specialize (F1 _ Ib). specialize (F2 _ Ia). lia. }
    subst b. f_equal.
    apply IH.
    + now inversion S1.
    + now inversion S2.
    + now apply Permutation_cons_inv in P.
    + now inversion N.
Qed.

Lemma sort_by_of_perm (l l' : list A) :
  Permutation l l' -> NoDup (map key l) ->
  sort_by key l = sort_by key l'.
Proof.
  intros P N. apply sorted_perm_unique.
  - apply sort_by_sorted.
  - apply sort_by_sorted.
  - rewrite (sort_by_perm key l), (sort_by_perm key l'). exact P.
  - apply (Permutation_NoDup
             (Permutation_map key (Permutation_sym (sort_by_perm key l)))).
    exact N.
Qed.




(** The last row of a sorted frame holds the greatest key. *)
Lemma sorted_last_greatest (l : list A) (x : A) (r : list A) :
  StronglySorted (by_key key) l -> rev l = x :: r ->
  forall y, In y l -> (key y <= key x)%Z.
Proof.
  intros S E y Hy.
  assert (El : l = rev r ++ [x]).
  { rewrite <- (rev_involutive l), E. reflexivity. }
  subst l. clear E.
  apply in_app_or in Hy as [Hy|[<-|[]]]; [|lia].
  induction (rev r) as [|a q IH]; [contradiction|].
  simpl in S. inversion S as [|? ? S' F]; subst.
  destruct Hy as [<-|Hy]; [|now apply IH].
  rewrite Forall_forall in F. apply F, in_or_app. right. now left.
Qed.
End Unique.

End SortExtras.

(** ** Windows that end on the latest row *)

Module FrameExtras.
Import Float Frame.

Section Rows.
Variable A : Type.

Lemma tail_snoc (n : nat) (q : list A) (x : A) :
  (1 <= n)%nat -> tail n (q ++ [x]) = tail (n - 1) q ++ [x].
Proof.
  intros H. unfold tail. rewrite length_app, skipn_app. cbn [length].
  replace (length q + 1 - n)%nat with (length q - (n - 1))%nat by lia.
  replace (length q - (n - 1) - length q)%nat with 0%nat by lia.
  reflexivity.
Qed.

Lemma slice_neg_snoc (k : nat) (q : list A) (x : A) :
  slice_neg (k + 1) 1 (q ++ [x]) = tail k q.
Proof.
  unfold slice_neg, tail. rewrite length_app. cbn [length].
  replace (length q + 1 - 1)%nat with (length q + 0)%nat by lia.
  rewrite firstn_app_2. cbn [firstn]. rewrite app_nil_r.
  f_equal. lia.
Qed.

Lemma iloc_neg_snoc (q : list A) (x d : A) :
  iloc_neg 1 (q ++ [x]) d = x.
Proof.
  unfold iloc_neg. rewrite length_app. cbn [length].
  replace (length q + 1 - 1)%nat with (length q) by lia.
  now rewrite nth_middle.
Qed.


Lemma tail_incl (n : nat) (l : list A) (x : A) :
  In x (tail n l) -> In x l.
Proof.
  unfold tail. intros H.
  rewrite <- (firstn_skipn (length l - n) l).
  apply in_or_app. now right.
Qed.

Lemma snoc_of_rev (l : list A) (x : A) (r : list A) :
  rev l = x :: r -> l = rev r ++ [x].
Proof. intros E. rewrite <- (rev_involutive l), E. reflexivity. Qed.
End Rows.

(** Python's [max] returns one of the values it is given. *)
Lemma fold_py_max_in (r : list float) :
  forall x, In (fold_left py_max r x) (x :: r).
Proof.
  induction r as [|y r IH]; intros x; [now left|].
  cbn [fold_left]. specialize (IH (py_max x y)).
  unfold py_max in *. destruct (gtb y x).
  - right. exact IH.
  - destruct IH as [IH|IH]; [now left | right; now right].
Qed.

Lemma py_max_list_in (l : list float) :
  l <> [] -> In (py_max_list l) l.
Proof.
  destruct l as [|x r]; [congruence|]. intros _. apply fold_py_max_in.
Qed.

End FrameExtras.

(** ** The classifier as a whole *)

Module ClassifierExtras.
Import Float Frame StockTrend2 Measures ClassifierFacts.

Lemma tail_app_long (A : Type) (n : nat) (older recent : list A) :
  (n <= length recent)%nat -> tail n (older ++ recent) = tail n recent.
Proof.
  intros H. unfold tail. rewrite length_app, skipn_app.
  replace (length older + length recent - n - length older)%nat
    with (length recent - n)%nat by lia.
  rewrite skipn_all2 by lia. reflexivity.
Qed.

(** X1.  Only the last ten bars are looked at: bars put before a series
    of ten bars or more leave the whole answer unchanged. *)
Theorem X1_only_last_ten_bars_matter (older recent : list bar) :
  (10 <= length recent)%nat ->
  analyze_volume_price_pattern (older ++ recent)
  = analyze_volume_price_pattern recent.
Proof.
  intros H. unfold analyze_volume_price_pattern.
  rewrite length_app.
  replace (length older + length recent <? 10)%nat with false
    by (symmetry; apply Nat.ltb_ge; lia).
  replace (length recent <? 10)%nat with false
    by (symmetry; apply Nat.ltb_ge; lia).
  now rewrite tail_app_long.
Qed.

Lemma X1_only_last_ten_bars_matter_witness :
  analyze_volume_price_pattern
    (Samples.falling_top ++ Samples.rising_spike)
  = analyze_volume_price_pattern Samples.rising_spike.
Proof.
  apply (@X1_only_last_ten_bars_matter
           Samples.falling_top Samples.rising_spike).
  simpl. lia.
Defined.

Lemma override_idle (recent : list bar) (v : action * risk_level) :
  override (risk_factors (accumulate recent)) v = v.
Proof.
  unfold override.
  destruct (existsb (risk_factor_eqb BrokeSupport)
                    (risk_factors (accumulate recent))) eqn:E;
    [|reflexivity].
  exfalso. apply (@broke_support_never_recorded recent).
  apply existsb_exists in E as [r [Hin Hr]].
  destruct r; try discriminate. exact Hin.
Qed.

Lemma analyze_long (df : list bar) :
  (10 <= length df)%nat ->
  let st := accumulate (tail 10 df) in
  let r := analyze_volume_price_pattern df in
  r_score r = Some (action_score st)
  /\ (r_action r, r_risk_level r) = verdict (action_score st)
  /\ r_signals r = signals st.
Proof.
  intros H. unfold analyze_volume_price_pattern.
  replace (length df <? 10)%nat with false
    by (symmetry; apply Nat.ltb_ge; lia).
  unfold conclude. rewrite override_idle.
  destruct (verdict (action_score (accumulate (tail 10 df)))) as [a r].
  simpl. auto.
Qed.

Lemma action_by_score (df : list bar) :
  (10 <= length df)%nat ->
  r_action (analyze_volume_price_pattern df)
  = if (5 <=? action_score (accumulate (tail 10 df)))%Z then Enter
    else if (action_score (accumulate (tail 10 df)) <=? -5)%Z then Reduce
    else Hold.
Proof.
  intros H. destruct (analyze_long df H) as (_ & Hv & _).
  rewrite verdict_cases in Hv.
  destruct (5 <=? action_score (accumulate (tail 10 df)))%Z;
    [|destruct (action_score (accumulate (tail 10 df)) <=? -5)%Z];
    now injection Hv.
Qed.

(** X2.  On ten bars or more the answer is one of three: 上車 with risk 低
    and a score of 5 or more, 減倉 with risk 高 and a score of -5 or less,
    觀望 with risk 中 and a score strictly between. *)
Theorem X2_three_answers_by_score (df : list bar) :
  (10 <= length df)%nat ->
  exists score,
    r_score (analyze_volume_price_pattern df) = Some score
    /\ let r := analyze_volume_price_pattern df in
       ((5 <= score)%Z /\ r_action r = Enter /\ r_risk_level r = Low)
       \/ ((score <= -5)%Z /\ r_action r = Reduce
           /\ r_risk_level r = High)
       \/ ((-5 < score < 5)%Z /\ r_action r = Hold
           /\ r_risk_level r = Medium).
Proof.
  intros H. destruct (analyze_long df H) as (Hs & Hv & _).
  exists (action_score (accumulate (tail 10 df))). split; [exact Hs|].
  cbv zeta. rewrite verdict_cases in Hv.
  destruct (Z.leb_spec 5 (action_score (accumulate (tail 10 df))));
    [left; inversion Hv; auto|].
  destruct (Z.leb_spec (action_score (accumulate (tail 10 df))) (-5));
    [right; left; inversion Hv; auto|].
  right; right. inversion Hv. split; [lia | auto].
Qed.

Lemma X2_three_answers_by_score_witness :
  exists score,
    r_score (analyze_volume_price_pattern Samples.falling_top)
    = Some score
    /\ let r := analyze_volume_price_pattern Samples.falling_top in
       ((5 <= score)%Z /\ r_action r = Enter /\ r_risk_level r = Low)
       \/ ((score <= -5)%Z /\ r_action r = Reduce
           /\ r_risk_level r = High)
       \/ ((-5 < score < 5)%Z /\ r_action r = Hold
           /\ r_risk_level r = Medium).
Proof.
  apply (@X2_three_answers_by_score Samples.falling_top).
  simpl. lia.
Defined.

(** *** What a run can reach *)

Lemma score_at_most (os : list (option outcome)) :
  forall st,
    (action_score (run_from st os)
     <= Z.max 0 (action_score st) + gain_sum os)%Z.
Proof.
  unfold run_from.
  induction os as [|o os IH]; intros st; simpl; [lia|].
  specialize (IH (apply_outcome st o)).
  destruct o as [[sg [w|] rk]|]; simpl in *; unfold gain_of; simpl; lia.
Qed.

Lemma score_at_least (os : list (option outcome)) :
  forall st,
    (Z.min 0 (action_score st) + loss_sum os
     <= action_score (run_from st os))%Z.
Proof.
  unfold run_from.
  induction os as [|o os IH]; intros st; simpl; [lia|].
  specialize (IH (apply_outcome st o)).
  destruct o as [[sg [w|] rk]|]; simpl in *; unfold loss_of; simpl; lia.
Qed.

Ltac block_bound H :=
  unfold gain_of, loss_of;
  repeat match goal with
         | |- context [if ?c then _ else _] => destruct c eqn:?
         | |- context [match ?c with Some _ => _ | None => _ end] =>
             destruct c eqn:?
         end;
  simpl; try lia; try congruence.

Section Quiet.
Variable recent : list bar.
Hypothesis quiet : is_high_volume recent = false.

Lemma quiet_support : support_price recent = None.
Proof. unfold support_price. now rewrite quiet. Qed.

Lemma quiet_above : above_support recent = false.
Proof. unfold above_support. now rewrite quiet_support. Qed.

Lemma quiet_gain : (gain_sum (outcomes recent) <= 4)%Z.
Proof.
  assert (G1 : gain_of (d_high_volume recent) = 0%Z)
    by (unfold d_high_volume; rewrite quiet; reflexivity).
  assert (G2 : gain_of (d_support recent) = 0%Z)
    by (unfold d_support; rewrite quiet_support; reflexivity).
  assert (G3 : (gain_of (d_three_soldiers recent) <= 2)%Z)
    by (unfold d_three_soldiers; rewrite quiet_above; block_bound quiet).
  assert (G4 : gain_of (d_bottom_fractal recent) = 0%Z)
    by (unfold d_bottom_fractal; rewrite quiet_above; block_bound quiet).
  assert (G5 : gain_of (d_top_fractal recent) = 0%Z)
    by (unfold d_top_fractal; block_bound quiet).
  assert (G6 : gain_of (d_violent_swing recent) = 0%Z)
    by (unfold d_violent_swing; block_bound quiet).
  assert (G7 : gain_of (d_lower_shadow recent) = 0%Z)
    by (unfold d_lower_shadow; rewrite quiet; block_bound quiet).
  assert (G8 : gain_of (d_upper_shadow recent) = 0%Z)
    by (unfold d_upper_shadow; block_bound quiet).
  assert (G9 : gain_of (d_downtrend recent) = 0%Z)
    by (unfold d_downtrend; block_bound quiet).
  assert (G10 : (gain_of (d_volume_ladder recent) <= 2)%Z)
    by (unfold d_volume_ladder; block_bound quiet).
  assert (G11 : gain_of (d_small_body recent) = 0%Z)
    by (unfold d_small_body; rewrite quiet, andb_false_r; reflexivity).
  assert (G12 : gain_of (d_consecutive_red recent) = 0%Z)
    by (rewrite d_consecutive_red_silent; reflexivity).
  assert (G13 : gain_of (d_high_volume_rule recent) = 0%Z)
    by (unfold d_high_volume_rule; rewrite quiet; reflexivity).
  unfold outcomes, gain_sum. cbn [fold_right]. lia.
Qed.
End Quiet.

(** The last block of a spike's first day puts the score back to 0. *)
Lemma first_day_score (recent : list bar) :
  is_high_volume recent = true -> high_volume_day recent = 1%nat ->
  action_score (accumulate recent) = 0%Z.
Proof.
  intros Hv Hd. unfold accumulate, outcomes.
  change [d_high_volume recent; d_support recent; d_three_soldiers recent;
          d_bottom_fractal recent; d_top_fractal recent;
          d_violent_swing recent; d_lower_shadow recent;
          d_upper_shadow recent; d_downtrend recent;
          d_volume_ladder recent; d_small_body recent;
          d_consecutive_red recent; d_high_volume_rule recent]
    with ([d_high_volume recent; d_support recent;
           d_three_soldiers recent; d_bottom_fractal recent;
           d_top_fractal recent; d_violent_swing recent;
           d_lower_shadow recent; d_upper_shadow recent;
           d_downtrend recent; d_volume_ladder recent;
           d_small_body recent; d_consecutive_red recent]
          ++ d_high_volume_rule recent :: []).
  apply score_after_reset; [|reflexivity].
  unfold d_high_volume_rule. rewrite Hv, Hd. reflexivity.
Qed.

(** X3.  On the first day of a volume spike (the latest volume exceeds the
    three before it, and neither of the two days before was such a spike)
    the score is 0 and the answer 觀望 with risk 中, whatever the other
    blocks found. *)
Theorem X3_first_spike_day_is_hold (df : list bar) :
  (10 <= length df)%nat ->
  is_high_volume (tail 10 df) = true ->
  spike_before (tail 10 df) 1 = false ->
  spike_before (tail 10 df) 2 = false ->
  let r := analyze_volume_price_pattern df in
  r_score r = Some 0%Z /\ r_action r = Hold /\ r_risk_level r = Medium.
Proof.
  intros H Hv H1 H2.
  assert (Hd : high_volume_day (tail 10 df) = 1%nat).
  { unfold high_volume_day. rewrite Hv, H1, H2.
    now destruct (5 <=? length (tail 10 df))%nat. }
  destruct (analyze_long df H) as (Hs & Ha & _).
  rewrite (first_day_score _ Hv Hd) in Hs, Ha.
  cbv zeta. rewrite Hs. inversion Ha. auto.
Qed.

Lemma X3_first_spike_day_is_hold_witness :
  let r := analyze_volume_price_pattern
             (Samples.quiet :: Samples.quiet :: Samples.quiet
              :: Samples.quiet :: Samples.quiet :: Samples.quiet
              :: Samples.quiet :: Samples.candle 9 9 9 9 100
              :: Samples.candle 9 10 9 10 100
              :: Samples.candle 10 11 10 11 300 :: nil) in
  r_score r = Some 0%Z /\ r_action r = Hold /\ r_risk_level r = Medium.
Proof.
  apply (@X3_first_spike_day_is_hold
           (Samples.quiet :: Samples.quiet :: Samples.quiet
            :: Samples.quiet :: Samples.quiet :: Samples.quiet
            :: Samples.quiet :: Samples.candle 9 9 9 9 100
            :: Samples.candle 9 10 9 10 100
            :: Samples.candle 10 11 10 11 300 :: nil)).
  - simpl. lia.
  - reflexivity.
  - reflexivity.
  - reflexivity.
Defined.

(** X4.  上車 is answered only when the latest bar is a volume spike and
    one of the two bars before it was a spike too; without a spike on the
    latest bar the score never exceeds 4. *)
Theorem X4_enter_needs_repeated_spike (df : list bar) :
  (10 <= length df)%nat ->
  (is_high_volume (tail 10 df) = false ->
   exists score,
     r_score (analyze_volume_price_pattern df) = Some score
     /\ (score <= 4)%Z)
  /\ (r_action (analyze_volume_price_pattern df) = Enter ->
      is_high_volume (tail 10 df) = true
      /\ (spike_before (tail 10 df) 1 = true
          \/ spike_before (tail 10 df) 2 = true)).
Proof.
  intros H. destruct (analyze_long df H) as (Hs & Ha & _).
  assert (Hq : is_high_volume (tail 10 df) = false ->
               (action_score (accumulate (tail 10 df)) <= 4)%Z).
  { intros Hv. pose proof (@quiet_gain (tail 10 df) Hv) as G.
    pose proof (score_at_most (outcomes (tail 10 df)) initial) as B.
    change (action_score initial) with 0%Z in B.
    change (run_from initial (outcomes (tail 10 df)))
      with (accumulate (tail 10 df)) in B.
    lia. }
  split.
  - intros Hv. eexists. split; [exact Hs | now apply Hq].
  - intros He.
    assert (H5 : (5 <= action_score (accumulate (tail 10 df)))%Z).
    { rewrite verdict_cases in Ha.
      destruct (Z.leb_spec 5 (action_score (accumulate (tail 10 df))));
        [assumption|].
      destruct (action_score (accumulate (tail 10 df)) <=? -5)%Z;
        inversion Ha; congruence. }
    destruct (is_high_volume (tail 10 df)) eqn:Hv;
      [|specialize (Hq eq_refl); lia].
    split; [reflexivity|].
    destruct (spike_before (tail 10 df) 1) eqn:E1; [now left|].
    destruct (spike_before (tail 10 df) 2) eqn:E2; [now right|].
    exfalso.
    assert (Hd : high_volume_day (tail 10 df) = 1%nat).
    { unfold high_volume_day. rewrite Hv, E1, E2.
      now destruct (5 <=? length (tail 10 df))%nat. }
    rewrite (first_day_score _ Hv Hd) in H5. lia.
Qed.

Lemma X4_enter_needs_repeated_spike_witness :
  r_action (analyze_volume_price_pattern Samples.rising_spike) = Enter
  /\ is_high_volume (tail 10 Samples.rising_spike) = true
  /\ (spike_before (tail 10 Samples.rising_spike) 1 = true
      \/ spike_before (tail 10 Samples.rising_spike) 2 = true).
Proof.
  split; [reflexivity|].
  apply (@X4_enter_needs_repeated_spike Samples.rising_spike).
  - simpl. lia.
  - reflexivity.
Defined.

End ClassifierExtras.

(** ** The range of the score *)

Module ScoreRange.
Import Float Frame StockTrend2 Measures ClassifierFacts ClassifierExtras
  FrameExtras.

Lemma ltb_trans (a b c : float) :
  ltb a b = true -> ltb b c = true -> ltb a c = true.
Proof.
  destruct a as [| | |p], b as [| | |q], c as [| | |r]; cbn;
    try discriminate; try reflexivity.
  intros H1 H2. apply FloatFacts.Qltb_lt in H1, H2.
  apply FloatFacts.Qltb_lt. eapply Qlt_trans; eassumption.
Qed.

(** The four volumes of the ladder test: the three compared with the
    latest one by the volume test, then the latest one. *)
Lemma ladder_window (recent : list bar) :
  (4 <= length recent)%nat ->
  exists a b c,
    map volume (tail 4 recent) = [a; b; c; volume (latest recent)]
    /\ prev_3_vols recent = [a; b; c].
Proof.
  intros H.
  destruct (exists_last (l := recent)) as (q & z & E).
  { intros E. rewrite E in H. simpl in H. lia. }
  subst recent. rewrite length_app in H. cbn [length] in H.
  unfold prev_3_vols, latest.
  rewrite length_app. cbn [length].
  replace (4 <=? length q + 1)%nat with true
    by (symmetry; apply Nat.leb_le; lia).
  rewrite (slice_neg_snoc 3), iloc_neg_snoc, tail_snoc by lia.
  change (4 - 1)%nat with 3%nat.
  assert (L : length (tail 3 q) = 3%nat)
    by (rewrite FrameFacts.length_tail; lia).
  destruct (tail 3 q) as [|a [|b [|c [|d r]]]]; simpl in L; try lia.
  exists (volume a), (volume b), (volume c). split; reflexivity.
Qed.

Section Blocks.
Variable recent : list bar.

(** Volumes that rise to the latest bar make it a spike. *)
Lemma rising_ladder_is_spike :
  (4 <= length recent)%nat ->
  all_adjacent ltb (map volume (tail 4 recent)) = true ->
  is_high_volume recent = true.
Proof.
  intros H A. destruct (ladder_window recent H) as (a & b & c & Ev & Ep).
  rewrite Ev in A. cbn in A. rewrite andb_true_r in A.
  apply andb_true_iff in A as [Hab A].
  apply andb_true_iff in A as [Hbc Hcx].
  unfold is_high_volume. rewrite Ep. cbn.
  unfold py_max, gtb. rewrite Hab, Hbc. exact Hcx.
Qed.

(** Volumes that fall to the latest bar keep it from being one. *)
Lemma falling_ladder_is_no_spike :
  (4 <= length recent)%nat ->
  all_adjacent gtb (map volume (tail 4 recent)) = true ->
  is_high_volume recent = false.
Proof.
  intros H A. destruct (ladder_window recent H) as (a & b & c & Ev & Ep).
  rewrite Ev in A. cbn in A. rewrite andb_true_r in A.
  apply andb_true_iff in A as [Hab A].
  apply andb_true_iff in A as [Hbc Hcx].
  unfold gtb in Hab, Hbc, Hcx.
  unfold is_high_volume. rewrite Ep. cbn.
  unfold py_max, gtb.
  rewrite (FloatFacts.ltb_asym _ _ Hab).
  pose proof (ltb_trans _ _ _ Hbc Hab) as Hca.
  rewrite (FloatFacts.ltb_asym _ _ Hca).
  pose proof (ltb_trans _ _ _ Hcx Hca) as Hxa.
  apply (FloatFacts.ltb_asym _ _ Hxa).
Qed.

Lemma ladder_of_spike :
  is_high_volume recent = true ->
  gain_of (d_volume_ladder recent) = 0%Z.
Proof.
  intros Hv. unfold d_volume_ladder.
  destruct (Nat.leb_spec 4 (length recent)) as [H|]; [|reflexivity].
  destruct (all_adjacent ltb (map volume (tail 4 recent)));
    [destruct (gtb (close_price (latest recent))
                   (close_price (prev_3 recent))); reflexivity|].
  destruct (all_adjacent gtb (map volume (tail 4 recent))) eqn:A;
    [|reflexivity].
  rewrite (falling_ladder_is_no_spike H A) in Hv. discriminate.
Qed.

Lemma ladder_of_quiet :
  is_high_volume recent = false ->
  loss_of (d_volume_ladder recent) = 0%Z.
Proof.
  intros Hv. unfold d_volume_ladder.
  destruct (Nat.leb_spec 4 (length recent)) as [H|]; [|reflexivity].
  destruct (all_adjacent ltb (map volume (tail 4 recent))) eqn:A.
  - rewrite (rising_ladder_is_spike H A) in Hv. discriminate.
  - destruct (all_adjacent gtb (map volume (tail 4 recent)));
      [|reflexivity].
    destruct (ltb (close_price (latest recent))
                  (close_price (prev_3 recent))); reflexivity.
Qed.

(** A top of three highs and three falling highs exclude each other. *)
Lemma top_or_downtrend :
  (-4 <= loss_of (d_top_fractal recent) + loss_of (d_downtrend recent))%Z.
Proof.
  unfold d_top_fractal, d_downtrend.
  destruct (Nat.leb_spec 3 (length recent)) as [H|];
    [|cbn; lia].
  destruct (all_adjacent gtb (map high_price (tail 3 recent))) eqn:A.
  - assert (E : gtb (nth 1 (map high_price (tail 3 recent)) NaN)
                    (nth 0 (map high_price (tail 3 recent)) NaN)
                = false).
    { apply (WindowFacts.all_adjacent_nth _ _ NaN) with (i := 0%nat)
        in A.
      - unfold gtb in *. now apply FloatFacts.ltb_asym.
      - rewrite length_map, FrameFacts.length_tail. lia. }
    rewrite E. cbn [andb].
    block_bound E.
  - cbn [andb]. block_bound A.
Qed.

Lemma gains_of_spike :
  is_high_volume recent = true ->
  (gain_sum (outcomes recent) <= 17)%Z.
Proof.
  intros Hv.
  assert (G1 : gain_of (d_high_volume recent) = 0%Z)
    by (unfold d_high_volume; block_bound Hv).
  assert (G2 : (gain_of (d_support recent) <= 2)%Z)
    by (unfold d_support; block_bound Hv).
  assert (G3 : (gain_of (d_three_soldiers recent) <= 5)%Z)
    by (unfold d_three_soldiers; block_bound Hv).
  assert (G4 : (gain_of (d_bottom_fractal recent) <= 4)%Z)
    by (unfold d_bottom_fractal; block_bound Hv).
  assert (G5 : gain_of (d_top_fractal recent) = 0%Z)
    by (unfold d_top_fractal; block_bound Hv).
  assert (G6 : gain_of (d_violent_swing recent) = 0%Z)
    by (unfold d_violent_swing; block_bound Hv).
  assert (G7 : (gain_of (d_lower_shadow recent) <= 3)%Z)
    by (unfold d_lower_shadow; block_bound Hv).
  assert (G8 : gain_of (d_upper_shadow recent) = 0%Z)
    by (unfold d_upper_shadow; block_bound Hv).
  assert (G9 : gain_of (d_downtrend recent) = 0%Z)
    by (unfold d_downtrend; block_bound Hv).
  pose proof (ladder_of_spike Hv) as G10.
  assert (G11 : gain_of (d_small_body recent) = 0%Z)
    by (unfold d_small_body; block_bound Hv).
  assert (G12 : gain_of (d_consecutive_red recent) = 0%Z)
    by (rewrite d_consecutive_red_silent; reflexivity).
  assert (G13 : (gain_of (d_high_volume_rule recent) <= 3)%Z)
    by (unfold d_high_volume_rule; block_bound Hv).
  unfold outcomes, gain_sum. cbn [fold_right]. lia.
Qed.

Lemma losses_bounded : (-16 <= loss_sum (outcomes recent))%Z.
Proof.
  assert (L1 : loss_of (d_high_volume recent) = 0%Z)
    by (unfold d_high_volume; block_bound I).
  assert (L2 : loss_of (d_support recent) = 0%Z).
  { destruct (d_support recent) as [o|] eqn:E; [|reflexivity].
    pose proof (d_support_above_only _ E) as Hr. revert E.
    unfold d_support. split_tests; intros [= <-] || discriminate;
      try reflexivity; discriminate. }
  assert (L3 : (-4 <= loss_of (d_three_soldiers recent))%Z)
    by (unfold d_three_soldiers; block_bound I).
  assert (L4 : loss_of (d_bottom_fractal recent) = 0%Z)
    by (unfold d_bottom_fractal; block_bound I).
  pose proof top_or_downtrend as L59.
  assert (L6 : loss_of (d_violent_swing recent) = 0%Z)
    by (unfold d_violent_swing; block_bound I).
  assert (L8 : (-3 <= loss_of (d_upper_shadow recent))%Z)
    by (unfold d_upper_shadow; block_bound I).
  assert (L12 : loss_of (d_consecutive_red recent) = 0%Z)
    by (rewrite d_consecutive_red_silent; reflexivity).
  assert (L13 : loss_of (d_high_volume_rule recent) = 0%Z)
    by (unfold d_high_volume_rule; block_bound I).
  assert (L7 : (-5 <= loss_of (d_lower_shadow recent)
                      + loss_of (d_volume_ladder recent)
                      + loss_of (d_small_body recent))%Z).
  { destruct (is_high_volume recent) eqn:Hv.
    - assert (loss_of (d_lower_shadow recent) = 0%Z)
        by (unfold d_lower_shadow; rewrite Hv; block_bound Hv).
      assert (-3 <= loss_of (d_volume_ladder recent))%Z
        by (unfold d_volume_ladder; block_bound Hv).
      assert (-2 <= loss_of (d_small_body recent))%Z
        by (unfold d_small_body; block_bound Hv).
      lia.
    - assert (-2 <= loss_of (d_lower_shadow recent))%Z
        by (unfold d_lower_shadow; rewrite Hv; block_bound Hv).
      pose proof (ladder_of_quiet Hv).
      assert (loss_of (d_small_body recent) = 0%Z)
        by (unfold d_small_body; rewrite Hv, andb_false_r; reflexivity).
      lia. }
  unfold outcomes, loss_sum. cbn [fold_right]. lia.
Qed.
End Blocks.

(** X5.  On ten bars or more the score lies between -16 and 17; both
    ends are reached ([score_range_reached]).  The tests of 重倉 (8 or
    more) and 清倉 (-8 or less) are thus within reach of the score, and
    only their place behind the tests of 上車 and 減倉 keeps them from
    being taken. *)
Theorem X5_score_between_minus_16_and_17 (df : list bar) :
  (10 <= length df)%nat ->
  exists score,
    r_score (analyze_volume_price_pattern df) = Some score
    /\ (-16 <= score <= 17)%Z.
Proof.
  intros H. destruct (analyze_long df H) as (Hs & _).
  eexists. split; [exact Hs|].
  pose proof (score_at_most (outcomes (tail 10 df)) initial) as U.
  pose proof (score_at_least (outcomes (tail 10 df)) initial) as L.
  change (action_score initial) with 0%Z in U, L.
  change (run_from initial (outcomes (tail 10 df)))
    with (accumulate (tail 10 df)) in U, L.
  pose proof (losses_bounded (tail 10 df)) as Lb.
  destruct (is_high_volume (tail 10 df)) eqn:Hv.
  - pose proof (@gains_of_spike (tail 10 df) Hv). lia.
  - pose proof (@quiet_gain (tail 10 df) Hv). lia.
Qed.

Lemma X5_score_between_minus_16_and_17_witness :
  exists score,
    r_score (analyze_volume_price_pattern ClassifierSamples.best_case)
    = Some score
    /\ (-16 <= score <= 17)%Z.
Proof.
  apply (@X5_score_between_minus_16_and_17 ClassifierSamples.best_case).
  simpl. lia.
Defined.

(** The two ends of the range are scores of a series. *)
Lemma score_range_reached :
  r_score (analyze_volume_price_pattern ClassifierSamples.best_case)
  = Some 17%Z
  /\ r_score (analyze_volume_price_pattern ClassifierSamples.worst_case)
     = Some (-16)%Z.
Proof. split; reflexivity. Qed.

End ScoreRange.

(** ** The first screen of [StockTrend2.py] and the stages of [main] *)

Module ScreenExtras.
Import Float Frame StockScreen SortFacts SortExtras FrameExtras.

(** X6.  In the first stage the chart of a candidate is drawn exactly when
    its frame holds ten rows or more and its score is above -5: the 觀望
    answers are drawn as the 上車 ones are. *)
Theorem X6_chart_drawn_iff_score_above_minus_5
    (stock_df : list StockTrend2.bar) :
  stage1_chart stock_df = true
  <-> (10 <= length stock_df)%nat
      /\ exists score,
           StockTrend2.r_score
             (StockTrend2.analyze_volume_price_pattern stock_df)
           = Some score
           /\ (-5 < score)%Z.
Proof.
  unfold stage1_chart. rewrite andb_true_iff, Nat.leb_le.
  split.
  - intros [H C]. split; [exact H|].
    destruct (ClassifierExtras.analyze_long stock_df H) as (Hs & _).
    eexists. split; [exact Hs|].
    rewrite (ClassifierExtras.action_by_score stock_df H) in C.
    destruct (Z.leb_spec 5
                (StockTrend2.action_score
                   (StockTrend2.accumulate (tail 10 stock_df))));
      [lia|].
    destruct (Z.leb_spec
                (StockTrend2.action_score
                   (StockTrend2.accumulate (tail 10 stock_df))) (-5));
      [discriminate | lia].
  - intros [H [score [Hs Hlt]]]. split; [exact H|].
    destruct (ClassifierExtras.analyze_long stock_df H) as (Hs' & _).
    rewrite Hs' in Hs. injection Hs as E. rewrite <- E in Hlt.
    rewrite (ClassifierExtras.action_by_score stock_df H).
    destruct (Z.leb_spec 5
                (StockTrend2.action_score
                   (StockTrend2.accumulate (tail 10 stock_df))));
      [reflexivity|].
    destruct (Z.leb_spec
                (StockTrend2.action_score
                   (StockTrend2.accumulate (tail 10 stock_df))) (-5));
      [lia | reflexivity].
Qed.

(** *** What a pass of [analyze_stock] tells *)

Lemma prepare_sorted (rows : list row) :
  StronglySorted (by_key date_key) (prepare rows).
Proof. apply sort_by_sorted. Qed.

Lemma prepare_perm (rows : list row) :
  Permutation (prepare rows) (filter complete rows).
Proof. apply sort_by_perm. Qed.

Lemma prepare_in (rows : list row) (x : row) :
  In x (prepare rows) <-> In x rows /\ complete x = true.
Proof.
  rewrite <- filter_In. split; apply Permutation_in.
  - apply prepare_perm.
  - apply Permutation_sym, prepare_perm.
Qed.

(** The tests a returned record went through. *)
Lemma analyze_stock_pass (st : settings) (rows : list row)
    (r : screen_result) :
  analyze_stock st rows = Some r ->
  let df := prepare rows in
  (Nat.max (lookback st) PRICE_LOOKBACK <= length df)%nat
  /\ exists latest rest vt,
       rev df = latest :: rest
       /\ volume_condition st df = Some vt
       /\ meets_volume vt = true
       /\ (FLAG_RED_THREE st = true ->
           red_three (tail PRICE_LOOKBACK df) = true)
       /\ (FLAG_NET_BUY st = true ->
           (2 <= positive_days (tail PRICE_LOOKBACK df))%nat)
       /\ latest_date r = date_key latest
       /\ latest_close r = close_price latest.
Proof.
  unfold analyze_stock. destruct rows as [|r0 rows0]; [discriminate|].
  set (df := prepare (r0 :: rows0)). cbv zeta.
  destruct (Nat.ltb_spec (length df) (Nat.max (lookback st) PRICE_LOOKBACK));
    [discriminate|].
  destruct (rev df) as [|latest rest] eqn:Er; [discriminate|].
  destruct (volume_condition st df) as [vt|] eqn:Ev; [|discriminate].
  destruct (meets_volume vt) eqn:Em; [|discriminate].
  intros Hr. split; [assumption|].
  exists latest, rest, vt.
  assert (Hs : (length (tail PRICE_LOOKBACK df) =? PRICE_LOOKBACK)%nat
               = true).
  { apply Nat.eqb_eq. rewrite FrameFacts.length_tail. lia. }
  rewrite Hs in Hr. cbn [andb] in Hr.
  destruct (FLAG_RED_THREE st) eqn:F2, (FLAG_NET_BUY st) eqn:F3;
    cbn [orb andb] in Hr;
    repeat match type of Hr with
           | (if ?c then _ else _) = Some _ =>
               destruct c eqn:?; [|discriminate]
           | match ?c with Some _ => _ | None => _ end = Some _ =>
               destruct c eqn:?; [|discriminate]
           end;
    injection Hr as <-; cbn;
    repeat split; auto; try discriminate;
    intros _;
    repeat match goal with
           | H : (_ && _)%bool = true |- _ =>
               apply andb_true_iff in H; destruct H
           | H : (_ <=? _)%nat = true |- _ => apply Nat.leb_le in H
           end; auto.
Qed.

(** X7.  With the volume test on, a look-back of 0 or 1 rejects every
    stock: the window holds no earlier day to compare with. *)
Theorem X7_lookback_below_two_rejects_all (st : settings)
    (rows : list row) :
  FLAG_VOLUME_SPIKE st = true -> (lookback st <= 1)%nat ->
  analyze_stock st rows = None.
Proof.
  intros F L.
  destruct (analyze_stock st rows) as [r|] eqn:E; [|reflexivity].
  exfalso.
  destruct (analyze_stock_pass _ _ E)
    as (Hlen & latest & rest & vt & Er & Ev & Em & _).
  unfold volume_condition in Ev. rewrite F in Ev.
  assert (Hs : volume_spike st (prepare rows) = None
               \/ exists t, volume_spike st (prepare rows) = Some t
                            /\ meets_volume t = false).
  { unfold volume_spike.
    assert (Hl : (length (map volume (tail (lookback st) (prepare rows)))
                  <= 1)%nat).
    { rewrite length_map, FrameFacts.length_tail. lia. }
    destruct (map volume (tail (lookback st) (prepare rows)))
      as [|v [|w vs]]; [now left | | simpl in Hl; lia].
    cbn [rev app all_but_last removelast forallb].
    rewrite andb_true_r.
    destruct (gtb v (Fin 0)); cbn [negb]; [now left|].
    right. eexists. split; reflexivity. }
  destruct Hs as [Hs|[t [Hs Ht]]]; rewrite Hs in Ev; [discriminate|].
  destruct (ltb (last_vol_val t) (min_threshold st));
    injection Ev as <-; cbn in Em; congruence.
Qed.

Lemma X7_lookback_below_two_rejects_all_witness :
  analyze_stock
    {| FLAG_VOLUME_SPIKE := true; FLAG_RED_THREE := false;
       FLAG_NET_BUY := false; lookback := 1; multiple := Fin 1;
       min_threshold := Fin 0 |}
    ScreenSamples.busy_week = None.
Proof.
  apply X7_lookback_below_two_rejects_all; [reflexivity | simpl; lia].
Defined.

(** The volume test on a frame that ends on [latest_row]: what it
    compared when it answers that the volume condition is met. *)
Lemma volume_spike_pass (st : settings) (before : list row)
    (latest_row : row) (t : volume_test) :
  volume_spike st (before ++ [latest_row]) = Some t ->
  meets_volume t = true ->
  let earlier := tail (lookback st - 1) before in
  let m := py_max_list (map volume earlier) in
  earlier <> []
  /\ (forall e, In e earlier ->
        gtb (volume e) (Fin 0) = true
        /\ gtb (volume latest_row) (volume e) = true)
  /\ gtb (volume latest_row) (Fin 0) = true
  /\ leb m (Fin 0) = false
  /\ ltb (volume latest_row) (mul m (multiple st)) = false
  /\ last_vol_val t = volume latest_row
  /\ max_prev_vol t = Some m
  /\ vol_multiple_result t = Some (div (volume latest_row) m).
Proof.
  unfold volume_spike. intros Hs Hm.
  destruct (lookback st) as [|k] eqn:Ek.
  { unfold tail in Hs. rewrite Nat.sub_0_r, skipn_all in Hs.
    discriminate. }
  rewrite tail_snoc in Hs by lia.
  replace (S k - 1)%nat with k in * by lia.
  rewrite map_app, rev_app_distr in Hs. cbn [map rev app] in Hs.
  unfold all_but_last in Hs. rewrite removelast_last in Hs.
  cbv zeta.
  destruct (gtb (volume latest_row) (Fin 0)) eqn:G0;
    [|cbn in Hs; injection Hs as <-; discriminate].
  destruct (forallb (fun v => gtb v (Fin 0)) (map volume (tail k before)))
    eqn:Gp; [|cbn in Hs; injection Hs as <-; discriminate].
  destruct (forallb (fun v => gtb (volume latest_row) v)
                    (map volume (tail k before))) eqn:Ga;
    [|cbn in Hs; injection Hs as <-; discriminate].
  cbn [andb negb] in Hs.
  destruct (map volume (tail k before)) as [|v0 vs] eqn:Em;
    [discriminate|].
  rewrite <- Em in *.
  destruct (leb (py_max_list (map volume (tail k before))) (Fin 0))
    eqn:L0; [cbn in Hs; injection Hs as <-; discriminate|].
  destruct (ltb (volume latest_row)
                (mul (py_max_list (map volume (tail k before)))
                     (multiple st))) eqn:Lm;
    [cbn in Hs; injection Hs as <-; discriminate|].
  cbn [orb] in Hs. injection Hs as <-. cbn.
  repeat split; auto.
  - intros E. rewrite E in Em. discriminate.
  - rewrite forallb_forall in Gp. apply Gp. now apply in_map.
  - rewrite forallb_forall in Ga. apply Ga. now apply in_map.
Qed.

(** The threshold test keeps the answer of the volume test or turns it
    down. *)
Lemma volume_condition_pass (st : settings) (df : list row)
    (vt : volume_test) :
  volume_condition st df = Some vt -> meets_volume vt = true ->
  ltb (last_vol_val vt) (min_threshold st) = false
  /\ (FLAG_VOLUME_SPIKE st = true -> volume_spike st df = Some vt)
  /\ (FLAG_VOLUME_SPIKE st = false ->
      exists latest_row rest,
        rev df = latest_row :: rest
        /\ last_vol_val vt = volume latest_row).
Proof.
  unfold volume_condition. intros H Hm.
  destruct (FLAG_VOLUME_SPIKE st).
  - destruct (volume_spike st df) as [t|]; [|discriminate].
    destruct (ltb (last_vol_val t) (min_threshold st)) eqn:L;
      injection H as <-; [discriminate|].
    repeat split; auto. discriminate.
  - destruct (rev df) as [|latest_row rest]; [discriminate|].
    cbn in H.
    destruct (ltb (volume latest_row) (min_threshold st)) eqn:L;
      injection H as <-; [discriminate|].
    repeat split; auto; try discriminate.
    intros _. exists latest_row, rest. auto.
Qed.

(** X8.  A stock returned with the three tests on met them all: on the
    frame without incomplete rows, in date order, the latest volume is
    positive and above each of the [lookback - 1] volumes before it, which
    are positive too; it is not below [multiple] times the largest of them
    nor below the threshold; the last three closes rise strictly; and the
    three nets sum to a positive total on two of the last three days at
    least.  The record holds the date and the close of the latest row. *)
Theorem X8_pass_met_every_test (st : settings) (rows : list row)
    (r : screen_result) :
  FLAG_VOLUME_SPIKE st = true -> FLAG_RED_THREE st = true ->
  FLAG_NET_BUY st = true ->
  analyze_stock st rows = Some r ->
  exists before latest_row a b,
    prepare rows = before ++ [latest_row]
    /\ (let earlier := tail (lookback st - 1) before in
        earlier <> []
        /\ (forall e, In e earlier ->
              gtb (volume e) (Fin 0) = true
              /\ gtb (volume latest_row) (volume e) = true)
        /\ gtb (volume latest_row) (Fin 0) = true
        /\ ltb (volume latest_row)
               (mul (py_max_list (map volume earlier)) (multiple st))
           = false)
    /\ ltb (volume latest_row) (min_threshold st) = false
    /\ tail 2 before = [a; b]
    /\ ltb (close_price a) (close_price b) = true
    /\ ltb (close_price b) (close_price latest_row) = true
    /\ (2 <= positive_days [a; b; latest_row])%nat
    /\ latest_date r = date_key latest_row
    /\ latest_close r = close_price latest_row.
Proof.
  intros F1 F2 F3 E.
  destruct (analyze_stock_pass _ _ E)
    as (Hlen & latest_row & rest & vt & Er & Ev & Em & Hred & Hnet
        & Hd & Hc).
  apply snoc_of_rev in Er.
  destruct (volume_condition_pass _ _ Ev Em) as (Ht & Hspike & _).
  specialize (Hspike F1). rewrite Er in Hspike.
  destruct (volume_spike_pass _ _ _ Hspike Em)
    as (Hne & Hall & G0 & _ & Hmul & Hlast & _).
  specialize (Hred F2). specialize (Hnet F3).
  rewrite Er in Hred, Hnet. unfold PRICE_LOOKBACK in Hred, Hnet.
  rewrite tail_snoc in Hred, Hnet by lia.
  change (3 - 1)%nat with 2%nat in Hred, Hnet.
  unfold red_three in Hred. rewrite map_app in Hred.
  assert (Hl2 : (length (tail 2 (rev rest)) <= 2)%nat)
    by (rewrite FrameFacts.length_tail; lia).
  destruct (tail 2 (rev rest)) as [|a [|b [|c q]]] eqn:Et;
    cbn in Hred, Hl2; try discriminate; try lia.
  apply andb_true_iff in Hred as [H1 H2].
  exists (rev rest), latest_row, a, b.
  rewrite Hlast in Ht. cbv zeta in *.
  repeat split; auto.
  - apply (proj1 (Hall e H)).
  - apply (proj2 (Hall e H)).
Qed.

Lemma X8_pass_met_every_test_witness :
  exists r before latest_row a b,
    analyze_stock default_settings ScreenSamples.busy_week = Some r
    /\ prepare ScreenSamples.busy_week = before ++ [latest_row]
    /\ (let earlier := tail (lookback default_settings - 1) before in
        earlier <> []
        /\ (forall e, In e earlier ->
              gtb (volume e) (Fin 0) = true
              /\ gtb (volume latest_row) (volume e) = true)
        /\ gtb (volume latest_row) (Fin 0) = true
        /\ ltb (volume latest_row)
               (mul (py_max_list (map volume earlier))
                    (multiple default_settings))
           = false)
    /\ ltb (volume latest_row) (min_threshold default_settings) = false
    /\ tail 2 before = [a; b]
    /\ ltb (close_price a) (close_price b) = true
    /\ ltb (close_price b) (close_price latest_row) = true
    /\ (2 <= positive_days [a; b; latest_row])%nat
    /\ latest_date r = date_key latest_row
    /\ latest_close r = close_price latest_row.
Proof.
  destruct (analyze_stock default_settings ScreenSamples.busy_week)
    as [r|] eqn:E; [|vm_compute in E; discriminate].
  destruct (@X8_pass_met_every_test default_settings
              ScreenSamples.busy_week r eq_refl eq_refl eq_refl E)
    as (before & latest_row & a & b & H).
  exists r, before, latest_row, a, b. split; [reflexivity | exact H].
Defined.

(** X9.  The date of a returned record is the latest date of the table:
    no complete row is dated after it, and a complete row bears it,
    whatever the order in which the rows were read. *)
Theorem X9_latest_date_is_the_greatest (st : settings) (rows : list row)
    (r : screen_result) :
  analyze_stock st rows = Some r ->
  (forall x, In x rows -> complete x = true ->
             (date_key x <= latest_date r)%Z)
  /\ exists x, In x rows /\ complete x = true
               /\ date x = Some (latest_date r)
               /\ close_price x = latest_close r.
Proof.
  intros E.
  destruct (analyze_stock_pass _ _ E)
    as (_ & latest_row & rest & vt & Er & _ & _ & _ & _ & Hd & Hc).
  assert (Hin : In latest_row (prepare rows)).
  { rewrite (snoc_of_rev _ Er). apply in_or_app. right. now left. }
  split.
  - intros x Hx Cx. rewrite Hd.
    apply (sorted_last_greatest (prepare_sorted rows) Er).
    apply prepare_in. auto.
  - exists latest_row. apply prepare_in in Hin as [Hin Cl].
    repeat split; auto.
    unfold date_key in Hd. unfold complete in Cl.
    destruct (date latest_row); [congruence | discriminate].
Qed.

Lemma X9_latest_date_is_the_greatest_witness :
  exists r,
    analyze_stock default_settings ScreenSamples.busy_week_newest_first
    = Some r
    /\ (forall x, In x ScreenSamples.busy_week_newest_first ->
                  complete x = true -> (date_key x <= latest_date r)%Z)
    /\ exists x, In x ScreenSamples.busy_week_newest_first
                 /\ complete x = true
                 /\ date x = Some (latest_date r)
                 /\ close_price x = latest_close r.
Proof.
  destruct (analyze_stock default_settings
              ScreenSamples.busy_week_newest_first)
    as [r|] eqn:E; [|vm_compute in E; discriminate].
  exists r. split; [reflexivity|].
  exact (@X9_latest_date_is_the_greatest
           default_settings ScreenSamples.busy_week_newest_first r E).
Defined.

(** X10.  The answer does not depend on the order in which the rows of the
    table are read, as long as no two complete rows bear the same date. *)
Theorem X10_row_order_is_irrelevant (st : settings)
    (rows rows' : list row) :
  Permutation rows rows' ->
  NoDup (map date_key (filter complete rows)) ->
  analyze_stock st rows = analyze_stock st rows'.
Proof.
  intros P N.
  assert (Hp : prepare rows = prepare rows').
  { unfold prepare. apply sort_by_of_perm; [|exact N].
    clear N. induction P; simpl.
    - constructor.
    - destruct (complete x); [now constructor | assumption].
    - destruct (complete x), (complete y);
        try apply Permutation_refl. apply perm_swap.
    - eapply perm_trans; eassumption. }
  unfold analyze_stock. rewrite <- Hp.
  destruct rows as [|x q], rows' as [|y q']; try reflexivity.
  - apply Permutation_nil in P. discriminate.
  - apply Permutation_sym, Permutation_nil in P. discriminate.
Qed.

Lemma X10_row_order_is_irrelevant_witness :
  analyze_stock default_settings ScreenSamples.busy_week
  = analyze_stock default_settings ScreenSamples.busy_week_newest_first.
Proof.
  apply X10_row_order_is_irrelevant.
  - apply Permutation_rev.
  - cbn. repeat (constructor; [cbn; intuition discriminate|]).
    constructor.
Defined.

(** X11.  No stock that meets the enabled tests is missed: on a table
    with look-back rows or more, ending on [latest_row] once the
    incomplete rows are dropped and the dates put in order, a record is
    returned as soon as the latest volume reaches the threshold and each
    enabled test holds on the rows it reads (the latest volume being a
    finite number where the volume test is on). *)
Theorem X11_meeting_the_tests_is_returned (st : settings)
    (rows before : list row) (latest_row a b : row) :
  rows <> [] ->
  prepare rows = before ++ [latest_row] ->
  (lookback st <= length (prepare rows))%nat ->
  tail 2 before = [a; b] ->
  (FLAG_VOLUME_SPIKE st = true ->
   let earlier := tail (lookback st - 1) before in
   earlier <> []
   /\ (forall e, In e earlier ->
         gtb (volume e) (Fin 0) = true
         /\ gtb (volume latest_row) (volume e) = true)
   /\ gtb (volume latest_row) (Fin 0) = true
   /\ ltb (volume latest_row)
          (mul (py_max_list (map volume earlier)) (multiple st)) = false
   /\ volume latest_row <> PInf) ->
  ltb (volume latest_row) (min_threshold st) = false ->
  (FLAG_RED_THREE st = true ->
   ltb (close_price a) (close_price b) = true
   /\ ltb (close_price b) (close_price latest_row) = true) ->
  (FLAG_NET_BUY st = true ->
   (2 <= positive_days [a; b; latest_row])%nat) ->
  exists r,
    analyze_stock st rows = Some r
    /\ latest_date r = date_key latest_row
    /\ latest_close r = close_price latest_row.
Proof.
  intros Hne Ep Hlb Et Hspike Hthr Hred Hnet.
  assert (Hb2 : (2 <= length before)%nat).
  { assert (L : length (tail 2 before) = 2%nat) by now rewrite Et.
    rewrite FrameFacts.length_tail in L. lia. }
  assert (Hlen : (length (prepare rows) <?
                  Nat.max (lookback st) PRICE_LOOKBACK)%nat = false).
  { apply Nat.ltb_ge. rewrite Ep, length_app in *. cbn [length] in *.
    unfold PRICE_LOOKBACK. lia. }
  assert (Et3 : tail PRICE_LOOKBACK (prepare rows) = [a; b; latest_row]).
  { unfold PRICE_LOOKBACK. rewrite Ep, tail_snoc by lia.
    change (3 - 1)%nat with 2%nat. now rewrite Et. }
  assert (Hvc :
    exists vt,
      volume_condition st (prepare rows) = Some vt
      /\ meets_volume vt = true
      /\ (FLAG_VOLUME_SPIKE st = true ->
          exists lv m x,
            py_int (last_vol_val vt) = Some lv
            /\ max_prev_vol vt = Some m
            /\ py_int m = Some x
            /\ vol_multiple_result vt <> None)).
  { unfold volume_condition. rewrite Ep.
    destruct (FLAG_VOLUME_SPIKE st) eqn:F1.
    - destruct (Hspike eq_refl) as (He & Hall & G0 & Hmul & Hfin).
      unfold volume_spike.
      destruct (lookback st) as [|k] eqn:Ek.
      { exfalso. apply He. unfold tail. cbn.
        rewrite Nat.sub_0_r. apply skipn_all. }
      rewrite tail_snoc by lia.
      replace (S k - 1)%nat with k in * by lia.
      rewrite map_app, rev_app_distr. cbn [map rev app].
      unfold all_but_last. rewrite removelast_last.
      assert (Gp : forallb (fun v => gtb v (Fin 0))
                           (map volume (tail k before)) = true).
      { apply forallb_forall. intros v Hv.
        apply in_map_iff in Hv as (e & <- & Hin). apply (Hall e Hin). }
      assert (Ga : forallb (fun v => gtb (volume latest_row) v)
                           (map volume (tail k before)) = true).
      { apply forallb_forall. intros v Hv.
        apply in_map_iff in Hv as (e & <- & Hin). apply (Hall e Hin). }
      rewrite G0, Gp, Ga. cbn [andb negb].
      assert (Hm : In (py_max_list (map volume (tail k before)))
                      (map volume (tail k before))).
      { apply py_max_list_in. intros E0. apply He.
        now apply map_eq_nil in E0. }
      apply in_map_iff in Hm as (e & Em & Hin).
      destruct (Hall e Hin) as [Hpos Hlt]. rewrite Em in Hpos, Hlt.
      destruct (map volume (tail k before)) as [|v0 vs] eqn:Emap.
      { exfalso. apply He. now apply map_eq_nil in Emap. }
      rewrite <- Emap in *.
      unfold gtb in Hpos, Hlt, G0.
      destruct (py_max_list (map volume (tail k before)))
        as [| | |m] eqn:Epm; cbn in Hpos; try discriminate.
      destruct (volume latest_row) as [| | |lv] eqn:Elv;
        cbn in Hlt; try discriminate; [congruence|].
      assert (L0 : leb (Fin m) (Fin 0) = false).
      { cbn. destruct (Qle_bool m 0) eqn:E0; [|reflexivity].
        apply Qle_bool_iff in E0. apply FloatFacts.Qltb_lt in Hpos.
        lra. }
      rewrite L0, Hmul. cbn [orb]. cbn [last_vol_val].
      rewrite Hthr. eexists. split; [reflexivity|].
      split; [reflexivity|]. intros _.
      do 3 eexists. cbn. repeat split; discriminate.
    - rewrite rev_app_distr. cbn [rev app]. cbn [last_vol_val].
      rewrite Hthr. eexists. split; [reflexivity|].
      split; [reflexivity | discriminate]. }
  destruct Hvc as (vt & Ev & Em & Hinfo).
  unfold analyze_stock.
  destruct rows as [|r0 rows0]; [congruence|].
  rewrite Hlen, Ev, Et3, Ep, rev_app_distr, Em.
  cbn [rev app length Nat.eqb PRICE_LOOKBACK andb].
  assert (R : (if FLAG_RED_THREE st then red_three [a; b; latest_row]
               else true) = true).
  { destruct (FLAG_RED_THREE st); [|reflexivity].
    destruct (Hred eq_refl) as [H1 H2]. unfold red_three. cbn.
    now rewrite H1, H2. }
  assert (N : (if FLAG_NET_BUY st
               then (2 <=? positive_days [a; b; latest_row])%nat
               else true) = true).
  { destruct (FLAG_NET_BUY st); [|reflexivity].
    apply Nat.leb_le. now apply Hnet. }
  rewrite R, N.
  destruct (FLAG_RED_THREE st || FLAG_NET_BUY st); cbn [andb].
  all: destruct (FLAG_VOLUME_SPIKE st).
  all: try (destruct (Hinfo eq_refl) as (lv & m & x & E1 & E2 & E3 & E4);
            rewrite E1, E2, E3;
            destruct (vol_multiple_result vt); [|congruence]).
  all: eexists; split; [reflexivity|]; split; reflexivity.
Qed.

Lemma X11_meeting_the_tests_is_returned_witness :
  exists r,
    analyze_stock default_settings ScreenSamples.busy_week = Some r
    /\ latest_date r = 10%Z
    /\ latest_close r = Fin 11.
Proof.
  apply (@X11_meeting_the_tests_is_returned
           default_settings ScreenSamples.busy_week
           (firstn 9 ScreenSamples.busy_week)
           (ScreenSamples.trade 10 10 11 10 11 9000 30)
           (ScreenSamples.trade 8 9 9 9 9 6000 (-5))
           (ScreenSamples.trade 9 9 10 9 10 6000 20)).
  - discriminate.
  - reflexivity.
  - vm_compute. lia.
  - reflexivity.
  - intros _. cbv zeta. split; [discriminate|].
    split; [|repeat split; discriminate || reflexivity].
    cbn. intros e [<-|[<-|[<-|[]]]]; split; reflexivity.
  - reflexivity.
  - intros _. split; reflexivity.
  - intros _. vm_compute. lia.
Defined.

(** *** The candidates of the first stage before the classifier *)





End ScreenExtras.

(** ** The reversal screen of [StockTrend.py] *)

Module ReversalExtras.
Import Frame StockTrend FrameFacts WindowFacts FrameExtras.

Lemma last_m_rising_steps (w : list bar) :
  (5 <= length w)%nat -> last_m_rising w = true ->
  forall i, (length w - 5 <= i)%nat -> (S i < length w)%nat ->
            nth i (cum_vals w) 0 <= nth (S i) (cum_vals w) 0.
Proof.
  intros Hlen H i Hi Hs. pose proof (length_cum_vals w) as Lc.
  unfold last_m_rising, RISING_CHECK_DAYS in H. rewrite Lc in H.
  replace (5 <=? length w)%nat with true in H
    by (symmetry; apply Nat.leb_le; exact Hlen).
  rewrite (all_adjacent_nth _ _ 0) in H.
  specialize (H (i - (length w - 5))%nat).
  rewrite length_tail, !nth_tail, Lc in H.
  replace (length w - 5 + (i - (length w - 5)))%nat with i in H by lia.
  replace (length w - 5 + S (i - (length w - 5)))%nat with (S i) in H
    by lia.
  apply Qle_bool_iff, H. lia.
Qed.

(** Over the bars checked for rising, no value is below the first. *)
Lemma last_m_rising_from_first (w : list bar) :
  (5 <= length w)%nat -> last_m_rising w = true ->
  forall k, (length w - 5 + k < length w)%nat ->
            nth (length w - 5) (cum_vals w) 0
            <= nth (length w - 5 + k) (cum_vals w) 0.
Proof.
  intros Hlen H k. induction k as [|k IH]; intros Hk.
  - rewrite Nat.add_0_r. apply Qle_refl.
  - eapply Qle_trans; [apply IH; lia|].
    replace (length w - 5 + S k)%nat with (S (length w - 5 + k)) by lia.
    apply last_m_rising_steps; auto; lia.
Qed.

(** X13.  Condition C holds only when the bottom of the running sum lies
    four bars or more, and ten bars at most, before the latest bar: a
    bottom touched on one of the last four bars always fails it, for the
    sum may not fall over the last five bars and the bottom is taken where
    it is first reached. *)
Theorem X13_cond_C_bottom_four_to_ten_bars_back (w : list bar) :
  (5 <= length w)%nat -> cond_C w = true ->
  (4 <= days_from_min_to_today w <= 10)%nat.
Proof.
  intros Hlen H. pose proof (length_cum_vals w) as Lc.
  unfold cond_C in H. apply andb_true_iff in H as [H Hrise].
  apply andb_true_iff in H as [Hb _].
  unfold recent_bottom, RECENT_BOTTOM_WINDOW in Hb.
  apply Nat.leb_le in Hb. split; [|exact Hb].
  unfold days_from_min_to_today in *. rewrite Lc in *.
  assert (Hne : cum_vals w <> []).
  { intros E. rewrite E in Lc. simpl in Lc. lia. }
  destruct (np_argmin_first Hne) as (Hm & _ & Hlt).
  fold (min_idx w) in Hm, Hlt. rewrite Lc in Hm.
  destruct (Nat.le_gt_cases (min_idx w) (length w - 5)) as [Hle|Hgt];
    [lia|].
  exfalso. specialize (Hlt (length w - 5)%nat Hgt).
  pose proof (@last_m_rising_from_first w Hlen Hrise
                (min_idx w - (length w - 5))%nat) as Hge.
  replace (length w - 5 + (min_idx w - (length w - 5)))%nat
    with (min_idx w) in Hge by lia.
  specialize (Hge Hm). apply (Qlt_not_le _ _ Hlt Hge).
Qed.

Lemma X13_cond_C_bottom_four_to_ten_bars_back_witness :
  (4 <= days_from_min_to_today Samples.rebound <= 10)%nat.
Proof.
  apply X13_cond_C_bottom_four_to_ten_bars_back.
  - simpl. lia.
  - reflexivity.
Defined.

(** X14.  Condition D holds only when the latest close is strictly above
    the least close of the window, and that least close was reached on
    one of the nine bars before the latest one. *)
Theorem X14_cond_D_low_before_latest_bar (w : list bar) :
  (2 <= length w)%nat -> cond_D w = true ->
  low_60 w < nth (length w - 1) (closes w) 0
  /\ exists i, (length w - 10 <= i < length w - 1)%nat
               /\ nth i (closes w) 0 == low_60 w.
Proof.
  intros Hlen H.
  assert (Lc : length (closes w) = length w)
    by (unfold closes; apply length_map).
  unfold cond_D in H. apply andb_true_iff in H as [Hlow Hrise].
  unfold price_rising, last_p_prices, PRICE_RISING_DAYS in Hrise.
  apply andb_true_iff in Hrise as [_ Hrise].
  rewrite (all_adjacent_nth _ _ 0) in Hrise.
  specialize (Hrise 0%nat).
  rewrite length_tail, !nth_tail, Lc in Hrise.
  replace (length w - 2 + 0)%nat with (length w - 2)%nat in Hrise by lia.
  replace (length w - 2 + 1)%nat with (length w - 1)%nat in Hrise by lia.
  assert (Hlt : nth (length w - 2) (closes w) 0
                < nth (length w - 1) (closes w) 0)
    by (apply FloatFacts.Qltb_lt, Hrise; lia).
  assert (Hmin : low_60 w <= nth (length w - 2) (closes w) 0)
    by (apply np_min_le, nth_In; lia).
  split; [eapply Qle_lt_trans; eassumption|].
  unfold recent_low_occur, PRICE_RECENT_LOW_WINDOW in Hlow.
  apply existsb_exists in Hlow as (x & Hx & E).
  apply Qeq_bool_iff in E.
  apply (in_tail 10 (closes w) 0) in Hx as (i & Hi & <-).
  rewrite Lc in Hi. exists i. split; [|now symmetry].
  destruct (Nat.eq_dec i (length w - 1)) as [->|Hn]; [|lia].
  exfalso. rewrite <- E in Hlt. apply (Qlt_not_le _ _ Hlt Hmin).
Qed.

Lemma X14_cond_D_low_before_latest_bar_witness :
  low_60 Samples.rebound
  < nth (length Samples.rebound - 1) (closes Samples.rebound) 0
  /\ exists i, (length Samples.rebound - 10 <= i
                < length Samples.rebound - 1)%nat
               /\ nth i (closes Samples.rebound) 0
                  == low_60 Samples.rebound.
Proof.
  apply X14_cond_D_low_before_latest_bar.
  - simpl. lia.
  - reflexivity.
Defined.

(** X15.  A window that passes the four conditions has a running sum that
    ends below 0 and that went below -500: the sum must have risen by more
    than 500 from its bottom and still be negative. *)
Theorem X15_pass_bottom_below_minus_500 (w : list bar) :
  all_pass w = true ->
  last_cum w < 0 /\ global_min w < last_cum w - 500
  /\ global_min w < - (500).
Proof.
  unfold all_pass, cond_C, cond_E. intros H.
  repeat (apply andb_true_iff in H as [H ?]).
  repeat match goal with
         | H : (_ && _)%bool = true |- _ =>
             apply andb_true_iff in H; destruct H
         end.
  unfold cumulative_still_negative, enough_rebound, MIN_REBOUND_AMOUNT,
    Qltb in *.
  repeat match goal with
         | H : Float.Qltb _ _ = true |- _ =>
             apply FloatFacts.Qltb_lt in H
         end.
  repeat split; lra.
Qed.

Lemma X15_pass_bottom_below_minus_500_witness :
  last_cum Samples.rebound < 0
  /\ global_min Samples.rebound < last_cum Samples.rebound - 500
  /\ global_min Samples.rebound < - (500).
Proof.
  apply X15_pass_bottom_below_minus_500. reflexivity.
Defined.

(** *** The pattern of the last two bars of a passing stock *)

Lemma rev_tail_two (A : Type) (n : nat) (l : list A) (x y : A)
    (rest : list A) :
  (2 <= n)%nat -> rev l = x :: y :: rest ->
  exists rest', rev (tail n l) = x :: y :: rest'.
Proof.
  intros Hn E. apply snoc_of_rev in E. cbn [rev] in E.
  rewrite E, tail_snoc, tail_snoc by lia.
  rewrite !rev_app_distr. cbn [rev app]. eexists. reflexivity.
Qed.

Lemma price_rising_last_two (w : list bar) (latest prev : bar)
    (rest : list bar) :
  rev w = latest :: prev :: rest ->
  price_rising w = Qltb (close prev) (close latest).
Proof.
  intros E. apply snoc_of_rev in E. cbn [rev] in E.
  unfold price_rising, last_p_prices, PRICE_RISING_DAYS, closes.
  rewrite tail_map, E, tail_snoc, tail_snoc by lia.
  change (2 - 1 - 1)%nat with 0%nat.
  replace (tail 0 (rev rest)) with (@nil bar)
    by (unfold tail; now rewrite Nat.sub_0_r, skipn_all).
  cbn. now rewrite andb_true_r.
Qed.

(** Where the latest close is above the one before, which is not
    negative, the price is not read as falling. *)
Lemma classify_not_falling (latest prev : Q) :
  0 <= prev -> prev < latest ->
  classify latest prev (101 # 100) (99 # 100) <> Falling.
Proof.
  intros Hp Hl. unfold classify.
  destruct (Qltb (prev * (101 # 100)) latest); [discriminate|].
  destruct (Qltb latest (prev * (99 # 100))) eqn:E; [|discriminate].
  exfalso. apply FloatFacts.Qltb_lt in E. lra.
Qed.

Section Reported.
Variable to_numeric : string -> option Q.
Variable to_datetime : string -> option Z.

(** X16.  A stock that passes the four conditions is never reported with
    a falling price (量增價跌, 量平價跌, 量縮價跌): condition D asks the latest
    close to be above the one before, and the pattern is read on these two
    rows.  (Closes are not negative.) *)
Theorem X16_passing_stock_price_not_falling (rows : list raw_row)
    (df : list bar) (info : stock_info) :
  normalise to_numeric to_datetime rows = Some df ->
  Forall (fun b => 0 <= close b) df ->
  analyze_stock_file to_numeric to_datetime rows = Some info ->
  info_all_pass info = true ->
  exists v p,
    info_volume_price_pattern info = Some (Some (v, p))
    /\ p <> Falling.
Proof.
  intros Hn Hpos Hf Hp. unfold analyze_stock_file in Hf.
  destruct rows as [|r0 rows0]; [discriminate|].
  rewrite Hn in Hf.
  destruct (Nat.ltb_spec (length df) MIN_DATA_DAYS) as [|Hlen];
    [discriminate|].
  destruct df as [|first q] eqn:Ed; [discriminate|]. rewrite <- Ed in *.
  destruct (rev df) as [|latest [|prev rest]] eqn:Er.
  - discriminate.
  - exfalso. apply snoc_of_rev in Er. rewrite Er in Hlen.
    unfold MIN_DATA_DAYS in Hlen. cbn in Hlen. lia.
  - injection Hf as <-. cbn in Hp. cbn.
    rewrite Hp. unfold analyze_volume_price_pattern. rewrite Er.
    eexists. eexists. split; [reflexivity|].
    destruct (@rev_tail_two _ MIN_DATA_DAYS df latest prev rest)
      as [rest' Er']; [unfold MIN_DATA_DAYS; lia | exact Er |].
    unfold all_pass in Hp.
    repeat (apply andb_true_iff in Hp as [Hp ?]).
    match goal with
    | H : cond_D _ = true |- _ =>
        unfold cond_D in H; apply andb_true_iff in H as [_ Hr]
    end.
    rewrite (price_rising_last_two _ Er') in Hr.
    apply FloatFacts.Qltb_lt in Hr.
    apply classify_not_falling; [|exact Hr].
    rewrite Forall_forall in Hpos. apply Hpos.
    apply in_rev. rewrite Er. right. now left.
Qed.

Lemma kept_rows_perm (rows rows' : list raw_row) :
  Permutation rows rows' ->
  Permutation (kept_rows to_numeric rows) (kept_rows to_numeric rows').
Proof.
  induction 1 as [|x l l' P IH|x y l|l l' l'' P1 IH1 P2 IH2]; cbn.
  - constructor.
  - destruct (numeric_row to_numeric (fix_price_columns x));
      [destruct (date_ok x)|]; auto.
  - destruct (numeric_row to_numeric (fix_price_columns x)) as [kx|],
      (numeric_row to_numeric (fix_price_columns y)) as [ky|];
      [destruct (date_ok x), (date_ok y)| | |];
      try apply Permutation_refl. apply perm_swap.
  - eapply perm_trans; eassumption.
Qed.

(** The conversion of the dates raises on the same files whatever the
    order of their rows, and otherwise gives the same rows. *)
Lemma convert_dates_perm (l l' : list (raw_row * (Z -> bar))) :
  Permutation l l' ->
  match convert_dates to_datetime l, convert_dates to_datetime l' with
  | Some bs, Some bs' => Permutation bs bs'
  | None, None => True
  | _, _ => False
  end.
Proof.
  induction 1 as [|[r mk] l l' P IH|[r1 mk1] [r2 mk2] l|l l' l'' P1 IH1 P2 IH2];
    cbn.
  - constructor.
  - destruct (raw_date r) as [s|]; [|exact I].
    destruct (to_datetime s) as [t|];
      destruct (convert_dates to_datetime l),
               (convert_dates to_datetime l'); auto.
  - destruct (raw_date r1) as [s1|], (raw_date r2) as [s2|]; auto;
      try (destruct (to_datetime s2);
           [destruct (convert_dates to_datetime l)|]; exact I);
      try (destruct (to_datetime s1);
           [destruct (convert_dates to_datetime l)|]; exact I).
    destruct (to_datetime s1), (to_datetime s2),
      (convert_dates to_datetime l); auto.
    apply perm_swap.
  - destruct (convert_dates to_datetime l),
      (convert_dates to_datetime l'),
      (convert_dates to_datetime l''); try contradiction; auto.
    eapply perm_trans; eassumption.
Qed.

(** X17.  The answer on a file does not depend on the order of its rows,
    as long as no two of the rows kept bear the same date. *)
Theorem X17_file_row_order_is_irrelevant (rows rows' : list raw_row) :
  Permutation rows rows' ->
  (forall df, normalise to_numeric to_datetime rows = Some df ->
              NoDup (map date df)) ->
  analyze_stock_file to_numeric to_datetime rows
  = analyze_stock_file to_numeric to_datetime rows'.
Proof.
  intros P N.
  assert (En : normalise to_numeric to_datetime rows
               = normalise to_numeric to_datetime rows').
  { unfold normalise in *.
    pose proof (convert_dates_perm (kept_rows_perm P)) as C.
    destruct (convert_dates to_datetime (kept_rows to_numeric rows))
      as [bs|],
      (convert_dates to_datetime (kept_rows to_numeric rows'))
      as [bs'|]; try contradiction; [|reflexivity].
    f_equal. unfold sort_values.
    apply SortExtras.sort_by_of_perm; [exact C|].
    specialize (N _ eq_refl).
    apply (Permutation_NoDup
             (Permutation_map date (SortFacts.sort_by_perm date bs))).
    exact N. }
  unfold analyze_stock_file. rewrite <- En.
  destruct rows as [|x q], rows' as [|y q']; try reflexivity.
  all: exfalso.
  all: first [apply Permutation_nil in P
             |apply Permutation_sym, Permutation_nil in P].
  all: discriminate.
Qed.
End Reported.

Lemma X16_passing_stock_price_not_falling_witness :
  exists info v p,
    analyze_stock_file Samples.to_numeric Samples.to_datetime
      ReversalSamples.sixty_days = Some info
    /\ info_all_pass info = true
    /\ info_volume_price_pattern info = Some (Some (v, p))
    /\ p <> Falling.
Proof.
  destruct (normalise Samples.to_numeric Samples.to_datetime
              ReversalSamples.sixty_days) as [df|] eqn:En;
    [|vm_compute in En; discriminate].
  destruct (analyze_stock_file Samples.to_numeric Samples.to_datetime
              ReversalSamples.sixty_days) as [info|] eqn:Ef;
    [|vm_compute in Ef; discriminate].
  assert (Hp : info_all_pass info = true).
  { vm_compute in Ef. injection Ef as <-. reflexivity. }
  assert (Hpos : Forall (fun b => 0 <= close b) df).
  { vm_compute in En. injection En as <-.
    repeat (constructor; [discriminate|]). constructor. }
  destruct (@X16_passing_stock_price_not_falling
              Samples.to_numeric Samples.to_datetime
              ReversalSamples.sixty_days df info En Hpos Ef Hp)
    as (v & p & H1 & H2).
  exists info, v, p. auto.
Defined.

Lemma X17_file_row_order_is_irrelevant_witness :
  analyze_stock_file Samples.to_numeric Samples.to_datetime
    ReversalSamples.sixty_days
  = analyze_stock_file Samples.to_numeric Samples.to_datetime
      ReversalSamples.sixty_days_rotated.
Proof.
  apply X17_file_row_order_is_irrelevant.
  - apply Permutation_cons_append.
  - intros df E. vm_compute in E. injection E as <-.
    match goal with
    | |- NoDup ?l =>
        replace l with (nodup Z.eq_dec l)
          by (vm_compute; reflexivity)
    end.
    apply NoDup_nodup.
Defined.

End ReversalExtras.

(** ** The threshold screen of [StockTrend_Gemini.py] *)

Module ThresholdExtras.
Import Float Frame StockTrendGemini Measures SortFacts SortExtras
  FrameExtras.

(** The tests a returned record went through. *)
Lemma screen_stocks_pass (cfg : config) (rows : list bar)
    (r : pass_record) :
  screen_stocks cfg rows = Some r ->
  let df := sort_by date rows in
  (ma_long cfg <= length df)%nat
  /\ exists latest prev older,
       rev df = latest :: prev :: older
       /\ all_conditions cfg df latest = true
       /\ p_vol_ratio r = actual_vol_ratio cfg df latest
       /\ p_shadow_ratio r = actual_shadow_ratio latest
       /\ p_close r = close_price latest
       /\ p_latest_date r = date latest.
Proof.
  unfold screen_stocks. cbv zeta.
  destruct (Nat.ltb_spec (length (sort_by date rows)) (ma_long cfg));
    [discriminate|].
  destruct (rev (sort_by date rows)) as [|latest [|prev older]];
    try discriminate.
  destruct (all_conditions cfg (sort_by date rows) latest) eqn:Ec;
    [|discriminate].
  intros E. injection E as <-. split; [assumption|].
  exists latest, prev, older. cbn. auto 10.
Qed.

Lemma is_count_fin (x : float) :
  is_count x = true -> exists q, x = Fin q /\ 0 <= q.
Proof.
  unfold is_count. destruct x as [| | |q]; cbn; try discriminate.
  rewrite andb_true_r. intros H. exists q. split; [reflexivity|].
  now apply Qle_bool_iff.
Qed.

(** The sum of counts is a finite number, above each of them. *)
Lemma fold_add_counts (cells : list float) :
  Forall (fun x => is_count x = true) cells ->
  forall a, 0 <= a ->
    exists s, fold_left add cells (Fin a) = Fin s
              /\ a <= s
              /\ forall q, In (Fin q) cells -> a + q <= s.
Proof.
  induction 1 as [|x r Hx Hr IH]; intros a Ha.
  - exists a. split; [reflexivity|]. split; [apply Qle_refl|].
    intros q [].
  - destruct (is_count_fin _ Hx) as (q & -> & Hq).
    destruct (IH (a + q)) as (s & Es & Hs & Hin); [lra|].
    exists s. cbn [fold_left add]. split; [exact Es|].
    split; [lra|].
    intros q0 [E|Hq0].
    + injection E as <-. exact Hs.
    + specialize (Hin q0 Hq0). lra.
Qed.

Lemma counts_not_na (cells : list float) :
  Forall (fun x => is_count x = true) cells -> existsb isna cells = false.
Proof.
  induction 1 as [|x r Hx Hr IH]; [reflexivity|].
  cbn [existsb]. rewrite IH.
  destruct (is_count_fin _ Hx) as (q & -> & _). reflexivity.
Qed.

(** The ratio of the latest volume to the mean of the last [w] volumes,
    the latest one among them. *)
Lemma vol_ratio_bounded (cfg : config) (df : list bar)
    (latest : bar) (older : list bar) :
  (1 <= ma_short cfg <= length df)%nat ->
  Forall (fun b => is_count (volume b) = true) df ->
  rev df = latest :: older ->
  exists q, actual_vol_ratio cfg df latest = Fin q
            /\ 0 <= q <= inject_Z (Z.of_nat (ma_short cfg)).
Proof.
  intros Hw Hc Er. apply snoc_of_rev in Er.
  set (w := ma_short cfg) in *.
  assert (Hcells : Forall (fun x => is_count x = true)
                          (tail w (map volume df))).
  { rewrite WindowFacts.tail_map. apply Forall_forall.
    intros x Hx. apply in_map_iff in Hx as (b & <- & Hb).
    rewrite Forall_forall in Hc. apply Hc.
    eapply tail_incl; eassumption. }
  assert (Hlatest : In (volume latest) (tail w (map volume df))).
  { rewrite WindowFacts.tail_map, Er, tail_snoc by lia.
    apply in_map, in_or_app. right. now left. }
  destruct (is_count_fin (volume latest)) as (v & Ev & Hv).
  { rewrite Forall_forall in Hc. apply Hc. rewrite Er.
    apply in_or_app. right. now left. }
  destruct (fold_add_counts Hcells (Qle_refl 0)) as (s & Es & Hs & Hin).
  rewrite Ev in Hlatest. specialize (Hin v Hlatest).
  assert (Hwq : 0 < inject_Z (Z.of_nat w)).
  { change 0 with (inject_Z 0). rewrite <- Zlt_Qlt. lia. }
  assert (Em : VolMA cfg df = Fin (s / inject_Z (Z.of_nat w))).
  { unfold VolMA, rolling_mean_last. fold w.
    replace (w =? 0)%nat with false by (symmetry; apply Nat.eqb_neq; lia).
    replace (length (map volume df) <? w)%nat with false
      by (symmetry; apply Nat.ltb_ge; rewrite length_map; lia).
    cbn [orb]. rewrite (counts_not_na Hcells), Es.
    unfold div, of_Z.
    destruct (Qeq_bool (inject_Z (Z.of_nat w)) 0) eqn:E0;
      [|reflexivity].
    apply Qeq_bool_iff in E0. lra. }
  unfold actual_vol_ratio. rewrite Em, Ev. unfold neb, eqb.
  destruct (Qeq_bool (s / inject_Z (Z.of_nat w)) 0) eqn:E0; cbn [negb].
  - exists 0. split; [reflexivity|]. split; [apply Qle_refl | lra].
  - exists (v / (s / inject_Z (Z.of_nat w))).
    unfold div. rewrite E0. split; [reflexivity|].
    assert (Hx : 0 < s / inject_Z (Z.of_nat w)).
    { assert (Hne : ~ s / inject_Z (Z.of_nat w) == 0)
        by (intros E; apply Qeq_bool_iff in E; congruence).
      assert (Hge : 0 <= s / inject_Z (Z.of_nat w)).
      { apply Qle_shift_div_l; [exact Hwq | lra]. }
      destruct (Qlt_le_dec 0 (s / inject_Z (Z.of_nat w))) as [|Hle];
        [assumption|].
      exfalso. apply Hne. now apply Qle_antisym. }
    split.
    + apply Qle_shift_div_l; [exact Hx | lra].
    + apply Qle_shift_div_r; [exact Hx|].
      assert (E : inject_Z (Z.of_nat w) * (s / inject_Z (Z.of_nat w))
                  == s) by (field; lra).
      rewrite E. lra.
Qed.

Lemma lot_count_is_count (x : float) :
  lot_count x -> is_count x = true.
Proof.
  intros (z & -> & Hz). unfold is_count. cbn.
  rewrite andb_true_r. apply Qle_bool_iff.
  change 0 with (inject_Z 0). rewrite <- Zle_Qle. lia.
Qed.

(** X18.  The volume multiple of a returned record is not negative and
    stays below [ma_short + 1] (6 by default): the mean it is compared
    with holds the latest volume itself.  A volume limit of
    [ma_short + 1] or more thus lets no stock through.  (Volumes are
    whole numbers of lots; the multiple is at most [ma_short] where
    nothing is rounded, and the two roundings of binary64 move it by a
    few units of its last place.) *)
Theorem X18_volume_multiple_below_ma_short_plus_one (cfg : config)
    (rows : list bar) (r : pass_record) :
  (1 <= ma_short cfg <= ma_long cfg)%nat ->
  (ma_short cfg <= 1000)%nat ->
  Forall (fun b => lot_count (volume b)) rows ->
  screen_stocks cfg rows = Some r ->
  (exists q, p_vol_ratio r = Fin q
             /\ 0 <= q < inject_Z (Z.of_nat (ma_short cfg) + 1))
  /\ (use_vol cfg = true ->
      ltb (vol_ratio_limit cfg) (of_Z (Z.of_nat (ma_short cfg) + 1))
      = true).
Proof.
  intros Hw _ Hc E.
  destruct (screen_stocks_pass _ _ E)
    as (Hlen & latest & prev & older & Er & Hall & Hv & _).
  assert (Hc' : Forall (fun b => is_count (volume b) = true)
                       (sort_by date rows)).
  { apply Forall_forall. intros b Hb. apply lot_count_is_count.
    rewrite Forall_forall in Hc. apply Hc.
    apply (Permutation_in _ (sort_by_perm date rows) Hb). }
  destruct (@vol_ratio_bounded cfg (sort_by date rows) latest
              (prev :: older)) as (q & Eq & Hq);
    [lia | exact Hc' | exact Er |].
  assert (Hq1 : q < inject_Z (Z.of_nat (ma_short cfg) + 1)).
  { rewrite inject_Z_plus. change (inject_Z 1) with 1. lra. }
  split; [exists q; rewrite Hv; split; [exact Eq | split; [lra | exact Hq1]]|].
  intros Hu.
  apply ThresholdClaims.all_conditions_spec in Hall
    as (_ & _ & Hvol & _).
  specialize (Hvol Hu). rewrite Eq in Hvol. unfold geb in Hvol.
  unfold of_Z. destruct (vol_ratio_limit cfg) as [| | |l];
    cbn in *; try discriminate; [reflexivity|].
  apply FloatFacts.Qltb_lt. apply Qle_bool_iff in Hvol. lra.
Qed.

Lemma X18_volume_multiple_below_ma_short_plus_one_witness :
  exists r,
    screen_stocks ThresholdSamples.volume_only (Samples.twenty_days 99)
    = Some r
    /\ (exists q, p_vol_ratio r = Fin q
                  /\ 0 <= q < inject_Z
                                (Z.of_nat
                                   (ma_short ThresholdSamples.volume_only)
                                 + 1))
    /\ (use_vol ThresholdSamples.volume_only = true ->
        ltb (vol_ratio_limit ThresholdSamples.volume_only)
            (of_Z (Z.of_nat (ma_short ThresholdSamples.volume_only) + 1))
        = true).
Proof.
  destruct (screen_stocks ThresholdSamples.volume_only
              (Samples.twenty_days 99)) as [r|] eqn:E;
    [|vm_compute in E; discriminate].
  exists r. split; [reflexivity|].
  apply (@X18_volume_multiple_below_ma_short_plus_one
           ThresholdSamples.volume_only (Samples.twenty_days 99) r);
    [simpl; lia | simpl; lia | | exact E].
  apply Forall_forall. intros b Hb. exists 6000%Z. split; [|lia].
  unfold Samples.twenty_days in Hb.
  apply in_app_or in Hb as [Hb|[<-|[]]]; [|reflexivity].
  apply in_map_iff in Hb as (i & <- & _). reflexivity.
Defined.

(** X19.  With the moving-average condition on and the two windows of
    the same length, no stock is returned: the short mean is asked to be
    strictly above the long one, which it then equals. *)
Theorem X19_equal_windows_return_nothing (cfg : config)
    (rows : list bar) :
  use_ma cfg = true -> ma_short cfg = ma_long cfg ->
  screen_stocks cfg rows = None.
Proof.
  intros Hu Hw.
  destruct (screen_stocks cfg rows) as [r|] eqn:E; [|reflexivity].
  exfalso.
  destruct (screen_stocks_pass _ _ E)
    as (_ & latest & prev & older & _ & Hall & _).
  apply ThresholdClaims.all_conditions_spec in Hall
    as (_ & Hma & _).
  destruct (Hma Hu) as [_ H].
  unfold MA_S, MA_L, gtb in H. rewrite Hw in H.
  rewrite FloatFacts.ltb_irrefl in H. discriminate.
Qed.

Lemma X19_equal_windows_return_nothing_witness :
  screen_stocks ThresholdSamples.equal_windows (Samples.twenty_days 120)
  = None.
Proof.
  apply X19_equal_windows_return_nothing; reflexivity.
Defined.

(** X20.  The answer does not depend on the order in which the rows of
    the table are given, as long as no two rows bear the same date. *)
Theorem X20_screen_ignores_row_order (cfg : config)
    (rows rows' : list bar) :
  Permutation rows rows' -> NoDup (map date rows) ->
  screen_stocks cfg rows = screen_stocks cfg rows'.
Proof.
  intros P N. unfold screen_stocks.
  now rewrite (sort_by_of_perm date P N).
Qed.

Lemma X20_screen_ignores_row_order_witness :
  screen_stocks Samples.price_only (Samples.twenty_days 99)
  = screen_stocks Samples.price_only (rev (Samples.twenty_days 99)).
Proof.
  apply X20_screen_ignores_row_order.
  - apply Permutation_rev.
  - vm_compute.
    repeat (constructor;
            [cbn; intuition discriminate|]).
    constructor.
Defined.

(** X21.  On candles of finite prices between 0 and a million whose
    high and low enclose the open and the close, the upper-shadow ratio
    of a returned record is a number from 0 up to, and less than, 1: the
    0.01 added to the range keeps the division defined on a candle of no
    range.  (The bound on the prices keeps the 0.01 from being lost when
    the sum is rounded to binary64.) *)
Theorem X21_shadow_ratio_is_a_proper_fraction (cfg : config)
    (rows : list bar) (r : pass_record) :
  Forall (fun b => candle_ok (open_price b) (high_price b) (low_price b)
                             (close_price b)) rows ->
  screen_stocks cfg rows = Some r ->
  exists q, p_shadow_ratio r = Fin q /\ 0 <= q < 1.
Proof.
  intros Hc E.
  destruct (screen_stocks_pass _ _ E)
    as (_ & latest & prev & older & Er & _ & _ & Hs & _).
  assert (Hin : In latest rows).
  { apply (Permutation_in _ (sort_by_perm date rows)).
    apply in_rev. rewrite Er. now left. }
  rewrite Forall_forall in Hc.
  destruct (Hc _ Hin)
    as (qo & qh & ql & qc & Eo & Eh & El & Ec & H1 & H2 & H3 & H4
        & _ & _).
  rewrite Hs. unfold actual_shadow_ratio, upper_shadow, candle_range.
  rewrite Eo, Eh, El, Ec. unfold py_max, gtb, ltb.
  assert (Hr : 0 < qh + - ql + (1 # 100)) by lra.
  assert (Hd : Qeq_bool (qh + - ql + (1 # 100)) 0 = false).
  { destruct (Qeq_bool (qh + - ql + (1 # 100)) 0) eqn:E0;
      [|reflexivity].
    apply Qeq_bool_iff in E0. lra. }
  destruct (Qltb qo qc) eqn:Eoc; cbn; rewrite Hd;
    eexists; (split; [reflexivity|]); split.
  - apply Qle_shift_div_l; [exact Hr | lra].
  - apply Qlt_shift_div_r; [exact Hr | lra].
  - apply Qle_shift_div_l; [exact Hr | lra].
  - apply Qlt_shift_div_r; [exact Hr | lra].
Qed.

Lemma X21_shadow_ratio_is_a_proper_fraction_witness :
  exists r q,
    screen_stocks Samples.price_only (Samples.twenty_days 99) = Some r
    /\ p_shadow_ratio r = Fin q /\ 0 <= q < 1.
Proof.
  destruct (screen_stocks Samples.price_only (Samples.twenty_days 99))
    as [r|] eqn:E; [|vm_compute in E; discriminate].
  destruct (@X21_shadow_ratio_is_a_proper_fraction
              Samples.price_only (Samples.twenty_days 99) r)
    as (q & H); [|exact E|].
  - apply Forall_forall. intros b Hb.
    assert (Eb : exists d, b = Samples.quote d 99).
    { unfold Samples.twenty_days in Hb.
      apply in_app_or in Hb as [Hb|[<-|[]]];
        [apply in_map_iff in Hb as (i & <- & _)|];
        eexists; reflexivity. }
    destruct Eb as [d ->].
    exists 99, 99, 99, 99.
    repeat split; try reflexivity; unfold Qle; cbn [Qnum Qden]; lia.
  - exists r, q. split; [reflexivity | exact H].
Defined.

End ThresholdExtras.
